(** * Experiment configuration of the digraph transformer (config.py)

    A shallow embedding of [config.py]: the dataset registry, the default
    configuration record and the builder [get_config], which overlays presets,
    resolves the dataset and derives the step counts and the learning rates.

    Python integers are [Z]; Python floats are IEEE 754 binary64 values, Rocq's
    primitive [float]; exceptions are values of [exn] carried by [result]. *)

From Stdlib Require Import ZArith List String Ascii Bool Floats QArith Qround Lia.
Import ListNotations.

Set Warnings "-inexact-float".

Local Open Scope string_scope.
Local Open Scope list_scope.
Local Open Scope Z_scope.

(** ** Exceptions and results *)

(** The exceptions the interpreter can raise in the code of [config.py]. *)
Inductive exn : Type :=
| KeyError (key : string)
| ZeroDivisionError
| OverflowError
| ValueError.

Inductive result (A : Type) : Type :=
| Ok (a : A)
| Raise (e : exn).

Arguments Ok {A} a.
Arguments Raise {A} e.

Definition bind {A B : Type} (r : result A) (k : A -> result B) : result B :=
  match r with
  | Ok a => k a
  | Raise e => Raise e
  end.

Notation "x <- r ;; k" := (bind r (fun x => k))
  (at level 61, r at next level, right associativity).

Definition is_KeyError (e : exn) : bool :=
  match e with KeyError _ => true | _ => false end.

(** ** Python numbers *)

Module Py.

(** A number is an [int] (unbounded) or a [float] (binary64). *)
Inductive num : Type :=
| NInt (z : Z)
| NFloat (f : float).

(** An integer as an unrounded binary number with exponent 0. *)
Definition SF_of_Z (z : Z) : spec_float :=
  match z with
  | Z0 => S754_zero false
  | Zpos p => S754_finite false p 0
  | Zneg p => S754_finite true p 0
  end.

(** [float(z)]: the nearest binary64 value, ties to even; an integer that
    rounds beyond the largest finite value raises [OverflowError]. *)
Definition float_of_int (z : Z) : result float :=
  match binary_normalize prec emax z 0 false with
  | S754_infinity _ => Raise OverflowError
  | r => Ok (SF2Prim r)
  end.

(** [a / b] on two ints: the correctly rounded quotient. *)
Definition int_true_div (a b : Z) : result float :=
  if b =? 0 then Raise ZeroDivisionError
  else match SFdiv prec emax (SF_of_Z a) (SF_of_Z b) with
       | S754_infinity _ => Raise OverflowError
       | r => Ok (SF2Prim r)
       end.

Definition to_float (x : num) : result float :=
  match x with
  | NInt z => float_of_int z
  | NFloat f => Ok f
  end.

(** [x * y]: exact on two ints; otherwise both operands become floats. *)
Definition mul (x y : num) : result num :=
  match x, y with
  | NInt a, NInt b => Ok (NInt (a * b))
  | _, _ =>
      a <- to_float x ;;
      b <- to_float y ;;
      Ok (NFloat (a * b)%float)
  end.

(** [x / y]: true division, whose result is always a float. *)
Definition truediv (x y : num) : result num :=
  match x, y with
  | NInt a, NInt b => q <- int_true_div a b ;; Ok (NFloat q)
  | _, _ =>
      a <- to_float x ;;
      b <- to_float y ;;
      if (b =? 0)%float then Raise ZeroDivisionError
      else Ok (NFloat (a / b)%float)
  end.

(** The integer part of a finite float, rounding towards zero. *)
Definition trunc_SF (x : spec_float) : Z :=
  match x with
  | S754_finite s m e =>
      let a := match e with
               | Zneg p => Z.shiftr (Zpos m) (Zpos p)
               | _ => Z.shiftl (Zpos m) e
               end in
      if s then - a else a
  | _ => 0
  end.

(** [int(x)]. *)
Definition int (x : num) : result Z :=
  match x with
  | NInt z => Ok z
  | NFloat f =>
      match Prim2SF f with
      | S754_nan => Raise ValueError
      | S754_infinity _ => Raise OverflowError
      | r => Ok (trunc_SF r)
      end
  end.

End Py.

(** ** Datasets *)

(** The dataclass [Dataset]. *)
Record Dataset : Type := mkDataset {
  name : string;
  path : string;
  sequence_length : Z;
  num_classes : Z;
  ast_depth : Z;
  num_nodetypes : Z;
  num_nodeattributes : Z;
  edge_df_types : option Z;
  edge_ast_types : option Z;
  num_train_samples : Z;
  idx2vocab : option (list (Z * string));
  vocab2idx : option (list (string * Z))
}.

Definition OGBG_CODE2 : Dataset :=
  mkDataset "ogbg-code2" "ogbg-code2" 5 5002 20 98 10030 None
            None 407976 None None.

Definition OGBG_CODE2_NOREV : Dataset :=
  mkDataset "ogbg-code2-norev" "ogbg-code2-norev" 5 5002 20
            98 10030 None None 407976 None None.

Definition OGBG_CODE2_NOREV_DF : Dataset :=
  mkDataset "ogbg-code2-norev-df" "ogbg-code2-norev-df" 5
            5002 20 113 11973 (Some 12) (Some 51) 407976 None None.

Definition SORTING_NETWORKS : Dataset :=
  mkDataset "sn" "7to11_12_13to16" 1 2 (-1) (-1) 13 None
            None 800000 None None.

(** The dict [datasets], in the order of the literal. *)
Definition datasets : list (string * Dataset) :=
  [ ("ogbg-code2", OGBG_CODE2);
    ("ogbg-code2-norev", OGBG_CODE2_NOREV);
    ("ogbg-code2-norev-df", OGBG_CODE2_NOREV_DF);
    ("sn-7to11-12-13to16", SORTING_NETWORKS) ].

(** Lookup in a dict with string keys. *)
Fixpoint dict_get {V : Type} (d : list (string * V)) (k : string) : option V :=
  match d with
  | [] => None
  | (k', v) :: d' => if String.eqb k k' then Some v else dict_get d' k
  end.

(** [d[k]], which raises [KeyError] on a missing key. *)
Definition dict_getitem {V : Type} (d : list (string * V)) (k : string)
  : result V :=
  match dict_get d k with
  | Some v => Ok v
  | None => Raise (KeyError k)
  end.

Definition keys {V : Type} (d : list (string * V)) : list string :=
  map fst d.

(** ** The configuration record

    One record per nested dict of [get_default_config]; a ConfigDict keeps the
    type of a field once it is set, so each field has the type of its default. *)

Module Posenc.
Record t : Type := mk {
  posenc_type : string;
  exclude_canonical : bool;
  relative_positional_encodings : bool;
  do_also_reverse : bool;
  ppr_restart_probaility : float;
  random_walk_steps : Z;
  top_k_eigenvectors : Z;
  excl_k_eigenvectors : Z;
  concatenate_eigenvalues : bool;
  maglap_q : float;
  maglap_q_absolute : bool;
  maglap_symmetric_norm : bool;
  maglap_transformer : bool;
  maglap_use_signnet : bool;
  maglap_use_gnn : bool;
  maglap_norm_comps_sep : bool;
  maglap_l2_norm : bool;
  maglap_dropout_p : float;
  maglap_sign_rotate : bool
}.
End Posenc.

Module DatasetConfig.
Record t : Type := mk {
  do_bucket_by_size : bool;
  exclude_control_flow_edges : bool;
  exclude_next_syntax_edges : bool
}.
End DatasetConfig.

Module Gnn.
Record t : Type := mk {
  gnn_type : string;
  k_hop : Z;
  mlp_layers : Z;
  se : string;
  tightening_factor : Z;
  use_edge_attr : bool;
  bidirectional : bool;
  residual : bool;
  concat : bool
}.
End Gnn.

Module Attention.
Record t : Type := mk {
  num_heads : Z;
  dense_widening_factor : Z;
  with_bias : bool;
  dropout_p : float;
  with_attn_dropout : bool;
  re_im_separate_projection : bool;
  with_posenc_residual : bool
}.
End Attention.

Module Encoder.
Record t : Type := mk { attribute_dropout : float }.
End Encoder.

Module Loss.
Record t : Type := mk { only_punish_first_end_of_sequence_token : bool }.
End Loss.

Module Model.
Record t : Type := mk {
  model_type : string;
  num_layers : Z;
  d_model : Z;
  global_readout : string;
  activation : string;
  batch_norm : bool;
  deg_sensitive_residual : bool;
  attention_config : Attention.t;
  encoder_config : Encoder.t;
  loss_kwargs : Loss.t;
  posenc_config : Posenc.t;
  with_pre_gnn : bool;
  gnn_config : Gnn.t
}.
End Model.

Module Evaluation.
Record t : Type := mk {
  eval_also_on_test : bool;
  batch_size : Z;
  max_number_of_instances : Z;
  unk_offset : float;
  eos_offset : float
}.
End Evaluation.

Module LrSchedule.
Record t : Type := mk {
  warmup_steps : Z;
  decay_steps : Z;
  init_value : float;
  peak_value : float;
  end_value : float
}.
End LrSchedule.

Module OptimizerKwargs.
Record t : Type := mk { b1 : float; b2 : float; weight_decay : float }.
End OptimizerKwargs.

Module Agc.
Record t : Type := mk { clipping : float }.
End Agc.

Module Optimizer.
Record t : Type := mk {
  name : string;
  optimizer_kwargs : OptimizerKwargs.t;
  lr_schedule : LrSchedule.t;
  use_agc : bool;
  agc_kwargs : Agc.t
}.
End Optimizer.

Module Training.
Record t : Type := mk { batch_size : Z }.
End Training.

(** [config.experiment_kwargs.config]. A placeholder is [None]; [dataset] is
    absent ([None]) until [get_config] resolves [dataset_name]. *)
Module Experiment.
Record t : Type := mk {
  data_root : option string;
  debug : bool;
  dataset_name : string;
  pmap_axis : string;
  optimizer : Optimizer.t;
  model : Model.t;
  dataset_config : DatasetConfig.t;
  training : Training.t;
  evaluation : Evaluation.t;
  dataset : option Dataset
}.
End Experiment.

Module ExperimentKwargs.
Record t : Type := mk { config : Experiment.t }.
End ExperimentKwargs.

(** The top-level record. [base] stands for the fields of jaxline's base
    config that this module neither reads nor writes. *)
Record Config (Base : Type) : Type := mkConfig {
  base : Base;
  restore_path : option string;
  warmup_epochs : Z;
  epochs : Z;
  training_steps : Z;
  log_train_data_interval : Z;
  log_tensors_interval : Z;
  save_checkpoint_interval : Z;
  save_initial_train_checkpoint : bool;
  checkpoint_dir : string;
  eval_specific_checkpoint_dir : string;
  best_model_eval_metric : string;
  best_model_eval_metric_higher_is_better : bool;
  experiment_kwargs : ExperimentKwargs.t
}.

Arguments mkConfig {Base}.
Arguments base {Base}.
Arguments restore_path {Base}.
Arguments warmup_epochs {Base}.
Arguments epochs {Base}.
Arguments training_steps {Base}.
Arguments log_train_data_interval {Base}.
Arguments log_tensors_interval {Base}.
Arguments save_checkpoint_interval {Base}.
Arguments save_initial_train_checkpoint {Base}.
Arguments checkpoint_dir {Base}.
Arguments eval_specific_checkpoint_dir {Base}.
Arguments best_model_eval_metric {Base}.
Arguments best_model_eval_metric_higher_is_better {Base}.
Arguments experiment_kwargs {Base}.

(** *** Assignments to fields *)

Definition set_restore_path {Base} (v : option string) (c : Config Base)
  : Config Base :=
  mkConfig (base c) v (warmup_epochs c) (epochs c) (training_steps c)
    (log_train_data_interval c) (log_tensors_interval c)
    (save_checkpoint_interval c) (save_initial_train_checkpoint c)
    (checkpoint_dir c) (eval_specific_checkpoint_dir c)
    (best_model_eval_metric c) (best_model_eval_metric_higher_is_better c)
    (experiment_kwargs c).

Definition set_training_steps {Base} (v : Z) (c : Config Base) : Config Base :=
  mkConfig (base c) (restore_path c) (warmup_epochs c) (epochs c) v
    (log_train_data_interval c) (log_tensors_interval c)
    (save_checkpoint_interval c) (save_initial_train_checkpoint c)
    (checkpoint_dir c) (eval_specific_checkpoint_dir c)
    (best_model_eval_metric c) (best_model_eval_metric_higher_is_better c)
    (experiment_kwargs c).

Definition set_experiment {Base} (v : Experiment.t) (c : Config Base)
  : Config Base :=
  mkConfig (base c) (restore_path c) (warmup_epochs c) (epochs c)
    (training_steps c)
    (log_train_data_interval c) (log_tensors_interval c)
    (save_checkpoint_interval c) (save_initial_train_checkpoint c)
    (checkpoint_dir c) (eval_specific_checkpoint_dir c)
    (best_model_eval_metric c) (best_model_eval_metric_higher_is_better c)
    (ExperimentKwargs.mk v).

(** [config.experiment_kwargs.config]. *)
Definition experiment {Base} (c : Config Base) : Experiment.t :=
  ExperimentKwargs.config (experiment_kwargs c).

Definition set_dataset (v : Dataset) (e : Experiment.t) : Experiment.t :=
  Experiment.mk (Experiment.data_root e) (Experiment.debug e)
    (Experiment.dataset_name e) (Experiment.pmap_axis e)
    (Experiment.optimizer e) (Experiment.model e)
    (Experiment.dataset_config e) (Experiment.training e)
    (Experiment.evaluation e) (Some v).

Definition set_lr_schedule (v : LrSchedule.t) (e : Experiment.t)
  : Experiment.t :=
  let o := Experiment.optimizer e in
  Experiment.mk (Experiment.data_root e) (Experiment.debug e)
    (Experiment.dataset_name e) (Experiment.pmap_axis e)
    (Optimizer.mk (Optimizer.name o) (Optimizer.optimizer_kwargs o) v
       (Optimizer.use_agc o) (Optimizer.agc_kwargs o))
    (Experiment.model e)
    (Experiment.dataset_config e) (Experiment.training e)
    (Experiment.evaluation e) (Experiment.dataset e).

(** [config.experiment_kwargs.config.optimizer.lr_schedule]. *)
Definition lr_schedule_of (e : Experiment.t) : LrSchedule.t :=
  Optimizer.lr_schedule (Experiment.optimizer e).

(** [config.experiment_kwargs.config.training.batch_size]. *)
Definition batch_size_of (e : Experiment.t) : Z :=
  Training.batch_size (Experiment.training e).

(** [config.experiment_kwargs.config.dataset_config.do_bucket_by_size]. *)
Definition do_bucket_by_size_of (e : Experiment.t) : bool :=
  DatasetConfig.do_bucket_by_size (Experiment.dataset_config e).

(** ** Strings and ordered dicts *)

(** [s.split(sep)] for a one-character separator: the pieces between the
    separators, empty pieces included. *)
Fixpoint split (sep : ascii) (s : string) : list string :=
  match s with
  | EmptyString => [EmptyString]
  | String c s' =>
      if Ascii.eqb c sep then EmptyString :: split sep s'
      else match split sep s' with
           | piece :: pieces => String c piece :: pieces
           | [] => [String c EmptyString]
           end
  end.

(** An [OrderedDict] whose values are all [None], as its keys in insertion
    order. Setting a key that is present keeps its position. *)
Definition od_setitem (d : list string) (k : string) : list string :=
  if existsb (String.eqb k) d then d else d ++ [k].

(** [collections.OrderedDict.fromkeys(l)]. *)
Definition OrderedDict_fromkeys (l : list string) : list string :=
  fold_left od_setitem l [].

(** [list(collections.OrderedDict.fromkeys(preset.split(',')))]. *)
Definition unique_presets (preset : string) : list string :=
  OrderedDict_fromkeys (split "," preset).

(** Truth value of a string: non-empty. *)
Definition truthy (s : string) : bool :=
  match s with EmptyString => false | String _ _ => true end.

(** ** The builder *)

Section Builder.

(** The fields of jaxline's base config left alone by this module, and the
    record [base_config.get_base_config()] holds for them. *)
Variable Base : Type.
Variable get_base_config : Base.

(** The value of [restore_path] in the base config. *)
Variable base_restore_path : option string.

(** [presets.apply_presets]: the module [presets] is not part of the sources.
    It takes the config under construction and the list of preset names and
    returns the config with the overrides of the presets merged in. *)
Variable apply_presets : Config Base -> list string -> Config Base.

Definition training_batch_size : Z := 48.
Definition train_devices : Z := 8.
Definition eval_batch_size : Z := 48.

Definition loss_kwargs : Loss.t := Loss.mk false.

Definition posenc_config : Posenc.t :=
  Posenc.mk "" false true
    true 0.2%float 3 10
    1 false 0.25%float true false false true false false true 0%float true.

Definition dataset_config : DatasetConfig.t :=
  DatasetConfig.mk false true true.

Definition gnn_config : Gnn.t :=
  Gnn.mk "gcn" 2 2 "gnn" 1 true false false true.

Definition attention_config : Attention.t :=
  Attention.mk 4 4 false 0.2%float true false false.

Definition encoder_config : Encoder.t := Encoder.mk 0%float.

Definition model_config : Model.t :=
  Model.mk "sat" 4 256 "mean" "relu" false true
    attention_config encoder_config loss_kwargs posenc_config false gnn_config.

Definition evaluation_config : Evaluation.t :=
  Evaluation.mk true eval_batch_size (-1) 0%float 0%float.

(** [get_default_config()]. *)
Definition get_default_config : result (Config Base) :=
  let warmup_epochs := 2 in
  let epochs := 32 in
  q <- Py.truediv (Py.NInt 405000) (Py.NInt training_batch_size) ;;
  q <- Py.truediv q (Py.NInt train_devices) ;;
  steps_per_epoch <- Py.int q ;;
  let training_steps := epochs * steps_per_epoch in
  Ok (mkConfig get_base_config base_restore_path
        warmup_epochs epochs training_steps
        60 60 300 false
        "/tmp/checkpoint/digraph_transformer" "" "F1" true
        (ExperimentKwargs.mk
           (Experiment.mk None false "ogbg-code2" "i"
              (Optimizer.mk "adamw"
                 (OptimizerKwargs.mk 0.9%float 0.999%float 1e-6%float)
                 (LrSchedule.mk warmup_epochs training_steps
                    0%float (1e-4 / 32)%float 0%float)
                 false
                 (Agc.mk 0.1%float))
              model_config dataset_config
              (Training.mk training_batch_size)
              evaluation_config
              None))).

(** Lines 85 to 92 of [get_config]: the default config with the
    [restore_path] placeholder, overlaid with the presets when [preset] is
    not empty. *)
Definition preset_config (preset : string) : result (Config Base) :=
  config <- get_default_config ;;
  let config := set_restore_path None config in
  Ok (if truthy preset
      then apply_presets config (unique_presets preset)
      else config).

(** The local [effective_batch_size] (lines 98 to 101). *)
Definition effective_batch_size (e : Experiment.t) : result Py.num :=
  let effective_batch_size := Py.NInt (batch_size_of e) in
  if do_bucket_by_size_of e
  then Py.mul effective_batch_size (Py.NFloat 3.5%float)
  else Ok effective_batch_size.

(** The local [steps_per_epoch] (lines 102 to 104), for the dataset that
    [dataset_name] resolved to. *)
Definition steps_per_epoch (e : Experiment.t) (dataset : Dataset)
  : result Z :=
  effective_batch_size <- effective_batch_size e ;;
  q <- Py.truediv (Py.NInt (num_train_samples dataset)) effective_batch_size ;;
  q <- Py.truediv q (Py.NInt 8) ;;
  Py.int q.

(** [v *= batch_size] on a float field [v]. *)
Definition imul_batch_size (v : float) (batch_size : Z) : result float :=
  r <- Py.mul (Py.NFloat v) (Py.NInt batch_size) ;;
  Py.to_float r.

(** Lines 94 to 116 of [get_config]. *)
Definition resolve (config : Config Base) : result (Config Base) :=
  dataset <- dict_getitem datasets (Experiment.dataset_name (experiment config)) ;;
  let config := set_experiment (set_dataset dataset (experiment config)) config in
  steps_per_epoch <- steps_per_epoch (experiment config) dataset ;;
  let config := set_training_steps (epochs config * steps_per_epoch) config in
  let lr_schedule := lr_schedule_of (experiment config) in
  let warmup_steps := warmup_epochs config * steps_per_epoch in
  let decay_steps := training_steps config in
  let batch_size := batch_size_of (experiment config) in
  init_value <- imul_batch_size (LrSchedule.init_value lr_schedule) batch_size ;;
  peak_value <- imul_batch_size (LrSchedule.peak_value lr_schedule) batch_size ;;
  end_value <- imul_batch_size (LrSchedule.end_value lr_schedule) batch_size ;;
  Ok (set_experiment
        (set_lr_schedule
           (LrSchedule.mk warmup_steps decay_steps
              init_value peak_value end_value)
           (experiment config))
        config).

(** [get_config(preset)]. *)
Definition get_config (preset : string) : result (Config Base) :=
  config <- preset_config preset ;;
  resolve config.

End Builder.

(** ** Definitions used to state the properties *)

(** Deduplication by first occurrence with the order preserved, as the
    specification words it: an entry is kept where it first occurs and its
    later occurrences are dropped. *)
Fixpoint dedup_first (l : list string) : list string :=
  match l with
  | [] => []
  | x :: l' => x :: filter (fun y => negb (String.eqb y x)) (dedup_first l')
  end.

(** Whether an optional field holds a value. *)
Definition present {A : Type} (o : option A) : bool :=
  match o with Some _ => true | None => false end.

(** Assignments a preset can make. *)
Definition set_training (v : Training.t) (e : Experiment.t) : Experiment.t :=
  Experiment.mk (Experiment.data_root e) (Experiment.debug e)
    (Experiment.dataset_name e) (Experiment.pmap_axis e)
    (Experiment.optimizer e) (Experiment.model e)
    (Experiment.dataset_config e) v
    (Experiment.evaluation e) (Experiment.dataset e).

Definition set_dataset_config (v : DatasetConfig.t) (e : Experiment.t)
  : Experiment.t :=
  Experiment.mk (Experiment.data_root e) (Experiment.debug e)
    (Experiment.dataset_name e) (Experiment.pmap_axis e)
    (Experiment.optimizer e) (Experiment.model e)
    v (Experiment.training e)
    (Experiment.evaluation e) (Experiment.dataset e).

Definition set_dataset_name (v : string) (e : Experiment.t) : Experiment.t :=
  Experiment.mk (Experiment.data_root e) (Experiment.debug e)
    v (Experiment.pmap_axis e)
    (Experiment.optimizer e) (Experiment.model e)
    (Experiment.dataset_config e) (Experiment.training e)
    (Experiment.evaluation e) (Experiment.dataset e).

Definition set_do_bucket_by_size (v : bool) (e : Experiment.t)
  : Experiment.t :=
  let d := Experiment.dataset_config e in
  set_dataset_config
    (DatasetConfig.mk v (DatasetConfig.exclude_control_flow_edges d)
       (DatasetConfig.exclude_next_syntax_edges d)) e.

Definition set_batch_size (v : Z) (e : Experiment.t) : Experiment.t :=
  set_training (Training.mk v) e.

(** A preset table: each name stands for an override of the experiment
    record; names are applied in the order given and unknown names change
    nothing. One possible behaviour of [presets.apply_presets]. *)
Definition apply_overrides {Base : Type}
  (table : list (string * (Experiment.t -> Experiment.t)))
  (config : Config Base) (names : list string) : Config Base :=
  fold_left
    (fun c n =>
       match dict_get table n with
       | Some f => set_experiment (f (experiment c)) c
       | None => c
       end)
    names config.

Definition example_presets : list (string * (Experiment.t -> Experiment.t)) :=
  [ ("bucket", set_do_bucket_by_size true);
    ("batch64", set_batch_size 64);
    ("batch0", set_batch_size 0);
    ("sn", set_dataset_name "sn-7to11-12-13to16");
    ("mnist", set_dataset_name "mnist") ].

(** The rational value of a finite binary number. *)
Definition Q_of_SF (x : spec_float) : Q :=
  match x with
  | S754_finite s m e =>
      let q := match e with
               | Zneg p => Qmake (Zpos m) (2 ^ p)
               | _ => inject_Z (Zpos m * 2 ^ e)
               end in
      if s then Qopp q else q
  | _ => inject_Z 0
  end.

Definition finite_SF (x : spec_float) : bool :=
  match x with
  | S754_zero _ | S754_finite _ _ _ => true
  | _ => false
  end.

(** The step derivation as a function of the three values it reads. *)
Definition derive_steps (n batch_size : Z) (bucket : bool) : result Z :=
  ebs <- (if bucket
          then Py.mul (Py.NInt batch_size) (Py.NFloat 3.5%float)
          else Ok (Py.NInt batch_size)) ;;
  q <- Py.truediv (Py.NInt n) ebs ;;
  q <- Py.truediv q (Py.NInt 8) ;;
  Py.int q.

(** A finite non-negative number of non-positive exponent whose value lies in
    [[lo, hi)]. *)
Definition SF_between (lo hi : Z) (x : spec_float) : Prop :=
  match x with
  | S754_zero _ => lo <= 0 < hi
  | S754_finite false m e =>
      e <= 0 /\ lo * 2 ^ (- e) <= Zpos m < hi * 2 ^ (- e)
  | _ => False
  end.

(** The config lines 94 to 116 return for the config [c] after the presets,
    when [dataset_name] resolved to [d], the derivation gave [spe] steps per
    epoch and the batch size converted to the float [b]. *)
Definition resolved {Base : Type} (c : Config Base) (d : Dataset) (spe : Z)
  (b : float) : Config Base :=
  set_experiment
    (set_lr_schedule
       (LrSchedule.mk (warmup_epochs c * spe) (epochs c * spe)
          (LrSchedule.init_value (lr_schedule_of (experiment c)) * b)%float
          (LrSchedule.peak_value (lr_schedule_of (experiment c)) * b)%float
          (LrSchedule.end_value (lr_schedule_of (experiment c)) * b)%float)
       (set_dataset d (experiment c)))
    (set_training_steps (epochs c * spe) c).

(** The config [c] with the bucketing flag assigned. *)
Definition with_bucketing {Base : Type} (flag : bool) (c : Config Base)
  : Config Base :=
  set_experiment (set_do_bucket_by_size flag (experiment c)) c.

(** Whether the character [c] occurs in [s]. *)
Fixpoint mem_char (c : ascii) (s : string) : bool :=
  match s with
  | EmptyString => false
  | String c' s' => Ascii.eqb c' c || mem_char c s'
  end.

(** The number of occurrences of [c] in [s]. *)
Fixpoint count_char (c : ascii) (s : string) : nat :=
  match s with
  | EmptyString => O
  | String c' s' => ((if Ascii.eqb c' c then 1 else 0) + count_char c s')%nat
  end.

(** [','.join(l)]. *)
Definition join_commas (l : list string) : string := String.concat "," l.

(** The experiment record with the two step counts of the schedule
    assigned. *)
Definition set_step_counts (warmup_steps decay_steps : Z) (e : Experiment.t)
  : Experiment.t :=
  let s := lr_schedule_of e in
  set_lr_schedule
    (LrSchedule.mk warmup_steps decay_steps (LrSchedule.init_value s)
       (LrSchedule.peak_value s) (LrSchedule.end_value s)) e.

(** The number of samples one step consumes on the eight replicas: eight
    batches, each 3.5 times larger under bucketing. *)
Definition samples_per_step (e : Experiment.t) : Z :=
  (if do_bucket_by_size_of e then 28 else 8) * batch_size_of e.

(** The integer part of a rational, rounding towards zero as [int] does. *)
Definition Qtrunc (q : Q) : Z :=
  if Qle_bool (inject_Z 0) q then Qfloor q else Qceiling q.

(** ** The dataset registry *)

Lemma dict_get_datasets (k : string) (d : Dataset) :
  dict_get datasets k = Some d ->
  (k = "ogbg-code2" /\ d = OGBG_CODE2) \/
  (k = "ogbg-code2-norev" /\ d = OGBG_CODE2_NOREV) \/
  (k = "ogbg-code2-norev-df" /\ d = OGBG_CODE2_NOREV_DF) \/
  (k = "sn-7to11-12-13to16" /\ d = SORTING_NETWORKS).
Proof.
  unfold datasets, dict_get.
  repeat match goal with
         | |- context [String.eqb k ?s] =>
             destruct (String.eqb_spec k s) as [-> | _]
         end;
    intros H; inversion H; subst; auto 6.
Qed.

Lemma dict_get_In {V : Type} (d : list (string * V)) (k : string) :
  In k (keys d) <-> exists v, dict_get d k = Some v.
Proof.
  induction d as [| [k' v'] d IH]; simpl.
  - split; [intros [] | intros [v H]; discriminate].
  - destruct (String.eqb_spec k k') as [-> | Hne].
    + split; [intros _; now exists v' | now left].
    + rewrite <- IH. split; [intros [H | H]; [congruence | exact H] | now right].
Qed.

(** C3, as stated, fails: the key ['sn-7to11-12-13to16'] is registered for a
    record whose [name] is ['sn']. *)
Lemma registry_name_differs_from_key :
  ~ (forall k d, dict_get datasets k = Some d -> name d = k).
Proof.
  intros H.
  specialize (H "sn-7to11-12-13to16" SORTING_NETWORKS eq_refl).
  discriminate H.
Qed.

(** C3 (amended): for every key of the dataset registry the lookup returns a
    record; its [name] field equals the key for the three OGB keys, and is
    ['sn'] for the key ['sn-7to11-12-13to16']. *)
Theorem registry_name_of_key (k : string) :
  In k (keys datasets) ->
  exists d, dict_getitem datasets k = Ok d /\
            name d = if String.eqb k "sn-7to11-12-13to16" then "sn" else k.
Proof.
  intros Hk. apply dict_get_In in Hk as [d Hd].
  exists d. unfold dict_getitem. rewrite Hd. split; [reflexivity |].
  apply dict_get_datasets in Hd.
  destruct Hd as [[-> ->] | [[-> ->] | [[-> ->] | [-> ->]]]]; reflexivity.
Qed.

Lemma registry_name_of_key_witness :
  In "ogbg-code2-norev" (keys datasets) /\
  exists d, dict_getitem datasets "ogbg-code2-norev" = Ok d /\
            name d = "ogbg-code2-norev".
Proof.
  split.
  - simpl. auto.
  - apply (registry_name_of_key "ogbg-code2-norev"). simpl. auto.
Defined.

(** C4: in every record of the registry the two optional edge-type counts are
    both present or both absent; they are present exactly for the key
    ['ogbg-code2-norev-df'] and absent for the three other keys, which are
    all the keys there are. *)
Theorem edge_type_counts_copresent :
  keys datasets =
    ["ogbg-code2"; "ogbg-code2-norev"; "ogbg-code2-norev-df";
     "sn-7to11-12-13to16"] /\
  forall k d, dict_get datasets k = Some d ->
    present (edge_df_types d) = present (edge_ast_types d) /\
    (present (edge_df_types d) = true <-> k = "ogbg-code2-norev-df") /\
    (k <> "ogbg-code2-norev-df" ->
     edge_df_types d = None /\ edge_ast_types d = None).
Proof.
  split; [reflexivity |].
  intros k d Hd. apply dict_get_datasets in Hd.
  destruct Hd as [[-> ->] | [[-> ->] | [[-> ->] | [-> ->]]]]; simpl;
    repeat split; try reflexivity; try discriminate; try congruence.
Qed.

Lemma edge_type_counts_copresent_witness :
  dict_get datasets "ogbg-code2-norev-df" = Some OGBG_CODE2_NOREV_DF /\
  present (edge_df_types OGBG_CODE2_NOREV_DF) = true /\
  present (edge_ast_types OGBG_CODE2_NOREV_DF) = true.
Proof.
  pose proof (proj2 edge_type_counts_copresent
                "ogbg-code2-norev-df" OGBG_CODE2_NOREV_DF eq_refl)
    as [Heq [Hiff _]].
  split; [reflexivity |].
  assert (Hp : present (edge_df_types OGBG_CODE2_NOREV_DF) = true)
    by (apply Hiff; reflexivity).
  split; [exact Hp | rewrite <- Heq; exact Hp].
Defined.

(** ** Presets: splitting and deduplication *)

Lemma existsb_eqb_In (x : string) (l : list string) :
  existsb (String.eqb x) l = true <-> In x l.
Proof.
  rewrite existsb_exists. split.
  - intros [y [Hy Heq]]. apply String.eqb_eq in Heq. now subst.
  - intros H. exists x. split; [exact H | apply String.eqb_refl].
Qed.

Lemma filter_filter {A : Type} (f g : A -> bool) (l : list A) :
  filter f (filter g l) = filter (fun x => g x && f x) l.
Proof.
  induction l as [| a l IH]; simpl; [reflexivity |].
  destruct (g a); simpl; [destruct (f a) |]; now rewrite IH.
Qed.

(** The ordered dict built from [acc] by setting the keys of [l] in turn. *)
Lemma fold_od_setitem (l acc : list string) :
  fold_left od_setitem l acc =
  acc ++ filter (fun y => negb (existsb (String.eqb y) acc)) (dedup_first l).
Proof.
  revert acc. induction l as [| x l IH]; intros acc; simpl.
  - now rewrite app_nil_r.
  - rewrite IH, filter_filter. unfold od_setitem.
    destruct (existsb (String.eqb x) acc) eqn:Hx; simpl.
    + f_equal. apply filter_ext_in. intros y _.
      destruct (String.eqb_spec y x) as [-> | Hne]; simpl.
      * now rewrite Hx.
      * reflexivity.
    + rewrite <- app_assoc. simpl. do 2 f_equal.
      apply filter_ext_in. intros y _.
      rewrite existsb_app. simpl. rewrite orb_false_r, negb_orb.
      apply andb_comm.
Qed.

Lemma OrderedDict_fromkeys_dedup (l : list string) :
  OrderedDict_fromkeys l = dedup_first l.
Proof.
  unfold OrderedDict_fromkeys. rewrite fold_od_setitem. simpl.
  induction (dedup_first l) as [| a r IH]; simpl; [reflexivity | now f_equal].
Qed.

Lemma dedup_first_In (x : string) (l : list string) :
  In x (dedup_first l) <-> In x l.
Proof.
  induction l as [| a l IH]; simpl; [reflexivity |].
  rewrite filter_In, IH.
  destruct (String.eqb_spec x a) as [-> | Hne]; simpl.
  - split; auto.
  - split.
    + intros [H | [H _]]; auto.
    + intros [H | H]; [now left | right; auto].
Qed.

Lemma dedup_first_NoDup (l : list string) : NoDup (dedup_first l).
Proof.
  induction l as [| a l IH]; simpl; constructor.
  - rewrite filter_In. intros [_ H]. now rewrite String.eqb_refl in H.
  - now apply NoDup_filter.
Qed.

Lemma truthy_nonempty (s : string) : truthy s = true <-> s <> "".
Proof. destruct s; simpl; split; congruence. Qed.

(** *** Pieces of a preset string *)

Lemma split_nonempty (sep : ascii) (s : string) : split sep s <> [].
Proof.
  destruct s as [| c s]; simpl; [discriminate |].
  destruct (Ascii.eqb c sep); [discriminate |].
  destruct (split sep s); discriminate.
Qed.

Lemma concat_cons (sep x : string) (l : list string) :
  l <> [] -> String.concat sep (x :: l) = (x ++ sep ++ String.concat sep l)%string.
Proof. destruct l; [congruence | reflexivity]. Qed.

Lemma concat_String (sep : string) (c : ascii) (x : string) (l : list string) :
  String.concat sep (String c x :: l) = String c (String.concat sep (x :: l)).
Proof. destruct l; reflexivity. Qed.

(** Joining the pieces with the separator gives back the string. *)
Lemma concat_split (sep : ascii) (s : string) :
  String.concat (String sep "") (split sep s) = s.
Proof.
  induction s as [| c s IH]; simpl; [reflexivity |].
  destruct (Ascii.eqb_spec c sep) as [-> | Hne].
  - rewrite concat_cons by apply split_nonempty. simpl. now rewrite IH.
  - destruct (split sep s) as [| p ps] eqn:Hs.
    + now destruct (split_nonempty sep s).
    + rewrite concat_String. now rewrite IH.
Qed.

Lemma split_no_sep (sep : ascii) (s : string) :
  Forall (fun p => mem_char sep p = false) (split sep s).
Proof.
  induction s as [| c s IH]; simpl.
  - constructor; [reflexivity | constructor].
  - destruct (Ascii.eqb_spec c sep) as [-> | Hne].
    + constructor; [reflexivity | exact IH].
    + destruct (split sep s) as [| p ps].
      * constructor; [| constructor]. simpl.
        apply Ascii.eqb_neq in Hne. now rewrite Hne.
      * inversion IH; subst. constructor; [| assumption]. simpl.
        apply Ascii.eqb_neq in Hne. now rewrite Hne.
Qed.

Lemma split_length (sep : ascii) (s : string) :
  List.length (split sep s) = S (count_char sep s).
Proof.
  induction s as [| c s IH]; simpl; [reflexivity |].
  destruct (Ascii.eqb c sep); simpl.
  - now rewrite IH.
  - destruct (split sep s); simpl in *; [discriminate | exact IH].
Qed.

(** A string without the separator is its own single piece. *)
Lemma split_single (sep : ascii) (s : string) :
  mem_char sep s = false -> split sep s = [s].
Proof.
  induction s as [| c s IH]; simpl; [reflexivity |].
  intros H. apply orb_false_elim in H as [Hc Hs].
  rewrite Hc, (IH Hs). reflexivity.
Qed.

(** The pieces of two strings joined by the separator. *)
Lemma split_app (sep : ascii) (a b : string) :
  split sep (a ++ String sep b)%string = split sep a ++ split sep b.
Proof.
  induction a as [| c a IH]; simpl.
  - now rewrite Ascii.eqb_refl.
  - destruct (Ascii.eqb c sep); [now rewrite IH |].
    rewrite IH. destruct (split sep a) as [| p ps] eqn:Hs.
    + now destruct (split_nonempty sep a).
    + reflexivity.
Qed.

(** Splitting undoes joining, for a non-empty list of separator-free
    strings. *)
Lemma split_concat (sep : ascii) (l : list string) :
  l <> [] -> Forall (fun p => mem_char sep p = false) l ->
  split sep (String.concat (String sep "") l) = l.
Proof.
  induction l as [| x l IH]; [congruence |].
  intros _ H. inversion H as [| ? ? Hx Hl]; subst.
  destruct l as [| y l].
  - simpl. now apply split_single.
  - rewrite concat_cons by discriminate.
    change (String sep "" ++ String.concat (String sep "") (y :: l))%string
      with (String sep (String.concat (String sep "") (y :: l))).
    rewrite split_app, (split_single _ _ Hx), IH by (discriminate || assumption).
    reflexivity.
Qed.

Lemma dedup_first_NoDup_id (l : list string) :
  NoDup l -> dedup_first l = l.
Proof.
  induction 1 as [| x l Hx Hl IH]; simpl; [reflexivity |].
  rewrite IH. f_equal.
  apply forallb_filter_id. apply forallb_forall. intros y Hy.
  destruct (String.eqb_spec y x) as [-> | _]; [contradiction | reflexivity].
Qed.

Lemma dedup_first_app (a b : list string) :
  dedup_first (a ++ b) =
  dedup_first a
    ++ filter (fun y => negb (existsb (String.eqb y) a)) (dedup_first b).
Proof.
  induction a as [| x a IH]; simpl.
  - induction (dedup_first b) as [| y r IHr]; simpl; [reflexivity |].
    now f_equal.
  - f_equal. rewrite IH, filter_app, filter_filter. f_equal.
    apply filter_ext. intros y.
    destruct (String.eqb y x); simpl;
      [now rewrite andb_false_r | now rewrite andb_true_r].
Qed.

Lemma filter_none {A : Type} (f : A -> bool) (l : list A) :
  (forall x, In x l -> f x = false) -> filter f l = [].
Proof.
  induction l as [| a l IH]; simpl; intros H; [reflexivity |].
  rewrite (H a) by now left. apply IH. intros x Hx. apply H. now right.
Qed.

Lemma unique_presets_eq (preset : string) :
  unique_presets preset = dedup_first (split "," preset).
Proof. apply OrderedDict_fromkeys_dedup. Qed.

Lemma unique_presets_app (p q : string) :
  unique_presets (p ++ "," ++ q)%string =
  unique_presets p
    ++ filter (fun y => negb (existsb (String.eqb y) (split "," p)))
         (unique_presets q).
Proof.
  rewrite !unique_presets_eq.
  change ("," ++ q)%string with (String "," q).
  now rewrite split_app, dedup_first_app.
Qed.

Lemma unique_presets_nonempty (preset : string) : unique_presets preset <> [].
Proof.
  rewrite unique_presets_eq.
  destruct (split "," preset) eqn:H; [now apply split_nonempty in H |].
  discriminate.
Qed.

Lemma unique_presets_no_comma (preset : string) :
  Forall (fun p => mem_char "," p = false) (unique_presets preset).
Proof.
  apply Forall_forall. intros x Hx.
  rewrite unique_presets_eq in Hx. apply (proj1 (dedup_first_In _ _)) in Hx.
  pose proof (split_no_sep "," preset) as H.
  rewrite Forall_forall in H. exact (H x Hx).
Qed.

(** ** Rounding in binary64

    Bounds on the results of the rounding, division, multiplication and
    conversion of [SpecFloat], in terms of the magnitude of a number: the
    digits of its mantissa plus its exponent. *)

(** *** Digit counts *)
Lemma digits2_pos_size (p : positive) : digits2_pos p = Pos.size p.
Proof. induction p; simpl; congruence. Qed.

Lemma Zdigits2_log2 (m : Z) : 0 < m -> Zdigits2 m = Z.log2 m + 1.
Proof.
  destruct m as [| p | p]; try lia. intros _. simpl.
  rewrite digits2_pos_size. destruct p; simpl; lia.
Qed.

Lemma Zdigits2_nonneg (m : Z) : 0 <= Zdigits2 m.
Proof. destruct m; simpl; lia. Qed.

Lemma Zdigits2_bounds (m : Z) :
  0 < m -> 2 ^ (Zdigits2 m - 1) <= m < 2 ^ Zdigits2 m.
Proof.
  intros Hm. rewrite (Zdigits2_log2 m Hm).
  replace (Z.log2 m + 1 - 1) with (Z.log2 m) by lia.
  replace (Z.log2 m + 1) with (Z.succ (Z.log2 m)) by lia.
  apply Z.log2_spec. exact Hm.
Qed.

Lemma Zdigits2_le (m k : Z) : 0 <= m -> 0 <= k -> m < 2 ^ k -> Zdigits2 m <= k.
Proof.
  intros Hm Hk H. destruct (Z.eq_dec m 0) as [-> | Hne]; [simpl; lia |].
  rewrite Zdigits2_log2 by lia.
  assert (Z.log2 m < k) by (apply Z.log2_lt_pow2; lia). lia.
Qed.

Lemma Zdigits2_ge (m k : Z) : 0 <= k -> 2 ^ k <= m -> k + 1 <= Zdigits2 m.
Proof.
  intros Hk H. assert (0 < m) by (pose proof (Z.pow_pos_nonneg 2 k); lia).
  rewrite Zdigits2_log2 by lia.
  assert (k <= Z.log2 m) by (apply Z.log2_le_pow2; lia). lia.
Qed.

Lemma Zdigits2_pos (m : Z) : 0 < m -> 1 <= Zdigits2 m.
Proof. intros H. rewrite Zdigits2_log2 by lia. pose proof (Z.log2_nonneg m). lia. Qed.

(** *** Shifting right *)
Lemma shr_1_m (mrs : shr_record) :
  0 <= shr_m mrs -> shr_m (shr_1 mrs) = shr_m mrs / 2.
Proof.
  destruct mrs as [m r s]. simpl. intros Hm.
  destruct m as [| [p | p |] | p]; simpl; try lia; try reflexivity.
  - rewrite Pos2Z.inj_xI. apply Z.div_unique with 1; lia.
  - rewrite Pos2Z.inj_xO. apply Z.div_unique with 0; lia.
Qed.

Lemma iter_shr_1_m (p : positive) :
  forall mrs, 0 <= shr_m mrs ->
  shr_m (SpecFloat.iter_pos shr_1 p mrs) = shr_m mrs / 2 ^ Zpos p.
Proof.
  induction p as [p IH | p IH |]; intros mrs Hm; simpl SpecFloat.iter_pos.
  - assert (H1 : 0 <= shr_m (shr_1 mrs))
      by (rewrite shr_1_m by lia; apply Z.div_pos; lia).
    assert (H2 : 0 <= shr_m (SpecFloat.iter_pos shr_1 p (shr_1 mrs)))
      by (rewrite IH by lia; apply Z.div_pos; [lia | apply Z.pow_pos_nonneg; lia]).
    rewrite IH, IH, shr_1_m by lia.
    rewrite !Z.div_div by (try apply Z.pow_pos_nonneg; lia).
    f_equal. rewrite Pos2Z.inj_xI, <- Z.pow_add_r, <- (Z.pow_succ_r 2) by lia.
    f_equal. lia.
  - assert (H2 : 0 <= shr_m (SpecFloat.iter_pos shr_1 p mrs))
      by (rewrite IH by lia; apply Z.div_pos; [lia | apply Z.pow_pos_nonneg; lia]).
    rewrite IH, IH by lia.
    rewrite !Z.div_div by (try apply Z.pow_pos_nonneg; lia).
    f_equal. rewrite Pos2Z.inj_xO, <- Z.pow_add_r by lia. f_equal. lia.
  - rewrite shr_1_m by lia. reflexivity.
Qed.

Lemma fexp_eq (x : Z) : fexp prec emax x = Z.max (x - 53) (-1074).
Proof. reflexivity. Qed.

Lemma div_pow2_nonneg (m k : Z) : 0 <= m -> 0 <= m / 2 ^ k.
Proof.
  intros Hm. destruct (Z_lt_le_dec k 0).
  - rewrite Z.pow_neg_r, Z.div_0_r by lia. lia.
  - apply Z.div_pos; [lia | apply Z.pow_pos_nonneg; lia].
Qed.

Lemma Zdigits2_div_pow2 (m k : Z) :
  0 < m -> 0 <= k < Zdigits2 m -> Zdigits2 (m / 2 ^ k) = Zdigits2 m - k.
Proof.
  intros Hm Hk. pose proof (Zdigits2_bounds m Hm) as [Hlo Hhi].
  assert (Hp : 0 < 2 ^ k) by (apply Z.pow_pos_nonneg; lia).
  assert (H1 : 2 ^ (Zdigits2 m - 1 - k) <= m / 2 ^ k).
  { apply Z.div_le_lower_bound; [lia |].
    rewrite <- Z.pow_add_r by lia.
    replace (k + (Zdigits2 m - 1 - k)) with (Zdigits2 m - 1) by lia. lia. }
  assert (H2 : m / 2 ^ k < 2 ^ (Zdigits2 m - k)).
  { apply Z.div_lt_upper_bound; [lia |].
    rewrite <- Z.pow_add_r by lia.
    replace (k + (Zdigits2 m - k)) with (Zdigits2 m) by lia. lia. }
  apply Z.le_antisymm.
  - apply Zdigits2_le; lia.
  - pose proof (Zdigits2_ge (m / 2 ^ k) (Zdigits2 m - 1 - k)). lia.
Qed.

Lemma div_pow2_small (m k : Z) : 0 <= m -> Zdigits2 m <= k -> m / 2 ^ k = 0.
Proof.
  intros Hm Hk. destruct (Z.eq_dec m 0) as [-> | Hne]; [reflexivity |].
  apply Z.div_small. pose proof (Zdigits2_bounds m ltac:(lia)) as [_ Hhi].
  split; [lia |]. eapply Z.lt_le_trans; [exact Hhi |].
  apply Z.pow_le_mono_r; lia.
Qed.

Lemma Zdigits2_succ (m : Z) :
  0 <= m -> Zdigits2 m <= Zdigits2 (m + 1) <= Zdigits2 m + 1.
Proof.
  intros Hm. destruct (Z.eq_dec m 0) as [-> | Hne]; [simpl; lia |].
  pose proof (Zdigits2_bounds m ltac:(lia)) as [Hlo Hhi].
  pose proof (Zdigits2_pos m ltac:(lia)).
  split.
  - pose proof (Zdigits2_ge (m + 1) (Zdigits2 m - 1)). lia.
  - apply Zdigits2_le; try lia.
    rewrite Z.pow_add_r, Z.pow_1_r by lia. lia.
Qed.

(** The first step of rounding: shift right up to the exponent that the
    format gives to the magnitude. *)
Lemma shr_fexp_spec (m e : Z) (l : location) :
  0 <= m ->
  exists mrs,
    shr_fexp prec emax m e l
      = (mrs, Z.max e (fexp prec emax (Zdigits2 m + e))) /\
    shr_m mrs = m / 2 ^ (Z.max e (fexp prec emax (Zdigits2 m + e)) - e).
Proof.
  intros Hm. unfold shr_fexp, shr.
  assert (Hr : shr_m (shr_record_of_loc m l) = m)
    by (destruct l as [| []]; reflexivity).
  destruct (fexp prec emax (Zdigits2 m + e) - e) as [| p | p] eqn:Hn.
  - eexists. split; [f_equal; lia |].
    rewrite Hr. replace (Z.max _ _ - e) with 0 by lia.
    now rewrite Z.pow_0_r, Z.div_1_r.
  - eexists. split; [f_equal; lia |].
    rewrite iter_shr_1_m by lia. rewrite Hr. f_equal. f_equal. lia.
  - eexists. split; [f_equal; lia |].
    rewrite Hr. replace (Z.max _ _ - e) with 0 by lia.
    now rewrite Z.pow_0_r, Z.div_1_r.
Qed.

Lemma round_nearest_even_cases (m : Z) (l : location) :
  round_nearest_even m l = m \/ round_nearest_even m l = m + 1.
Proof.
  destruct l as [| []]; simpl; auto. destruct (Z.even m); auto.
Qed.

(** Rounding, in terms of the two shifts. *)
Lemma binary_round_aux_eq (s : bool) (m e : Z) (l : location) :
  0 <= m ->
  let e1 := Z.max e (fexp prec emax (Zdigits2 m + e)) in
  let m1 := m / 2 ^ (e1 - e) in
  exists m1',
    (m1' = m1 \/ m1' = m1 + 1) /\
    let e2 := Z.max e1 (fexp prec emax (Zdigits2 m1' + e1)) in
    binary_round_aux prec emax s m e l =
    match m1' / 2 ^ (e2 - e1) with
    | Z0 => S754_zero s
    | Zpos p => if e2 <=? 971 then S754_finite s p e2 else S754_infinity s
    | Zneg _ => S754_nan
    end.
Proof.
  intros Hm. cbv zeta. unfold binary_round_aux.
  destruct (shr_fexp_spec m e l Hm) as [mrs [-> Hmrs]].
  remember (Z.max e (fexp prec emax (Zdigits2 m + e))) as e1 eqn:He1.
  remember (m / 2 ^ (e1 - e)) as m1 eqn:Hm1.
  remember (round_nearest_even (shr_m mrs) (loc_of_shr_record mrs)) as m1'
    eqn:Hm1'.
  assert (H0 : 0 <= m1) by (subst m1; apply div_pow2_nonneg; lia).
  assert (Hc : m1' = m1 \/ m1' = m1 + 1)
    by (subst m1'; rewrite Hmrs; apply round_nearest_even_cases).
  exists m1'. split; [exact Hc |].
  destruct (shr_fexp_spec m1' e1 loc_Exact ltac:(lia)) as [mrs2 [-> Hmrs2]].
  rewrite Hmrs2. reflexivity.
Qed.

(** The shape of a rounded number: the exponents of the two shifts and the
    digit count of the mantissa between them. *)
Lemma round_shape (s : bool) (m e : Z) (l : location) :
  0 <= m ->
  exists e1 m1' e2,
    e1 = Z.max e (fexp prec emax (Zdigits2 m + e)) /\
    0 <= m1' /\
    Zdigits2 m1' + e1 <= Z.max (Zdigits2 m + e) e1 + 1 /\
    (e1 < Zdigits2 m + e -> 0 < m1' /\ Zdigits2 m + e <= Zdigits2 m1' + e1) /\
    e2 = Z.max e1 (fexp prec emax (Zdigits2 m1' + e1)) /\
    binary_round_aux prec emax s m e l =
    match m1' / 2 ^ (e2 - e1) with
    | Z0 => S754_zero s
    | Zpos p => if e2 <=? 971 then S754_finite s p e2 else S754_infinity s
    | Zneg _ => S754_nan
    end.
Proof.
  intros Hm.
  destruct (binary_round_aux_eq s m e l Hm) as [m1' [Hc Heq]].
  cbv zeta in Heq.
  remember (Z.max e (fexp prec emax (Zdigits2 m + e))) as e1 eqn:He1.
  remember (m / 2 ^ (e1 - e)) as m1 eqn:Hm1.
  assert (H0 : 0 <= m1) by (subst m1; apply div_pow2_nonneg; lia).
  assert (Hge : 0 <= e1 - e) by lia.
  exists e1, m1', (Z.max e1 (fexp prec emax (Zdigits2 m1' + e1))).
  split; [reflexivity |]. split; [lia |].
  assert (Hd1 : e1 - e < Zdigits2 m -> 0 < m1 /\ Zdigits2 m1 = Zdigits2 m - (e1 - e)).
  { intros Hlt. assert (0 < m).
    { destruct (Z.eq_dec m 0) as [-> | ?]; [simpl in Hlt; lia | lia]. }
    assert (Hd : Zdigits2 m1 = Zdigits2 m - (e1 - e))
      by (subst m1; apply Zdigits2_div_pow2; lia).
    split; [| exact Hd].
    destruct (Z.eq_dec m1 0) as [Hz | ?]; [| lia].
    rewrite Hz in Hd. simpl in Hd. lia. }
  assert (Hd2 : Zdigits2 m <= e1 - e -> m1 = 0)
    by (intros Hle; subst m1; apply div_pow2_small; lia).
  assert (Hs : Zdigits2 m1 <= Zdigits2 m1' <= Zdigits2 m1 + 1).
  { destruct Hc as [-> | ->]; [lia | apply Zdigits2_succ; lia]. }
  split; [| split; [| split; [reflexivity | exact Heq]]].
  - destruct (Z_lt_le_dec (e1 - e) (Zdigits2 m)) as [Hlt | Hle].
    + destruct (Hd1 Hlt) as [_ Hd]. lia.
    + rewrite (Hd2 Hle) in Hs. simpl in Hs. lia.
  - intros Hlt. destruct (Hd1 ltac:(lia)) as [Hpos Hd]. lia.
Qed.

(** The second shift either empties the mantissa or keeps its magnitude. *)
Lemma shift_magnitude (m k : Z) :
  0 <= m -> 0 <= k ->
  (m / 2 ^ k = 0 /\ Zdigits2 m <= k) \/
  (0 < m / 2 ^ k /\ k < Zdigits2 m /\ Zdigits2 (m / 2 ^ k) = Zdigits2 m - k).
Proof.
  intros Hm Hk. destruct (Z_lt_le_dec k (Zdigits2 m)) as [Hlt | Hle].
  - right. assert (0 < m).
    { destruct (Z.eq_dec m 0) as [-> | ?]; [simpl in Hlt; lia | lia]. }
    pose proof (Zdigits2_div_pow2 m k ltac:(lia) ltac:(lia)) as Hd.
    split; [| split; [exact Hlt | exact Hd]].
    pose proof (div_pow2_nonneg m k Hm).
    destruct (Z.eq_dec (m / 2 ^ k) 0) as [Hz | ?]; [| lia].
    rewrite Hz in Hd. simpl in Hd. lia.
  - left. split; [apply div_pow2_small; lia | lia].
Qed.

(** Rounding never gives a NaN; it overflows only from a large exponent or
    magnitude; the magnitude of the result exceeds that of the input by at
    most one. *)
Lemma round_upper (s : bool) (m e : Z) (l : location) :
  0 <= m ->
  match binary_round_aux prec emax s m e l with
  | S754_nan => False
  | S754_zero s' => s' = s
  | S754_infinity s' => s' = s /\ (971 < e \/ 1023 < Zdigits2 m + e)
  | S754_finite s' m' e' =>
      s' = s /\ e' <= 971 /\
      Zdigits2 (Zpos m') + e'
        <= Z.max (Zdigits2 m + e) (Z.max e (-1074)) + 1
  end.
Proof.
  intros Hm.
  destruct (round_shape s m e l Hm)
    as [e1 [m1' [e2 [He1 [H0 [Hup [_ [He2 ->]]]]]]]].
  rewrite fexp_eq in He1, He2.
  destruct (shift_magnitude m1' (e2 - e1) H0 ltac:(lia))
    as [[-> _] | [Hpos [Hlt Hd]]]; [reflexivity |].
  destruct (m1' / 2 ^ (e2 - e1)) as [| p | p] eqn:Hq; try lia.
  destruct (e2 <=? 971) eqn:Hle.
  - apply Z.leb_le in Hle. split; [reflexivity |]. split; [exact Hle |]. lia.
  - apply Z.leb_gt in Hle. split; [reflexivity |]. lia.
Qed.

(** A number above the least subnormal magnitude does not round to zero, and
    rounding does not lower its magnitude. *)
Lemma round_lower (s : bool) (m e : Z) (l : location) :
  0 < m -> -1074 < Zdigits2 m + e ->
  match binary_round_aux prec emax s m e l with
  | S754_zero _ => False
  | S754_finite _ m' e' => Zdigits2 m + e <= Zdigits2 (Zpos m') + e'
  | _ => True
  end.
Proof.
  intros Hm HM.
  destruct (round_shape s m e l ltac:(lia))
    as [e1 [m1' [e2 [He1 [H0 [Hup [Hlo [He2 ->]]]]]]]].
  rewrite fexp_eq in He1, He2.
  pose proof (Zdigits2_pos m Hm).
  destruct (Hlo ltac:(lia)) as [Hpos Hge].
  destruct (shift_magnitude m1' (e2 - e1) H0 ltac:(lia))
    as [[_ Hle] | [Hp [Hlt Hd]]]; [lia |].
  destruct (m1' / 2 ^ (e2 - e1)) as [| p | p] eqn:Hq; try lia.
  destruct (e2 <=? 971); [lia | exact I].
Qed.

(** A number whose exponent is not above the one the format gives to its
    magnitude rounds to a valid binary64 number. *)
Lemma round_valid (s : bool) (m e : Z) (l : location) :
  0 <= m -> e <= fexp prec emax (Zdigits2 m + e) ->
  valid_binary (binary_round_aux prec emax s m e l) = true.
Proof.
  intros Hm He.
  destruct (round_shape s m e l Hm)
    as [e1 [m1' [e2 [He1 [H0 [Hup [Hlo [He2 ->]]]]]]]].
  rewrite fexp_eq in He, He1, He2.
  destruct (shift_magnitude m1' (e2 - e1) H0 ltac:(lia))
    as [[-> _] | [Hpos [Hlt Hd]]]; [reflexivity |].
  destruct (m1' / 2 ^ (e2 - e1)) as [| p | p] eqn:Hq; try lia.
  destruct (e2 <=? 971) eqn:Hle; [| reflexivity].
  apply Z.leb_le in Hle.
  unfold SpecFloat.valid_binary, bounded, canonical_mantissa.
  apply andb_true_iff. split; [| apply Z.leb_le; exact Hle].
  apply Z.eqb_eq. change (Z.pos (digits2_pos p)) with (Zdigits2 (Zpos p)).
  rewrite fexp_eq.
  destruct (Z_lt_le_dec e1 (Zdigits2 m + e)) as [Hl | Hl].
  - destruct (Hlo Hl) as [_ Hge]. lia.
  - lia.
Qed.

(** *** Division *)

Lemma shiftl_mul_pow2 (m s : Z) :
  0 <= s ->
  match s with Zpos _ => Z.shiftl m s | Z0 => m | Zneg _ => 0 end = m * 2 ^ s.
Proof.
  intros Hs. destruct s as [| p | p]; try lia.
  now rewrite Z.shiftl_mul_pow2 by lia.
Qed.

Lemma div_eucl_div (a b : Z) : Z.div_eucl a b = (a / b, a mod b).
Proof. unfold Z.div, Z.modulo. now destruct (Z.div_eucl a b). Qed.

(** The quotient mantissa of the division core: its magnitude is at most one
    above the difference of the magnitudes, and its exponent is not above the
    one of the format. *)
Lemma div_core_facts (m1 e1 m2 e2 : Z) :
  0 < m1 -> 0 < m2 ->
  let M0 := Zdigits2 m1 + e1 - (Zdigits2 m2 + e2) in
  exists q e' l,
    SFdiv_core_binary prec emax m1 e1 m2 e2 = (q, e', l) /\
    0 <= q /\
    e' <= fexp prec emax M0 /\
    Zdigits2 q + e' <= Z.max (M0 + 1) e' /\
    e' <= fexp prec emax (Zdigits2 q + e').
Proof.
  intros H1 H2 M0. unfold SFdiv_core_binary.
  fold M0.
  remember (Z.min (fexp prec emax M0) (e1 - e2)) as e' eqn:He'.
  remember (e1 - e2 - e') as s eqn:Hs.
  assert (Hs0 : 0 <= s) by lia.
  rewrite (shiftl_mul_pow2 m1 s Hs0), div_eucl_div.
  do 3 eexists. split; [reflexivity |].
  pose proof (Zdigits2_bounds m1 H1) as [Hl1 Hh1].
  pose proof (Zdigits2_bounds m2 H2) as [Hl2 Hh2].
  pose proof (Zdigits2_pos m1 H1) as Hd1.
  pose proof (Zdigits2_pos m2 H2) as Hd2.
  assert (Hp : 0 < 2 ^ s) by (apply Z.pow_pos_nonneg; lia).
  set (q := m1 * 2 ^ s / m2).
  assert (Hq0 : 0 <= q) by (apply Z.div_pos; nia).
  assert (Hqm : q * m2 <= m1 * 2 ^ s)
    by (unfold q; rewrite Z.mul_comm; apply Z.mul_div_le; lia).
  assert (Hm' : m1 * 2 ^ s < 2 ^ (Zdigits2 m1 + s))
    by (rewrite Z.pow_add_r by lia; nia).
  split; [exact Hq0 |]. split; [lia |]. split.
  - destruct (Z.eq_dec q 0) as [-> | Hne]; [simpl; lia |].
    pose proof (Zdigits2_bounds q ltac:(lia)) as [Hlq _].
    pose proof (Zdigits2_pos q ltac:(lia)) as Hdq.
    assert (Hlt : 2 ^ (Zdigits2 q - 1 + (Zdigits2 m2 - 1))
                  < 2 ^ (Zdigits2 m1 + s)).
    { rewrite Z.pow_add_r by lia.
      eapply Z.le_lt_trans; [| exact Hm'].
      eapply Z.le_trans; [| exact Hqm].
      apply Z.mul_le_mono_nonneg; try lia;
        apply Z.lt_le_incl, Z.pow_pos_nonneg; lia. }
    apply Z.pow_lt_mono_r_iff in Hlt; lia.
  - rewrite fexp_eq in *.
    destruct (Z_le_gt_dec e' (-1074)) as [Hle | Hgt]; [lia |].
    assert (Hs53 : Zdigits2 m2 - Zdigits2 m1 + 53 <= s) by lia.
    assert (Hq52 : 2 ^ 52 <= q).
    { unfold q. apply Z.div_le_lower_bound; [lia |].
      assert (2 ^ (Zdigits2 m2 + 52) <= m1 * 2 ^ s).
      { eapply Z.le_trans;
          [apply (Z.pow_le_mono_r 2 _ (Zdigits2 m1 - 1 + s)); lia |].
        rewrite Z.pow_add_r by lia. nia. }
      assert (m2 * 2 ^ 52 <= 2 ^ (Zdigits2 m2 + 52))
        by (rewrite Z.pow_add_r by lia; nia).
      lia. }
    pose proof (Zdigits2_ge q 52 ltac:(lia) Hq52). lia.
Qed.

(** A quotient of finite numbers whose magnitudes differ by at most 1022 is
    finite or zero, and valid. *)
Lemma SFdiv_finite (s1 s2 : bool) (m1 m2 : positive) (e1 e2 : Z) :
  Zdigits2 (Zpos m1) + e1 - (Zdigits2 (Zpos m2) + e2) <= 1022 ->
  finite_SF (SFdiv prec emax (S754_finite s1 m1 e1) (S754_finite s2 m2 e2))
    = true
  /\ valid_binary
       (SFdiv prec emax (S754_finite s1 m1 e1) (S754_finite s2 m2 e2)) = true.
Proof.
  intros HM. unfold SFdiv.
  destruct (div_core_facts (Zpos m1) e1 (Zpos m2) e2 ltac:(lia) ltac:(lia))
    as [q [e' [l [-> [Hq [He' [Hd Hv]]]]]]].
  rewrite fexp_eq in He'.
  split; [| apply round_valid; assumption].
  pose proof (round_upper (xorb s1 s2) q e' l Hq) as Hu.
  destruct (binary_round_aux prec emax (xorb s1 s2) q e' l);
    simpl; try reflexivity; try contradiction. exfalso; lia.
Qed.

(** *** Multiplication *)

Lemma Zdigits2_mul (m1 m2 : Z) :
  0 < m1 -> 0 < m2 -> Zdigits2 m1 + Zdigits2 m2 - 1 <= Zdigits2 (m1 * m2).
Proof.
  intros H1 H2.
  pose proof (Zdigits2_bounds m1 H1) as [Hl1 _].
  pose proof (Zdigits2_bounds m2 H2) as [Hl2 _].
  pose proof (Zdigits2_pos m1 H1). pose proof (Zdigits2_pos m2 H2).
  pose proof (Zdigits2_ge (m1 * m2) (Zdigits2 m1 - 1 + (Zdigits2 m2 - 1))
                ltac:(lia)) as Hge.
  rewrite Z.pow_add_r in Hge by lia.
  assert (0 < 2 ^ (Zdigits2 m1 - 1)) by (apply Z.pow_pos_nonneg; lia).
  assert (0 < 2 ^ (Zdigits2 m2 - 1)) by (apply Z.pow_pos_nonneg; lia).
  specialize (Hge ltac:(nia)). lia.
Qed.

(** A product of finite numbers whose magnitudes add up to more than the
    least subnormal magnitude is not zero. *)
Lemma SFmul_nonzero (s1 s2 : bool) (m1 m2 : positive) (e1 e2 : Z) :
  -1074 < Zdigits2 (Zpos m1) + e1 + (Zdigits2 (Zpos m2) + e2) - 1 ->
  match SFmul prec emax (S754_finite s1 m1 e1) (S754_finite s2 m2 e2) with
  | S754_zero _ | S754_nan => False
  | S754_infinity _ => True
  | S754_finite _ m e =>
      Zdigits2 (Zpos m1) + e1 + (Zdigits2 (Zpos m2) + e2) - 1
        <= Zdigits2 (Zpos m) + e
  end.
Proof.
  intros HM. unfold SFmul.
  pose proof (Zdigits2_mul (Zpos m1) (Zpos m2) ltac:(lia) ltac:(lia)) as Hd.
  change (Zpos m1 * Zpos m2) with (Zpos (m1 * m2)) in Hd.
  pose proof (round_upper (xorb s1 s2) (Zpos (m1 * m2)) (e1 + e2) loc_Exact
                ltac:(lia)) as Hu.
  pose proof (round_lower (xorb s1 s2) (Zpos (m1 * m2)) (e1 + e2) loc_Exact
                ltac:(lia) ltac:(lia)) as Hl.
  destruct (binary_round_aux prec emax (xorb s1 s2) (Zpos (m1 * m2))
              (e1 + e2) loc_Exact); try contradiction; try exact I. lia.
Qed.

(** *** Conversion of an integer *)

Lemma Zdigits2_iter_xO (p d : positive) :
  Zdigits2 (Zpos (Pos.iter xO p d)) = Zdigits2 (Zpos p) + Zpos d.
Proof.
  simpl. induction d as [| d IH] using Pos.peano_ind.
  - simpl. lia.
  - rewrite Pos.iter_succ. simpl. lia.
Qed.

(** A non-zero integer converts to a valid non-zero number of magnitude at
    least one, unless it has more than 1023 bits and the conversion
    overflows. *)
Lemma normalize_facts (B : Z) :
  B <> 0 ->
  match binary_normalize prec emax B 0 false with
  | S754_zero _ | S754_nan => False
  | S754_infinity _ => 1023 < Zdigits2 B
  | S754_finite s m e =>
      valid_binary (S754_finite s m e) = true /\ 1 <= Zdigits2 (Zpos m) + e
  end.
Proof.
  intros HB.
  assert (H : forall s p,
             match binary_round prec emax s p 0 with
             | S754_zero _ | S754_nan => False
             | S754_infinity _ => 1023 < Zdigits2 (Zpos p)
             | S754_finite s m e =>
                 valid_binary (S754_finite s m e) = true /\
                 1 <= Zdigits2 (Zpos m) + e
             end).
  { intros s p. unfold binary_round, shl_align.
    change (Z.pos (digits2_pos p)) with (Zdigits2 (Zpos p)).
    pose proof (Zdigits2_pos (Zpos p) ltac:(lia)) as Hd.
    assert (Hcase : exists mz ez,
               (match fexp prec emax (Zdigits2 (Z.pos p) + 0) - 0 with
                | Z.neg d => (Pos.iter xO p d, fexp prec emax (Zdigits2 (Z.pos p) + 0))
                | _ => (p, 0)
                end) = (mz, ez) /\
               Zdigits2 (Zpos mz) + ez = Zdigits2 (Zpos p) /\
               ez <= 0 /\
               ez <= fexp prec emax (Zdigits2 (Zpos mz) + ez)).
    { destruct (fexp prec emax (Zdigits2 (Z.pos p) + 0) - 0) as [| d | d] eqn:Hf.
      - exists p, 0. repeat split; lia.
      - exists p, 0. repeat split; lia.
      - do 2 eexists. split; [reflexivity |].
        rewrite Zdigits2_iter_xO. split; [lia |]. split; [lia |].
        replace (Zdigits2 (Z.pos p) + Z.pos d
                 + fexp prec emax (Zdigits2 (Z.pos p) + 0))
          with (Zdigits2 (Zpos p) + 0) by lia. lia. }
    destruct Hcase as [mz [ez [-> [Hmag [Hez Hpre]]]]].
    pose proof (round_upper s (Zpos mz) ez loc_Exact ltac:(lia)) as Hu.
    pose proof (round_lower s (Zpos mz) ez loc_Exact ltac:(lia) ltac:(lia))
      as Hl.
    pose proof (round_valid s (Zpos mz) ez loc_Exact ltac:(lia) Hpre) as Hv.
    destruct (binary_round_aux prec emax s (Z.pos mz) ez loc_Exact);
      try contradiction; [lia |].
    split; [exact Hv | lia]. }
  destruct B as [| p | p]; [contradiction | apply H | apply H].
Qed.

(** ** Totality of the step derivation *)

Lemma valid_magnitude (s : bool) (m : positive) (e : Z) :
  valid_binary (S754_finite s m e) = true ->
  Zdigits2 (Zpos m) + e <= 1024 /\ e <= 971.
Proof.
  unfold SpecFloat.valid_binary, bounded, canonical_mantissa.
  change (Z.pos (digits2_pos m)) with (Zdigits2 (Zpos m)).
  rewrite andb_true_iff, Z.eqb_eq, Z.leb_le, fexp_eq.
  change (emax - prec) with 971. lia.
Qed.

(** [float(B)] of a non-zero integer is finite of magnitude at least one. *)
Lemma float_of_int_Ok (B : Z) (b : float) :
  B <> 0 -> Py.float_of_int B = Ok b ->
  exists s m e,
    Prim2SF b = S754_finite s m e /\ 1 <= Zdigits2 (Zpos m) + e.
Proof.
  intros HB. unfold Py.float_of_int.
  pose proof (normalize_facts B HB) as Hn.
  destruct (binary_normalize prec emax B 0 false) as [| | | s m e] eqn:Hr;
    try contradiction; try discriminate.
  destruct Hn as [Hv Hmag]. intros H.
  assert (Heq : b = SF2Prim (S754_finite s m e)) by congruence. subst b.
  exists s, m, e. split; [apply Prim2SF_SF2Prim; exact Hv | exact Hmag].
Qed.

(** The quotient of an integer of at most 1023 bits by a non-zero integer
    is a finite float. *)
Lemma int_true_div_total (n B : Z) :
  B <> 0 -> Zdigits2 n <= 1023 ->
  exists q, Py.int_true_div n B = Ok q /\ finite_SF (Prim2SF q) = true.
Proof.
  intros HB Hn. unfold Py.int_true_div.
  destruct (Z.eqb_spec B 0) as [? | _]; [contradiction |].
  assert (HdB : 1 <= Zdigits2 B) by (destruct B; simpl in *; lia).
  assert (Hd : finite_SF (SFdiv prec emax (Py.SF_of_Z n) (Py.SF_of_Z B))
                 = true
               /\ valid_binary
                    (SFdiv prec emax (Py.SF_of_Z n) (Py.SF_of_Z B)) = true).
  { destruct n as [| pn | pn], B as [| pb | pb]; try contradiction;
      try (split; reflexivity);
      apply SFdiv_finite; unfold Zdigits2 in *; lia. }
  destruct Hd as [Hf Hv].
  destruct (SFdiv prec emax (Py.SF_of_Z n) (Py.SF_of_Z B)) as [| | |] eqn:Hr;
    try discriminate;
    (eexists; split; [reflexivity |]; rewrite Prim2SF_SF2Prim by exact Hv;
     reflexivity).
Qed.

(** Dividing a finite float by 8 gives a finite float. *)
Lemma truediv_8_total (x : float) :
  finite_SF (Prim2SF x) = true ->
  Py.truediv (Py.NFloat x) (Py.NInt 8) = Ok (Py.NFloat (x / 8)%float) /\
  finite_SF (Prim2SF (x / 8)%float) = true.
Proof.
  intros Hx. split; [reflexivity |].
  rewrite div_spec. pose proof (Prim2SF_valid x) as Hv.
  change (Prim2SF 8%float) with (S754_finite false 4503599627370496 (-49)).
  destruct (Prim2SF x) as [| | | s m e]; try discriminate; [reflexivity |].
  apply valid_magnitude in Hv.
  apply SFdiv_finite. simpl Zdigits2 at 2. lia.
Qed.

Lemma int_total (f : float) :
  finite_SF (Prim2SF f) = true -> exists z, Py.int (Py.NFloat f) = Ok z.
Proof.
  simpl. destruct (Prim2SF f); try discriminate; eauto.
Qed.

(** [b * 3.5] for a finite [b] of magnitude at least one: not zero, not a
    NaN. *)
Lemma mul_35_nonzero (b : float) (s : bool) (m : positive) (e : Z) :
  Prim2SF b = S754_finite s m e -> 1 <= Zdigits2 (Zpos m) + e ->
  match Prim2SF (b * 3.5)%float with
  | S754_zero _ | S754_nan => False
  | S754_infinity _ => True
  | S754_finite _ m' e' => 2 <= Zdigits2 (Zpos m') + e'
  end.
Proof.
  intros Hb Hmag. rewrite mul_spec, Hb.
  change (Prim2SF 3.5%float) with (S754_finite false 7881299347898368 (-51)).
  pose proof (SFmul_nonzero s false m 7881299347898368 e (-51)) as H.
  simpl Zdigits2 in H at 2 4. specialize (H ltac:(simpl in *; lia)).
  unfold SF64mul.
  destruct (SFmul prec emax _ _); try contradiction; try exact I.
  simpl in *; lia.
Qed.

(** The quotient of a finite float by a non-zero float of magnitude at
    least two. *)
Lemma truediv_by_large (x y : float) :
  finite_SF (Prim2SF x) = true ->
  match Prim2SF y with
  | S754_zero _ | S754_nan => False
  | S754_infinity _ => True
  | S754_finite _ m e => 2 <= Zdigits2 (Zpos m) + e
  end ->
  (y =? 0)%float = false /\ finite_SF (Prim2SF (x / y)%float) = true.
Proof.
  intros Hx Hy. rewrite FloatAxioms.eqb_spec, div_spec.
  change (Prim2SF 0%float) with (S754_zero false).
  pose proof (Prim2SF_valid x) as Hv.
  destruct (Prim2SF y) as [| sy | | sy my ey]; try contradiction.
  - split; [now destruct sy |].
    destruct (Prim2SF x); try discriminate; reflexivity.
  - split; [unfold SFeqb; simpl; now destruct sy |].
    destruct (Prim2SF x) as [| | | sx mx ex]; try discriminate;
      [reflexivity |].
    apply valid_magnitude in Hv. apply SFdiv_finite. lia.
Qed.

(** An integer of at most 1023 bits converts to a float. *)
Lemma float_of_int_small (B : Z) :
  Z.abs B < 2 ^ 1023 -> exists b, Py.float_of_int B = Ok b.
Proof.
  intros HB. unfold Py.float_of_int.
  destruct (Z.eq_dec B 0) as [-> | Hne]; [eexists; reflexivity |].
  pose proof (normalize_facts B Hne) as Hn.
  assert (Hd : Zdigits2 B <= 1023).
  { replace (Zdigits2 B) with (Zdigits2 (Z.abs B)) by (now destruct B).
    apply Zdigits2_le; lia. }
  destruct (binary_normalize prec emax B 0 false);
    try contradiction; [lia | eauto].
Qed.

(** Without bucketing the step derivation succeeds for every non-zero batch
    size, for both sample counts of the registry. *)
Lemma derive_steps_unbucketed_total (n B : Z) :
  n = 407976 \/ n = 800000 -> B <> 0 ->
  exists steps, derive_steps n B false = Ok steps.
Proof.
  intros Hn HB. unfold derive_steps. cbn [bind Py.truediv].
  destruct (int_true_div_total n B HB) as [q [-> Hq]].
  { destruct Hn as [-> | ->]; simpl; lia. }
  cbn [bind].
  destruct (truediv_8_total _ Hq) as [-> Hq8]. cbn [bind].
  apply int_total. exact Hq8.
Qed.

(** With bucketing it succeeds for every non-zero batch size that converts
    to a float. *)
Lemma derive_steps_bucketed_total (n B : Z) (b : float) :
  n = 407976 \/ n = 800000 -> B <> 0 -> Py.float_of_int B = Ok b ->
  exists steps, derive_steps n B true = Ok steps.
Proof.
  intros Hn HB Hb. unfold derive_steps.
  cbn [Py.mul Py.to_float bind]. rewrite Hb. cbn [bind].
  destruct (float_of_int_Ok B b HB Hb) as [s [m [e [Hsf Hmag]]]].
  pose proof (mul_35_nonzero b s m e Hsf Hmag) as Hy.
  assert (Hfn : exists fn, Py.float_of_int n = Ok fn /\
                           finite_SF (Prim2SF fn) = true).
  { destruct Hn as [-> | ->]; eexists; split; vm_compute; reflexivity. }
  destruct Hfn as [fn [Hfn Hfin]].
  cbn [Py.truediv Py.to_float bind]. rewrite Hfn. cbn [bind].
  destruct (truediv_by_large fn (b * 3.5)%float Hfin Hy) as [-> Hq].
  cbn [bind].
  destruct (truediv_8_total _ Hq) as [-> Hq8]. cbn [bind].
  apply int_total. exact Hq8.
Qed.

(** With bucketing a batch size too large for a float raises at the
    multiplication by 3.5. *)
Lemma derive_steps_bucketed_overflow (n B : Z) :
  Py.float_of_int B = Raise OverflowError ->
  derive_steps n B true = Raise OverflowError.
Proof.
  intros Hb. unfold derive_steps. cbn [Py.mul Py.to_float bind].
  rewrite Hb. reflexivity.
Qed.

(** ** Values of rounded quotients *)

(** The value of a rounded number: the mantissa after the first shift, or
    its successor, at the exponent of the first shift. *)
Lemma round_value (s : bool) (m e : Z) (l : location) :
  0 <= m ->
  exists e1 m1',
    e1 = Z.max e (fexp prec emax (Zdigits2 m + e)) /\
    (m1' = m / 2 ^ (e1 - e) \/ m1' = m / 2 ^ (e1 - e) + 1) /\
    match binary_round_aux prec emax s m e l with
    | S754_zero s' => s' = s /\ m1' = 0
    | S754_finite s' m2 e2 =>
        s' = s /\ e1 <= e2 <= e1 + 1 /\ Zpos m2 * 2 ^ (e2 - e1) = m1'
    | S754_infinity s' => s' = s
    | S754_nan => False
    end.
Proof.
  intros Hm.
  destruct (binary_round_aux_eq s m e l Hm) as [m1' [Hc Heq]].
  cbv zeta in Heq.
  remember (Z.max e (fexp prec emax (Zdigits2 m + e))) as e1 eqn:He1.
  remember (m / 2 ^ (e1 - e)) as m1 eqn:Hm1.
  remember (Z.max e1 (fexp prec emax (Zdigits2 m1' + e1))) as e2 eqn:He2.
  exists e1, m1'. split; [reflexivity |]. split; [rewrite <- Hm1; exact Hc |].
  rewrite Heq. clear Heq.
  assert (H0 : 0 <= m1) by (subst m1; apply div_pow2_nonneg; lia).
  assert (H0' : 0 <= m1') by lia.
  rewrite fexp_eq in He1, He2.
  (* the second shift is by zero or one bit, and by one only for a power
     of two *)
  assert (Hshift : e2 = e1 \/ (e2 = e1 + 1 /\ exists j, 0 < j /\ m1' = 2 ^ j)).
  { destruct (Z.eq_dec e2 e1) as [? | Hne]; [now left | right].
    assert (Hgt : e1 < Zdigits2 m1' + e1 - 53) by lia.
    assert (Hpos1 : 0 < m1').
    { destruct (Z.eq_dec m1' 0) as [Hz | ?]; [| lia].
      rewrite Hz in Hgt. simpl in Hgt. lia. }
    destruct (Z_lt_le_dec (e1 - e) (Zdigits2 m)) as [Hlt | Hle].
    - assert (Hmpos : 0 < m).
      { destruct (Z.eq_dec m 0) as [Hz | ?]; [| lia].
        rewrite Hz in Hlt. simpl in Hlt. lia. }
      assert (Hd : Zdigits2 m1 = Zdigits2 m - (e1 - e))
        by (subst m1; apply Zdigits2_div_pow2; lia).
      assert (Hm1pos : 0 < m1).
      { destruct (Z.eq_dec m1 0) as [Hz | ?]; [| lia].
        rewrite Hz in Hd. simpl in Hd. lia. }
      destruct Hc as [Hc | Hc].
      + rewrite Hc in Hgt. lia.
      + pose proof (Zdigits2_succ m1 ltac:(lia)) as Hs. rewrite <- Hc in Hs.
        assert (Hd' : Zdigits2 m1' = Zdigits2 m1 + 1) by lia.
        split; [lia |]. exists (Zdigits2 m1).
        pose proof (Zdigits2_pos m1 Hm1pos).
        split; [lia |].
        pose proof (Zdigits2_bounds m1 Hm1pos) as [_ Hhi].
        pose proof (Zdigits2_bounds m1' Hpos1) as [Hlo _].
        rewrite Hd' in Hlo.
        replace (Zdigits2 m1 + 1 - 1) with (Zdigits2 m1) in Hlo by lia. lia.
    - assert (Hz : m1 = 0) by (subst m1; apply div_pow2_small; lia).
      assert (Hle1 : m1' <= 1) by lia.
      assert (Hone : m1' = 1) by lia.
      rewrite Hone in Hgt. change (Zdigits2 1) with 1 in Hgt. exfalso; lia. }
  destruct Hshift as [-> | [-> [j [Hj Hpow]]]].
  - rewrite Z.sub_diag, Z.pow_0_r, Z.div_1_r.
    destruct m1' as [| p | p]; try lia.
    + split; reflexivity.
    + destruct (e1 <=? 971); [| reflexivity].
      split; [reflexivity |]. split; [lia |].
      rewrite Z.sub_diag. lia.
  - replace (e1 + 1 - e1) with 1 by lia. rewrite Z.pow_1_r.
    assert (Hdiv : m1' = 2 * 2 ^ (j - 1)).
    { rewrite Hpow, <- Z.pow_succ_r by lia. f_equal. lia. }
    assert (Hq : m1' / 2 = 2 ^ (j - 1)).
    { rewrite Hdiv, Z.mul_comm, Z.div_mul by lia. reflexivity. }
    rewrite Hq.
    assert (Hp : 0 < 2 ^ (j - 1)) by (apply Z.pow_pos_nonneg; lia).
    destruct (2 ^ (j - 1)) as [| p | p] eqn:Hpj; try lia.
    destruct (e1 + 1 <=? 971); [| reflexivity].
    split; [reflexivity |]. split; [lia |].
    replace (e1 + 1 - e1) with 1 by lia. lia.
Qed.

(** Rounding the quotient [A / D], given as the integer part [q] of
    [A * 2^(-e') / D] at the exponent [e']: when the format keeps more than
    [log2 (2 * D)] fractional bits, the result stays within the integers that
    bracket [A / D]. *)
Lemma round_bracket (q e' : Z) (l : location) (A D lo hi : Z) :
  0 < D -> 0 <= A -> e' <= 0 ->
  q = A * 2 ^ (- e') / D ->
  Z.max e' (fexp prec emax (Zdigits2 q + e')) <= -1 ->
  2 * D <= 2 ^ (- Z.max e' (fexp prec emax (Zdigits2 q + e'))) ->
  lo * D <= A -> A + 1 <= hi * D ->
  SF_between lo hi (binary_round_aux prec emax false q e' l).
Proof.
  intros HD HA He' Hq He1 HT Hlo Hhi.
  assert (Hq0 : 0 <= q).
  { subst q. apply Z.div_pos; [| lia].
    apply Z.mul_nonneg_nonneg; [lia | apply Z.pow_nonneg; lia]. }
  destruct (round_value false q e' l Hq0) as [e1 [m1' [Hdef [Hc Hm]]]].
  rewrite <- Hdef in He1, HT.
  pose proof (round_upper false q e' l Hq0) as Hu.
  set (T := 2 ^ (- e1)) in *.
  assert (HTpos : 0 < T) by (apply Z.pow_pos_nonneg; lia).
  assert (Hm1 : q / 2 ^ (e1 - e') = A * T / D).
  { assert (Hc0 : 0 < 2 ^ (e1 - e')) by (apply Z.pow_pos_nonneg; lia).
    subst q. rewrite Z.div_div by lia.
    replace (A * 2 ^ (- e')) with (A * T * 2 ^ (e1 - e')).
    - apply Z.div_mul_cancel_r; lia.
    - unfold T. rewrite <- Z.mul_assoc, <- Z.pow_add_r by lia.
      do 2 f_equal. lia. }
  rewrite Hm1 in Hc.
  assert (Hlow : lo * T <= A * T / D)
    by (apply Z.div_le_lower_bound; [lia | nia]).
  assert (Hupp : A * T / D <= hi * T - 2)
    by (apply Z.div_le_upper_bound; [lia | nia]).
  assert (Hb : lo * T <= m1' <= hi * T - 1) by lia.
  unfold SF_between.
  destruct (binary_round_aux prec emax false q e' l) as [s' | s' | | s' m2 e2].
  - destruct Hm as [_ Hz]. nia.
  - rewrite fexp_eq in Hdef. lia.
  - contradiction.
  - destruct Hm as [-> [He2 Hval]].
    split; [lia |].
    assert (HT2 : T = 2 ^ (- e2) * 2 ^ (e2 - e1)).
    { unfold T. rewrite <- Z.pow_add_r by lia. f_equal. lia. }
    assert (H2pos : 0 < 2 ^ (- e2)) by (apply Z.pow_pos_nonneg; lia).
    assert (Hcpos : 0 < 2 ^ (e2 - e1)) by (apply Z.pow_pos_nonneg; lia).
    nia.
Qed.

Lemma div_cross (a b c d : Z) :
  0 < b -> 0 < d -> a * d = c * b -> a / b = c / d.
Proof.
  intros Hb Hd H.
  rewrite <- (Z.div_mul_cancel_r a b d) by lia.
  rewrite H, (Z.mul_comm b d). apply Z.div_mul_cancel_r; lia.
Qed.

(** The division core, with the value of its quotient mantissa. *)
Lemma div_core_value (m1 e1 m2 e2 : Z) :
  0 < m1 -> 0 < m2 ->
  let M0 := Zdigits2 m1 + e1 - (Zdigits2 m2 + e2) in
  exists q e' l,
    SFdiv_core_binary prec emax m1 e1 m2 e2 = (q, e', l) /\
    e' = Z.min (fexp prec emax M0) (e1 - e2) /\
    q = m1 * 2 ^ (e1 - e2 - e') / m2 /\
    Zdigits2 q + e' <= Z.max (M0 + 1) e'.
Proof.
  intros H1 H2 M0.
  destruct (div_core_facts m1 e1 m2 e2 H1 H2)
    as [q [e' [l [Heq [_ [_ [Hd _]]]]]]].
  fold M0 in Hd.
  exists q, e', l. split; [exact Heq |].
  unfold SFdiv_core_binary in Heq. fold M0 in Heq.
  remember (Z.min (fexp prec emax M0) (e1 - e2)) as e0 eqn:He0.
  rewrite (shiftl_mul_pow2 m1 (e1 - e2 - e0)) in Heq by lia.
  rewrite div_eucl_div in Heq.
  injection Heq as Hq He _. subst e'. subst q.
  repeat split; try reflexivity. exact Hd.
Qed.

(** The quotient of two positive finite numbers whose exact value is [A / D]
    stays within the integers that bracket [A / D]. *)
Lemma SFdiv_bracket (m1 m2 : positive) (e1 e2 A D u v lo hi : Z) :
  0 < D -> 0 <= A -> 0 <= u -> 0 <= v -> e1 - e2 = u - v ->
  Zpos m1 * 2 ^ u * D = A * Zpos m2 * 2 ^ v ->
  -1021 <= Zdigits2 (Zpos m1) + e1 - (Zdigits2 (Zpos m2) + e2) ->
  2 * D <= 2 ^ (52 - (Zdigits2 (Zpos m1) + e1 - (Zdigits2 (Zpos m2) + e2))) ->
  lo * D <= A -> A + 1 <= hi * D ->
  SF_between lo hi
    (SFdiv prec emax (S754_finite false m1 e1) (S754_finite false m2 e2)).
Proof.
  intros HD HA Hu Hv Huv Hval HM0 HT Hlo Hhi.
  remember (Zdigits2 (Zpos m1) + e1 - (Zdigits2 (Zpos m2) + e2)) as M0 eqn:HeM.
  assert (HM51 : M0 <= 51).
  { destruct (Z_le_gt_dec M0 51) as [? | Hgt]; [assumption |].
    assert (2 ^ (52 - M0) <= 1).
    { destruct (Z.eq_dec M0 52) as [-> | ?]; [simpl; lia |].
      rewrite Z.pow_neg_r by lia. lia. }
    lia. }
  unfold SFdiv.
  destruct (div_core_value (Zpos m1) e1 (Zpos m2) e2 ltac:(lia) ltac:(lia))
    as [q [e' [l [-> [He' [Hq Hd]]]]]].
  rewrite <- HeM in He', Hd. rewrite fexp_eq in He'.
  simpl xorb.
  assert (Hs : 0 <= e1 - e2 - e') by lia.
  assert (Hqv : q = A * 2 ^ (- e') / D).
  { rewrite Hq. apply div_cross; try lia.
    assert (Hp : forall x, 0 <= x -> 0 < 2 ^ x)
      by (intros; apply Z.pow_pos_nonneg; lia).
    assert (Hexp : 2 ^ (e1 - e2 - e') * 2 ^ v = 2 ^ u * 2 ^ (- e')).
    { rewrite <- !Z.pow_add_r by lia. f_equal. lia. }
    pose proof (Hp v Hv). pose proof (Hp u Hu).
    pose proof (Hp (- e') ltac:(lia)).
    apply (Z.mul_cancel_r _ _ (2 ^ v)); [lia |].
    transitivity (Z.pos m1 * 2 ^ u * D * 2 ^ (- e')); [| rewrite Hval; ring].
    transitivity (Z.pos m1 * D * (2 ^ (e1 - e2 - e') * 2 ^ v)); [ring |].
    rewrite Hexp. ring. }
  assert (He1r : Z.max e' (fexp prec emax (Zdigits2 q + e')) <= M0 - 52)
    by (rewrite fexp_eq; lia).
  apply (round_bracket q e' l A D lo hi); try assumption; try lia.
  eapply Z.le_trans; [exact HT |].
  apply Z.pow_le_mono_r; lia.
Qed.

(** Division by 8 is exact on a normal number that stays normal. *)
Lemma SFdiv_8_exact (s : bool) (m : positive) (e : Z) :
  Zdigits2 (Zpos m) = 53 -> -1070 <= e <= 974 ->
  SFdiv prec emax (S754_finite s m e)
    (S754_finite false 4503599627370496 (-49))
  = S754_finite s m (e - 3).
Proof.
  intros Hd He.
  assert (Hcore : SFdiv_core_binary prec emax (Zpos m) e
                    4503599627370496 (-49)
                  = (Zpos m~0, e - 4, loc_Exact)).
  { unfold SFdiv_core_binary. cbv zeta. rewrite Hd.
    change (Zdigits2 4503599627370496) with 53. rewrite fexp_eq.
    replace (Z.min (Z.max (53 + e - (53 + -49) - 53) (-1074)) (e - -49))
      with (e - 4) by lia.
    replace (e - -49 - (e - 4)) with 53 by lia.
    rewrite Z.shiftl_mul_pow2 by lia. rewrite div_eucl_div.
    assert (Hq : Z.pos m * 2 ^ 53 / 4503599627370496 = Zpos m~0).
    { change (2 ^ 53) with (2 * 4503599627370496).
      rewrite Z.mul_assoc, Z.div_mul by lia. lia. }
    assert (Hr : (Z.pos m * 2 ^ 53) mod 4503599627370496 = 0).
    { change (2 ^ 53) with (2 * 4503599627370496).
      rewrite Z.mul_assoc. apply Z.mod_mul. lia. }
    rewrite Hq, Hr. reflexivity. }
  unfold SFdiv. rewrite Hcore. rewrite xorb_false_r.
  unfold binary_round_aux, shr_fexp.
  assert (Hd2 : Zdigits2 (Zpos m~0) = 54).
  { simpl in *. lia. }
  rewrite Hd2, fexp_eq.
  replace (Z.max (54 + (e - 4) - 53) (-1074) - (e - 4)) with 1 by lia.
  cbn [shr shr_record_of_loc SpecFloat.iter_pos shr_1 shr_m loc_of_shr_record
       round_nearest_even orb].
  rewrite Hd, fexp_eq.
  replace (Z.max (53 + (e - 4 + 1) - 53) (-1074) - (e - 4 + 1)) with 0 by lia.
  cbn [shr shr_m].
  replace (e - 4 + 1) with (e - 3) by lia.
  destruct (Z.leb_spec (e - 3) (emax - prec)) as [_ | Hgt]; [reflexivity |].
  change (emax - prec) with 971 in Hgt. lia.
Qed.

(** The magnitude of a quotient is at most two above the difference of the
    magnitudes. *)
Lemma SFdiv_magnitude (s1 s2 : bool) (m1 m2 : positive) (e1 e2 : Z) :
  Zdigits2 (Zpos m1) + e1 - (Zdigits2 (Zpos m2) + e2) <= 1022 ->
  match SFdiv prec emax (S754_finite s1 m1 e1) (S754_finite s2 m2 e2) with
  | S754_zero _ => True
  | S754_finite s m e =>
      s = xorb s1 s2 /\
      Zdigits2 (Zpos m) + e
      <= Z.max (Zdigits2 (Zpos m1) + e1 - (Zdigits2 (Zpos m2) + e2) + 2)
           (-1073)
  | _ => False
  end.
Proof.
  intros HM. unfold SFdiv.
  destruct (div_core_facts (Zpos m1) e1 (Zpos m2) e2 ltac:(lia) ltac:(lia))
    as [q [e' [l [-> [Hq [He' [Hd _]]]]]]].
  rewrite fexp_eq in He'.
  pose proof (round_upper (xorb s1 s2) q e' l Hq) as Hu.
  destruct (binary_round_aux prec emax (xorb s1 s2) q e' l);
    try exact I; try contradiction; try lia.
  split; [apply Hu | lia].
Qed.

(** *** Truncation *)

Lemma trunc_small (s : bool) (m : positive) (e : Z) :
  Zdigits2 (Zpos m) + e <= 0 -> Py.trunc_SF (S754_finite s m e) = 0.
Proof.
  intros Hd.
  pose proof (Zdigits2_bounds (Zpos m) ltac:(lia)) as [_ Hhi].
  pose proof (Zdigits2_pos (Zpos m) ltac:(lia)) as Hpos.
  unfold Py.trunc_SF. destruct e as [| p | p]; try lia.
  rewrite Z.shiftr_div_pow2 by lia.
  rewrite Z.div_small; [now destruct s |].
  split; [lia |]. eapply Z.lt_le_trans; [exact Hhi |].
  apply Z.pow_le_mono_r; lia.
Qed.

Lemma trunc_between (k : Z) (x : spec_float) :
  SF_between k (k + 1) x -> Py.trunc_SF x = k.
Proof.
  destruct x as [s | s | | [|] m e]; simpl; try contradiction; try lia.
  intros [He Hb]. destruct e as [| p | p]; try lia.
  - rewrite Z.shiftl_0_r. simpl in Hb. lia.
  - rewrite Z.shiftr_div_pow2 by lia.
    change (- Z.neg p) with (Z.pos p) in Hb.
    assert (0 < 2 ^ Z.pos p) by (apply Z.pow_pos_nonneg; lia).
    symmetry. apply Z.div_unique with (Zpos m - 2 ^ Z.pos p * k);
      [left; nia | ring].
Qed.

Lemma between_div_8 (k : Z) (m : positive) (e : Z) :
  SF_between (8 * k) (8 * k + 8) (S754_finite false m e) ->
  SF_between k (k + 1) (S754_finite false m (e - 3)).
Proof.
  unfold SF_between. intros [He Hb]. split; [lia |].
  replace (- (e - 3)) with (- e + 3) by lia.
  rewrite Z.pow_add_r by lia. change (2 ^ 3) with 8. nia.
Qed.

(** A valid number: a normal one has 53 digits, every one at most 53. *)
Lemma valid_digits (s : bool) (m : positive) (e : Z) :
  valid_binary (S754_finite s m e) = true ->
  Zdigits2 (Zpos m) <= 53 /\ (-1074 < e -> Zdigits2 (Zpos m) = 53).
Proof.
  unfold SpecFloat.valid_binary, bounded, canonical_mantissa.
  change (Z.pos (digits2_pos m)) with (Zdigits2 (Zpos m)).
  rewrite andb_true_iff, Z.eqb_eq, fexp_eq. lia.
Qed.

(** The integer part of a float in [[8 * k, 8 * k + 8)] divided by 8. *)
Lemma int_div_8_between (k : Z) (q : float) :
  SF_between (8 * k) (8 * k + 8) (Prim2SF q) ->
  Py.int (Py.NFloat (q / 8)%float) = Ok k.
Proof.
  intros Hb. unfold Py.int. rewrite div_spec.
  change (Prim2SF 8%float) with (S754_finite false 4503599627370496 (-49)).
  pose proof (Prim2SF_valid q) as Hv.
  destruct (Prim2SF q) as [s | s | | s m e]; unfold SF_between in Hb;
    try contradiction.
  - simpl. f_equal. lia.
  - destruct s; [contradiction |]. destruct Hb as [He Hb].
    pose proof (valid_digits false m e Hv) as [Hd53 Hnorm].
    destruct (Z_le_gt_dec (-1070) e) as [Hbig | Hsmall].
    + unfold SF64div.
      rewrite SFdiv_8_exact by (try apply Hnorm; lia).
      f_equal. apply trunc_between, between_div_8.
      unfold SF_between. auto.
    + pose proof (SFdiv_magnitude false false m 4503599627370496 e (-49))
        as Hmag.
      change (Zdigits2 4503599627370496) with 53 in Hmag.
      specialize (Hmag ltac:(lia)).
      assert (Hk : k = 0).
      { pose proof (Zdigits2_bounds (Zpos m) ltac:(lia)) as [_ Hhi].
        assert (2 ^ 53 <= 2 ^ (- e)) by (apply Z.pow_le_mono_r; lia).
        assert (Zpos m < 2 ^ 53).
        { eapply Z.lt_le_trans; [exact Hhi |].
          apply Z.pow_le_mono_r; lia. }
        assert (0 < 2 ^ (- e)) by (apply Z.pow_pos_nonneg; lia).
        nia. }
      unfold SF64div.
      destruct (SFdiv prec emax (S754_finite false m e) _) as [| | | s' m' e'];
        try contradiction.
      * simpl. f_equal. lia.
      * f_equal. rewrite Hk. apply trunc_small. lia.
Qed.

(** Without bucketing the step count is [floor(n / (8 * B))]. *)
Lemma derive_steps_unbucketed_value (n B : Z) :
  0 < n -> Zdigits2 n <= 50 -> 0 < B ->
  derive_steps n B false = Ok (n / (8 * B)).
Proof.
  intros Hn Hdn HB. unfold derive_steps. cbn [bind Py.truediv].
  unfold Py.int_true_div.
  destruct (Z.eqb_spec B 0) as [? | _]; [lia |].
  destruct n as [| pn | pn]; try lia. destruct B as [| pb | pb]; try lia.
  cbn [Py.SF_of_Z].
  set (k := Z.pos pn / (8 * Z.pos pb)).
  set (M0 := Zdigits2 (Zpos pn) + 0 - (Zdigits2 (Zpos pb) + 0)).
  pose proof (Zdigits2_pos (Zpos pb) ltac:(lia)) as HdB.
  pose proof (Zdigits2_pos (Zpos pn) ltac:(lia)) as Hdn1.
  destruct (SFdiv_finite false false pn pb 0 0 ltac:(lia)) as [Hfin Hval].
  assert (Hkb : SF_between (8 * k) (8 * k + 8)
                  (SFdiv prec emax (S754_finite false pn 0)
                     (S754_finite false pb 0))).
  { destruct (Z_le_gt_dec (-1021) M0) as [Hnorm | Htiny].
    - apply (SFdiv_bracket pn pb 0 0 (Zpos pn) (Zpos pb) 0 0); try lia.
      + pose proof (Zdigits2_bounds (Zpos pb) ltac:(lia)) as [_ Hhi].
        fold M0.
        assert (2 ^ (Zdigits2 (Z.pos pb) + 1) <= 2 ^ (52 - M0))
          by (apply Z.pow_le_mono_r; unfold M0; lia).
        rewrite Z.pow_add_r in H by lia. lia.
      + unfold k. pose proof (Z.mul_div_le (Zpos pn) (8 * Zpos pb)). lia.
      + unfold k.
        pose proof (Z.mul_succ_div_gt (Zpos pn) (8 * Zpos pb)). lia.
    - pose proof (SFdiv_magnitude false false pn pb 0 0 ltac:(lia)) as Hmag.
      fold M0 in Hmag.
      assert (Hk : k = 0).
      { unfold k. apply Z.div_small. split; [lia |].
        pose proof (Zdigits2_bounds (Zpos pn) ltac:(lia)) as [_ Hhi].
        pose proof (Zdigits2_bounds (Zpos pb) ltac:(lia)) as [Hlo _].
        assert (2 ^ Zdigits2 (Zpos pn) <= 2 ^ (Zdigits2 (Zpos pb) - 1))
          by (apply Z.pow_le_mono_r; unfold M0 in Htiny; lia).
        lia. }
      rewrite Hk.
      destruct (SFdiv prec emax (S754_finite false pn 0)
                  (S754_finite false pb 0)) as [s | s | | s m e] eqn:Hr;
        try contradiction; unfold SF_between; [lia |].
      (* a tiny positive quotient *)
      assert (Hs : s = false).
      { unfold SFdiv in Hr.
        destruct (div_core_facts (Zpos pn) 0 (Zpos pb) 0 ltac:(lia)
                    ltac:(lia)) as [q [e' [l [Hc [Hq _]]]]].
        rewrite Hc in Hr.
        pose proof (round_upper (xorb false false) q e' l Hq) as Hu.
        rewrite Hr in Hu. now destruct Hu as [-> _]. }
      subst s.
      pose proof (Zdigits2_bounds (Zpos m) ltac:(lia)) as [_ Hhi].
      pose proof (Zdigits2_pos (Zpos m) ltac:(lia)).
      assert (He : e <= 0) by lia.
      split; [exact He |].
      assert (2 ^ Zdigits2 (Zpos m) <= 2 ^ (- e))
        by (apply Z.pow_le_mono_r; lia).
      assert (0 < 2 ^ (- e)) by (apply Z.pow_pos_nonneg; lia).
      nia. }
  destruct (SFdiv prec emax (S754_finite false pn 0) (S754_finite false pb 0))
    as [s | s | | s m e] eqn:Hr; try discriminate; cbn [bind].
  - rewrite <- (Prim2SF_SF2Prim (S754_zero s) Hval) in Hkb.
    change (Py.float_of_int 8) with (Ok 8%float). cbn [bind].
    change (8 =? 0)%float with false. cbn [bind].
    apply int_div_8_between. exact Hkb.
  - rewrite <- (Prim2SF_SF2Prim (S754_finite s m e) Hval) in Hkb.
    change (Py.float_of_int 8) with (Ok 8%float). cbn [bind].
    change (8 =? 0)%float with false. cbn [bind].
    apply int_div_8_between. exact Hkb.
Qed.

(** *** Exact rounding *)

Lemma shr_1_even (x : Z) :
  0 <= x ->
  shr_1 (Build_shr_record (2 * x) false false) = Build_shr_record x false false.
Proof. destruct x as [| p | p]; try lia; reflexivity. Qed.

(** Shifting out zero bits leaves an exact record. *)
Lemma iter_shr_1_exact (p : positive) :
  forall c, 0 <= c ->
  SpecFloat.iter_pos shr_1 p (Build_shr_record (c * 2 ^ Zpos p) false false)
  = Build_shr_record c false false.
Proof.
  induction p as [p IH | p IH |]; intros c Hc.
  - assert (Hp : 0 < 2 ^ Zpos p) by (apply Z.pow_pos_nonneg; lia).
    replace (c * 2 ^ Z.pos p~1) with (2 * (c * 2 ^ Zpos p * 2 ^ Zpos p)).
    + change (SpecFloat.iter_pos shr_1 p
                (SpecFloat.iter_pos shr_1 p
                   (shr_1 (Build_shr_record
                             (2 * (c * 2 ^ Zpos p * 2 ^ Zpos p)) false false)))
              = Build_shr_record c false false).
      rewrite shr_1_even by nia. rewrite IH by nia. apply IH. exact Hc.
    + assert (He : 2 ^ Z.pos p~1 = 2 * (2 ^ Zpos p * 2 ^ Zpos p)).
      { rewrite <- Z.pow_add_r, <- Z.pow_succ_r by lia. f_equal. lia. }
      rewrite He. ring.
  - assert (Hp : 0 < 2 ^ Zpos p) by (apply Z.pow_pos_nonneg; lia).
    replace (c * 2 ^ Z.pos p~0) with (c * 2 ^ Zpos p * 2 ^ Zpos p).
    + change (SpecFloat.iter_pos shr_1 p
                (SpecFloat.iter_pos shr_1 p
                   (Build_shr_record (c * 2 ^ Zpos p * 2 ^ Zpos p)
                      false false))
              = Build_shr_record c false false).
      rewrite IH by nia. apply IH. exact Hc.
    + assert (He : 2 ^ Z.pos p~0 = 2 ^ Zpos p * 2 ^ Zpos p).
      { rewrite <- Z.pow_add_r by lia. f_equal. lia. }
      rewrite He. ring.
  - rewrite Z.pow_1_r, Z.mul_comm. apply shr_1_even. exact Hc.
Qed.

Lemma Zdigits2_mul_pow2 (x j : Z) :
  0 < x -> 0 <= j -> Zdigits2 (x * 2 ^ j) = Zdigits2 x + j.
Proof.
  intros Hx Hj. pose proof (Zdigits2_bounds x Hx) as [Hlo Hhi].
  pose proof (Zdigits2_pos x Hx).
  assert (Hp : 0 < 2 ^ j) by (apply Z.pow_pos_nonneg; lia).
  apply Z.le_antisymm.
  - apply Zdigits2_le; try nia. rewrite Z.pow_add_r by lia. nia.
  - pose proof (Zdigits2_ge (x * 2 ^ j) (Zdigits2 x - 1 + j) ltac:(lia)) as H1.
    rewrite Z.pow_add_r in H1 by lia. specialize (H1 ltac:(nia)). lia.
Qed.

(** A number [c * 2^k] whose low [k] bits are exactly those the format
    drops rounds to [c] at the exponent raised by [k]. *)
Lemma round_exact_shift (s : bool) (c : positive) (e k : Z) :
  0 <= k ->
  fexp prec emax (Zdigits2 (Zpos c) + k + e) = e + k -> e + k <= 971 ->
  binary_round_aux prec emax s (Zpos c * 2 ^ k) e loc_Exact
  = S754_finite s c (e + k).
Proof.
  intros Hk Hf He. unfold binary_round_aux, shr_fexp.
  rewrite Zdigits2_mul_pow2 by lia. rewrite Hf.
  replace (e + k - e) with k by lia.
  assert (Hshr : shr (shr_record_of_loc (Z.pos c * 2 ^ k) loc_Exact) e k
                 = (Build_shr_record (Zpos c) false false, e + k)).
  { unfold shr, shr_record_of_loc. destruct k as [| p | p]; try lia.
    - rewrite Z.pow_0_r, Z.mul_1_r, Z.add_0_r. reflexivity.
    - rewrite iter_shr_1_exact by lia. reflexivity. }
  rewrite Hshr.
  cbn [shr_m loc_of_shr_record round_nearest_even].
  replace (Zdigits2 (Z.pos c) + (e + k)) with (Zdigits2 (Zpos c) + k + e)
    by lia.
  rewrite Hf, Z.sub_diag. cbn [shr shr_record_of_loc shr_m].
  destruct (Z.leb_spec (e + k) (emax - prec)) as [_ | Hgt]; [reflexivity |].
  change (emax - prec) with 971 in Hgt. lia.
Qed.

Lemma valid_normal (s : bool) (m : positive) (e : Z) :
  Zdigits2 (Zpos m) = 53 -> -1074 <= e <= 971 ->
  valid_binary (S754_finite s m e) = true.
Proof.
  intros Hd He. unfold SpecFloat.valid_binary, bounded, canonical_mantissa.
  change (Z.pos (digits2_pos m)) with (Zdigits2 (Zpos m)).
  rewrite Hd, fexp_eq. apply andb_true_iff. split.
  - apply Z.eqb_eq. lia.
  - apply Z.leb_le. change (emax - prec) with 971. lia.
Qed.

(** A positive integer of at most 53 bits converts exactly: to the 53-bit
    mantissa [B * 2^(53 - digits B)]. *)
Lemma normalize_exact (B : Z) :
  0 < B -> Zdigits2 B <= 53 ->
  exists m,
    binary_normalize prec emax B 0 false
      = S754_finite false m (Zdigits2 B - 53) /\
    Zpos m = B * 2 ^ (53 - Zdigits2 B) /\
    Zdigits2 (Zpos m) = 53.
Proof.
  intros HB Hd. destruct B as [| p | p]; try lia.
  pose proof (Zdigits2_pos (Zpos p) ltac:(lia)) as Hd1.
  unfold binary_normalize, binary_round, shl_align.
  change (Z.pos (digits2_pos p)) with (Zdigits2 (Zpos p)).
  rewrite Z.add_0_r, Z.sub_0_r, fexp_eq.
  replace (Z.max (Zdigits2 (Z.pos p) - 53) (-1074))
    with (Zdigits2 (Zpos p) - 53) by lia.
  destruct (Zdigits2 (Z.pos p) - 53) as [| d | d] eqn:Hf; try lia.
  - exists p. replace (53 - Zdigits2 (Zpos p)) with 0 by lia.
    split; [| split; [simpl; lia | lia]].
    pose proof (round_exact_shift false p 0 0 ltac:(lia)) as H.
    rewrite Z.pow_0_r, Z.mul_1_r in H.
    rewrite H by (try rewrite fexp_eq; lia). reflexivity.
  - exists (Pos.iter xO p d).
    assert (Hz : Zpos (Pos.iter xO p d) = Zpos p * 2 ^ Zpos d).
    { clear. induction d as [| d IH] using Pos.peano_ind.
      - simpl. lia.
      - rewrite Pos.iter_succ, Pos2Z.inj_xO, IH, Pos2Z.inj_succ,
          Z.pow_succ_r by lia. ring. }
    assert (Hdig : Zdigits2 (Zpos (Pos.iter xO p d)) = 53)
      by (rewrite Zdigits2_iter_xO; lia).
    split; [| split; [rewrite Hz; do 2 f_equal; lia | exact Hdig]].
    pose proof (round_exact_shift false (Pos.iter xO p d) (Z.neg d) 0
                  ltac:(lia)) as H.
    rewrite Z.pow_0_r, Z.mul_1_r, Z.add_0_r in H. apply H; [| lia].
    rewrite Hdig, fexp_eq. lia.
Qed.

(** Multiplying the exact float of [B] by 3.5 is exact when [7 * B] has at
    most 53 bits: the product is [7 * B / 2]. *)
Lemma mul_35_exact (B : Z) (mb : positive) :
  0 < B -> Zdigits2 B <= 50 ->
  Zpos mb = B * 2 ^ (53 - Zdigits2 B) ->
  exists mE,
    SFmul prec emax (S754_finite false mb (Zdigits2 B - 53))
      (S754_finite false 7881299347898368 (-51))
    = S754_finite false mE (Zdigits2 (7 * B) - 54) /\
    Zpos mE = 7 * B * 2 ^ (53 - Zdigits2 (7 * B)) /\
    Zdigits2 (Zpos mE) = 53 /\
    Zdigits2 B + 2 <= Zdigits2 (7 * B) <= Zdigits2 B + 3.
Proof.
  intros HB Hd Hmb.
  pose proof (Zdigits2_bounds B HB) as [Hlo Hhi].
  pose proof (Zdigits2_pos B HB) as Hd1.
  set (dB := Zdigits2 B) in *. set (d7 := Zdigits2 (7 * B)).
  assert (Hd7 : dB + 2 <= d7 <= dB + 3).
  { split.
    - pose proof (Zdigits2_ge (7 * B) (dB + 1) ltac:(lia)) as H.
      replace (dB + 1) with (dB - 1 + 2) in H at 1 by lia.
      rewrite Z.pow_add_r in H by lia. change (2 ^ 2) with 4 in H.
      fold d7 in H. lia.
    - apply Zdigits2_le; try lia.
      rewrite Z.pow_add_r by lia. change (2 ^ 3) with 8. lia. }
  assert (Hc : 0 < 7 * B * 2 ^ (53 - d7)).
  { assert (0 < 2 ^ (53 - d7)) by (apply Z.pow_pos_nonneg; lia). nia. }
  destruct (7 * B * 2 ^ (53 - d7)) as [| c | c] eqn:Hcv; try lia.
  assert (Hdc : Zdigits2 (Zpos c) = 53).
  { rewrite <- Hcv, Zdigits2_mul_pow2 by lia. fold d7. lia. }
  exists c. split; [| split; [reflexivity | split; [exact Hdc | exact Hd7]]].
  unfold SFmul. cbn [xorb].
  assert (Hprod : Zpos (mb * 7881299347898368)
                  = Zpos c * 2 ^ (d7 - dB + 50)).
  { rewrite Pos2Z.inj_mul, Hmb, <- Hcv.
    change (Z.pos 7881299347898368) with (7 * 2 ^ 50).
    replace (7 * B * 2 ^ (53 - d7) * 2 ^ (d7 - dB + 50))
      with (7 * B * (2 ^ (53 - d7) * 2 ^ (d7 - dB + 50))) by ring.
    rewrite <- Z.pow_add_r by lia.
    replace (B * 2 ^ (53 - dB) * (7 * 2 ^ 50))
      with (7 * B * (2 ^ (53 - dB) * 2 ^ 50)) by ring.
    rewrite <- Z.pow_add_r by lia.
    do 2 f_equal. lia. }
  rewrite Hprod.
  rewrite round_exact_shift; try lia.
  - f_equal. lia.
  - rewrite Hdc, fexp_eq. lia.
Qed.

Lemma float_of_int_exact (B : Z) :
  0 < B -> Zdigits2 B <= 53 ->
  exists b m,
    Py.float_of_int B = Ok b /\
    Prim2SF b = S754_finite false m (Zdigits2 B - 53) /\
    Zpos m = B * 2 ^ (53 - Zdigits2 B) /\
    Zdigits2 (Zpos m) = 53.
Proof.
  intros HB Hd.
  destruct (normalize_exact B HB Hd) as [m [Hn [Hm Hdm]]].
  pose proof (Zdigits2_pos B HB).
  exists (SF2Prim (S754_finite false m (Zdigits2 B - 53))), m.
  split; [unfold Py.float_of_int; now rewrite Hn |].
  split; [apply Prim2SF_SF2Prim, valid_normal; [exact Hdm | lia] |].
  split; assumption.
Qed.

(** A positive integer converts to a positive number of at least its own
    magnitude, unless the conversion overflows. *)
Lemma normalize_pos (p : positive) :
  match binary_normalize prec emax (Zpos p) 0 false with
  | S754_zero _ | S754_nan => False
  | S754_infinity _ => True
  | S754_finite s m e =>
      s = false /\ valid_binary (S754_finite s m e) = true /\
      Zdigits2 (Zpos p) <= Zdigits2 (Zpos m) + e
  end.
Proof.
  unfold binary_normalize, binary_round, shl_align.
  change (Z.pos (digits2_pos p)) with (Zdigits2 (Zpos p)).
  pose proof (Zdigits2_pos (Zpos p) ltac:(lia)) as Hd.
  assert (Hcase : exists mz ez,
             (match fexp prec emax (Zdigits2 (Z.pos p) + 0) - 0 with
              | Z.neg d =>
                  (Pos.iter xO p d, fexp prec emax (Zdigits2 (Z.pos p) + 0))
              | _ => (p, 0)
              end) = (mz, ez) /\
             Zdigits2 (Zpos mz) + ez = Zdigits2 (Zpos p) /\
             ez <= fexp prec emax (Zdigits2 (Zpos mz) + ez)).
  { destruct (fexp prec emax (Zdigits2 (Z.pos p) + 0) - 0) as [| d | d] eqn:Hf.
    - exists p, 0. repeat split; lia.
    - exists p, 0. repeat split; lia.
    - do 2 eexists. split; [reflexivity |].
      rewrite Zdigits2_iter_xO. split; [lia |].
      replace (Zdigits2 (Z.pos p) + Z.pos d
               + fexp prec emax (Zdigits2 (Z.pos p) + 0))
        with (Zdigits2 (Zpos p) + 0) by lia. lia. }
  destruct Hcase as [mz [ez [-> [Hmag Hpre]]]].
  pose proof (round_upper false (Zpos mz) ez loc_Exact ltac:(lia)) as Hu.
  pose proof (round_lower false (Zpos mz) ez loc_Exact ltac:(lia) ltac:(lia))
    as Hl.
  pose proof (round_valid false (Zpos mz) ez loc_Exact ltac:(lia) Hpre) as Hv.
  destruct (binary_round_aux prec emax false (Z.pos mz) ez loc_Exact);
    try contradiction; try exact I.
  split; [apply Hu |]. split; [exact Hv | lia].
Qed.

Lemma float_of_int_pos (B : Z) (b : float) :
  0 < B -> Py.float_of_int B = Ok b ->
  exists m e,
    Prim2SF b = S754_finite false m e /\
    Zdigits2 B <= Zdigits2 (Zpos m) + e.
Proof.
  intros HB. destruct B as [| p | p]; try lia.
  unfold Py.float_of_int. pose proof (normalize_pos p) as Hn.
  destruct (binary_normalize prec emax (Z.pos p) 0 false) as [| | | s m e];
    try contradiction; try discriminate.
  destruct Hn as [-> [Hv Hmag]]. intros H.
  assert (Heq : b = SF2Prim (S754_finite false m e)) by congruence. subst b.
  exists m, e. split; [apply Prim2SF_SF2Prim; exact Hv | exact Hmag].
Qed.

(** The product of a positive number by 3.5 is positive, of magnitude at
    least one more, or overflows. *)
Lemma mul_35_large (m : positive) (e : Z) :
  -1074 < Zdigits2 (Zpos m) + e + 1 ->
  match SFmul prec emax (S754_finite false m e)
          (S754_finite false 7881299347898368 (-51)) with
  | S754_finite s m' e' =>
      s = false /\ Zdigits2 (Zpos m) + e + 1 <= Zdigits2 (Zpos m') + e'
  | S754_infinity _ => True
  | _ => False
  end.
Proof.
  intros HM. unfold SFmul. cbn [xorb].
  pose proof (Zdigits2_mul (Zpos m) 7881299347898368 ltac:(lia) ltac:(lia))
    as Hd.
  change (Zdigits2 7881299347898368) with 53 in Hd.
  change (Zpos m * 7881299347898368) with (Zpos (m * 7881299347898368)) in Hd.
  pose proof (round_upper false (Zpos (m * 7881299347898368)) (e + -51)
                loc_Exact ltac:(lia)) as Hu.
  pose proof (round_lower false (Zpos (m * 7881299347898368)) (e + -51)
                loc_Exact ltac:(lia) ltac:(lia)) as Hl.
  destruct (binary_round_aux prec emax false (Zpos (m * 7881299347898368))
              (e + -51) loc_Exact); try contradiction; try exact I.
  split; [apply Hu | lia].
Qed.

(** With bucketing the step count is [floor(2 * n / (56 * B))], which is
    [floor(n / (3.5 * B) / 8)]. *)
Lemma derive_steps_bucketed_value (n B : Z) (b : float) :
  0 < n -> Zdigits2 n <= 50 -> 0 < B -> Py.float_of_int B = Ok b ->
  derive_steps n B true = Ok (2 * n / (56 * B)).
Proof.
  intros Hn Hdn HB Hb. unfold derive_steps.
  cbn [Py.mul Py.to_float bind]. rewrite Hb. cbn [bind Py.truediv Py.to_float].
  destruct (float_of_int_exact n Hn ltac:(lia)) as [fn [mn [Hfn [Hsn [Hmn Hdmn]]]]].
  rewrite Hfn. cbn [bind].
  set (k := 2 * n / (56 * B)).
  pose proof (Zdigits2_pos n Hn) as Hdn1.
  pose proof (Zdigits2_pos B HB) as HdB1.
  pose proof (Zdigits2_bounds n Hn) as [Hnlo Hnhi].
  pose proof (Zdigits2_bounds B HB) as [HBlo HBhi].
  assert (Hkey : (b * 3.5 =? 0)%float = false /\
                 SF_between (8 * k) (8 * k + 8) (Prim2SF (fn / (b * 3.5))%float)).
  { rewrite FloatAxioms.eqb_spec, div_spec, mul_spec, Hsn.
    change (Prim2SF 0%float) with (S754_zero false).
    change (Prim2SF 3.5%float) with (S754_finite false 7881299347898368 (-51)).
    unfold SF64mul.
    destruct (Z_le_gt_dec (Zdigits2 B) 50) as [Hsmall | Hlarge].
    - (* exact *)
      destruct (float_of_int_exact B HB ltac:(lia))
        as [b' [mb [Hb' [Hsb [Hmb Hdmb]]]]].
      assert (b' = b) by congruence. subst b'. rewrite Hsb.
      destruct (mul_35_exact B mb HB Hsmall Hmb) as [mE [-> [HmE [HdE Hd7]]]].
      split; [reflexivity |].
      unfold SF64div.
      apply (SFdiv_bracket mn mE _ _ (2 * n) (7 * B)
               (54 - Zdigits2 (7 * B)) (53 - Zdigits2 n)); try lia.
      + rewrite Hmn, HmE.
        replace (54 - Zdigits2 (7 * B)) with (Z.succ (53 - Zdigits2 (7 * B)))
          by lia.
        rewrite Z.pow_succ_r by lia. ring.
      + rewrite Hdmn, HdE.
        pose proof (Zdigits2_bounds (7 * B) ltac:(lia)) as [_ H7hi].
        eapply Z.le_trans;
          [| apply (Z.pow_le_mono_r 2 (Zdigits2 (7 * B) + 1)); lia].
        rewrite Z.pow_add_r, Z.pow_1_r by lia. lia.
      + unfold k. pose proof (Z.mul_div_le (2 * n) (56 * B)). lia.
      + unfold k. pose proof (Z.mul_succ_div_gt (2 * n) (56 * B)). lia.
    - (* large batch sizes: the quotient is below one *)
      destruct (float_of_int_pos B b HB Hb) as [mb [eb [Hsb Hmagb]]].
      rewrite Hsb.
      pose proof (mul_35_large mb eb ltac:(lia)) as HE.
      assert (Hk : k = 0).
      { unfold k. apply Z.div_small. split; [lia |].
        assert (2 ^ 50 <= 2 ^ (Zdigits2 B - 1))
          by (apply Z.pow_le_mono_r; lia).
        assert (2 ^ Zdigits2 n <= 2 ^ 50) by (apply Z.pow_le_mono_r; lia).
        lia. }
      rewrite Hk.
      destruct (SFmul prec emax (S754_finite false mb eb)
                  (S754_finite false 7881299347898368 (-51)))
        as [| sE | | sE mE eE]; try contradiction.
      + split; [now destruct sE |]. simpl. lia.
      + destruct HE as [-> HmagE]. split; [reflexivity |].
        unfold SF64div.
        pose proof (SFdiv_magnitude false false mn mE (Zdigits2 n - 53) eE)
          as Hmag.
        rewrite Hdmn in Hmag. specialize (Hmag ltac:(lia)).
        destruct (SFdiv prec emax (S754_finite false mn (Zdigits2 n - 53))
                    (S754_finite false mE eE)) as [| | | s m e];
          try contradiction; unfold SF_between; [lia |].
        destruct Hmag as [-> Hmag]. cbn [xorb].
        pose proof (Zdigits2_bounds (Zpos m) ltac:(lia)) as [_ Hhi].
        pose proof (Zdigits2_pos (Zpos m) ltac:(lia)).
        assert (He : e <= 0) by lia.
        split; [exact He |].
        assert (2 ^ Zdigits2 (Zpos m) <= 2 ^ (- e))
          by (apply Z.pow_le_mono_r; lia).
        assert (0 < 2 ^ (- e)) by (apply Z.pow_pos_nonneg; lia).
        nia. }
  destruct Hkey as [-> Hbetween]. cbn [bind].
  change (Py.float_of_int 8) with (Ok 8%float). cbn [bind].
  change (8 =? 0)%float with false. cbn [bind].
  apply int_div_8_between. exact Hbetween.
Qed.

(** ** The exact quotients *)

(** Integer form of the proportionality: dividing the quotient by 3.5
    before truncating. *)
Lemma steps_proportional (n B : Z) :
  0 < B -> 0 <= n ->
  2 * (n / (8 * B)) - 7 < 7 * (2 * n / (56 * B)) <= 2 * (n / (8 * B)) + 1.
Proof.
  intros HB Hn.
  pose proof (Z.mul_div_le n (8 * B) ltac:(lia)).
  pose proof (Z.mul_succ_div_gt n (8 * B) ltac:(lia)).
  pose proof (Z.mul_div_le (2 * n) (56 * B) ltac:(lia)).
  pose proof (Z.mul_succ_div_gt (2 * n) (56 * B) ltac:(lia)).
  nia.
Qed.

(** The exact value [7 * B / 2] of a 53-bit mantissa at a negative
    exponent. *)
Lemma Q_of_SF_35 (B : Z) (mE : positive) (d7 : Z) :
  d7 <= 53 -> Zpos mE = 7 * B * 2 ^ (53 - d7) ->
  Qeq (Q_of_SF (S754_finite false mE (d7 - 54))) ((7 # 2) * inject_Z B).
Proof.
  intros Hd HmE. unfold Q_of_SF.
  destruct (d7 - 54) as [| p | p] eqn:He; try lia.
  unfold Qeq, Qmult, inject_Z. cbn [Qnum Qden].
  rewrite Pos2Z.inj_pow, HmE.
  change (Z.pos (2 * 1)) with 2.
  replace (Z.pos p) with (Z.succ (53 - d7)) by lia.
  rewrite Z.pow_succ_r by lia. ring.
Qed.

(** ** Sign symmetry of the arithmetic *)

Lemma SFopp_involutive (x : spec_float) : SFopp (SFopp x) = x.
Proof. destruct x; simpl; now rewrite ?negb_involutive. Qed.

Lemma opp_involutive (x : float) : (- - x)%float = x.
Proof.
  apply Prim2SF_inj. now rewrite !opp_spec, SFopp_involutive.
Qed.

Lemma SF2Prim_opp (x : spec_float) : SF2Prim (SFopp x) = (- SF2Prim x)%float.
Proof.
  destruct x as [[|] | [|] | | [|] m e]; try reflexivity.
  simpl. now rewrite opp_involutive.
Qed.

Lemma binary_round_aux_opp (s : bool) (m e : Z) (l : location) :
  binary_round_aux prec emax (negb s) m e l
  = SFopp (binary_round_aux prec emax s m e l).
Proof.
  unfold binary_round_aux.
  destruct (shr_fexp prec emax m e l) as [mrs' e'].
  destruct (shr_fexp prec emax _ e' loc_Exact) as [mrs'' e''].
  destruct (shr_m mrs''); [reflexivity | | reflexivity].
  destruct (e'' <=? emax - prec); reflexivity.
Qed.

Lemma SFdiv_opp_l (x y : spec_float) :
  SFdiv prec emax (SFopp x) y = SFopp (SFdiv prec emax x y).
Proof.
  destruct x as [sx | sx | | sx mx ex], y as [sy | sy | | sy my ey];
    simpl; rewrite <- ?negb_xorb_l; try reflexivity.
  destruct (SFdiv_core_binary prec emax (Zpos mx) ex (Zpos my) ey)
    as [[mz ez] lz].
  apply binary_round_aux_opp.
Qed.

Lemma SFdiv_opp_r (x y : spec_float) :
  SFdiv prec emax x (SFopp y) = SFopp (SFdiv prec emax x y).
Proof.
  destruct x as [sx | sx | | sx mx ex], y as [sy | sy | | sy my ey];
    simpl; rewrite <- ?negb_xorb_r; try reflexivity.
  destruct (SFdiv_core_binary prec emax (Zpos mx) ex (Zpos my) ey)
    as [[mz ez] lz].
  apply binary_round_aux_opp.
Qed.

Lemma SFmul_opp_l (x y : spec_float) :
  SFmul prec emax (SFopp x) y = SFopp (SFmul prec emax x y).
Proof.
  destruct x as [sx | sx | | sx mx ex], y as [sy | sy | | sy my ey];
    simpl; rewrite <- ?negb_xorb_l; try reflexivity.
  apply binary_round_aux_opp.
Qed.

Lemma SFmul_opp_r (x y : spec_float) :
  SFmul prec emax x (SFopp y) = SFopp (SFmul prec emax x y).
Proof.
  destruct x as [sx | sx | | sx mx ex], y as [sy | sy | | sy my ey];
    simpl; rewrite <- ?negb_xorb_r; try reflexivity.
  apply binary_round_aux_opp.
Qed.

Lemma div_opp_l (x y : float) : (- x / y)%float = (- (x / y))%float.
Proof.
  apply Prim2SF_inj. rewrite opp_spec, !div_spec, opp_spec.
  apply SFdiv_opp_l.
Qed.

Lemma div_opp_r (x y : float) : (x / - y)%float = (- (x / y))%float.
Proof.
  apply Prim2SF_inj. rewrite opp_spec, !div_spec, opp_spec.
  apply SFdiv_opp_r.
Qed.

Lemma mul_opp_l (x y : float) : (- x * y)%float = (- (x * y))%float.
Proof.
  apply Prim2SF_inj. rewrite opp_spec, !mul_spec, opp_spec.
  apply SFmul_opp_l.
Qed.

Lemma mul_opp_r (x y : float) : (x * - y)%float = (- (x * y))%float.
Proof.
  apply Prim2SF_inj. rewrite opp_spec, !mul_spec, opp_spec.
  apply SFmul_opp_r.
Qed.

Lemma eqb_opp_zero (y : float) : (- y =? 0)%float = (y =? 0)%float.
Proof.
  rewrite !FloatAxioms.eqb_spec, opp_spec.
  change (Prim2SF 0%float) with (S754_zero false).
  destruct (Prim2SF y) as [[|] | [|] | | [|] m e]; reflexivity.
Qed.

Lemma binary_normalize_opp (B : Z) :
  B <> 0 ->
  binary_normalize prec emax (- B) 0 false
  = SFopp (binary_normalize prec emax B 0 false).
Proof.
  destruct B as [| p | p]; [congruence | |]; intros _; simpl;
    unfold binary_round;
    destruct (shl_align p 0 _) as [mz ez].
  - apply (binary_round_aux_opp false).
  - pose proof (binary_round_aux_opp false (Zpos mz) ez loc_Exact) as H.
    cbn [negb] in H. now rewrite H, SFopp_involutive.
Qed.

(** [float(-B)] is [-float(B)]. *)
Lemma float_of_int_opp (B : Z) :
  B <> 0 ->
  Py.float_of_int (- B) = (b <- Py.float_of_int B ;; Ok (- b)%float).
Proof.
  intros HB. unfold Py.float_of_int. rewrite (binary_normalize_opp B HB).
  destruct (binary_normalize prec emax B 0 false) as [s | s | | s m e];
    cbn [SFopp bind]; try reflexivity;
    rewrite <- SF2Prim_opp; reflexivity.
Qed.

Lemma SF_of_Z_opp (B : Z) :
  B <> 0 -> Py.SF_of_Z (- B) = SFopp (Py.SF_of_Z B).
Proof. destruct B; [congruence | reflexivity | reflexivity]. Qed.

(** [n / -B] is [-(n / B)]. *)
Lemma int_true_div_opp (n B : Z) :
  Py.int_true_div n (- B) = (q <- Py.int_true_div n B ;; Ok (- q)%float).
Proof.
  unfold Py.int_true_div.
  destruct (Z.eqb_spec B 0) as [-> | HB]; [reflexivity |].
  destruct (Z.eqb_spec (- B) 0) as [H0 | _]; [lia |].
  rewrite (SF_of_Z_opp B HB), SFdiv_opp_r.
  destruct (SFdiv prec emax (Py.SF_of_Z n) (Py.SF_of_Z B)) as [s | s | | s m e];
    cbn [SFopp bind]; try reflexivity;
    rewrite <- SF2Prim_opp; reflexivity.
Qed.

Lemma trunc_SF_opp (x : spec_float) :
  Py.trunc_SF (SFopp x) = - Py.trunc_SF x.
Proof.
  destruct x as [s | s | | [|] m e]; simpl; try reflexivity.
  now rewrite Z.opp_involutive.
Qed.

(** [int(-f)] is [-int(f)]. *)
Lemma int_opp (f : float) :
  Py.int (Py.NFloat (- f)) = (k <- Py.int (Py.NFloat f) ;; Ok (- k)).
Proof.
  unfold Py.int. rewrite opp_spec.
  destruct (Prim2SF f) as [s | s | | s m e] eqn:Hf; cbn [SFopp bind];
    try reflexivity.
  now rewrite <- trunc_SF_opp.
Qed.

(** The last two steps of the derivation on a negated quotient. *)
Lemma div_8_int_opp (q : float) :
  (r <- Py.truediv (Py.NFloat (- q)) (Py.NInt 8) ;; Py.int r)
  = (k <- (r <- Py.truediv (Py.NFloat q) (Py.NInt 8) ;; Py.int r) ;;
     Ok (- k)).
Proof.
  unfold Py.truediv. cbn [Py.to_float bind].
  destruct (Py.float_of_int 8) as [e |]; cbn [bind]; [| reflexivity].
  destruct (e =? 0)%float; cbn [bind]; [reflexivity |].
  rewrite div_opp_l. apply int_opp.
Qed.

Lemma truediv_int_float (n : Z) (e : float) :
  Py.truediv (Py.NInt n) (Py.NFloat e)
  = (a <- Py.float_of_int n ;;
     if (e =? 0)%float then Raise ZeroDivisionError
     else Ok (Py.NFloat (a / e)%float)).
Proof. reflexivity. Qed.

Lemma truediv_int_int (n B : Z) :
  Py.truediv (Py.NInt n) (Py.NInt B)
  = (q <- Py.int_true_div n B ;; Ok (Py.NFloat q)).
Proof. reflexivity. Qed.

(** Negating the batch size negates the derived step count; an error stays
    the same error. *)
Lemma derive_steps_opp (n B : Z) (flag : bool) :
  derive_steps n (- B) flag = (k <- derive_steps n B flag ;; Ok (- k)).
Proof.
  unfold derive_steps.
  destruct (Z.eq_dec B 0) as [-> | HB].
  - destruct flag.
    + change (Py.mul (Py.NInt (- 0)) (Py.NFloat 3.5))
        with (@Ok Py.num (Py.NFloat 0%float)).
      cbn [bind]. unfold Py.truediv. cbn [Py.to_float bind].
      destruct (Py.float_of_int n) as [a |]; reflexivity.
    + reflexivity.
  - destruct flag.
    + unfold Py.mul. cbn [Py.to_float bind].
      rewrite (float_of_int_opp B HB).
      destruct (Py.float_of_int B) as [b |]; cbn [bind]; [| reflexivity].
      rewrite mul_opp_l, !truediv_int_float.
      destruct (Py.float_of_int n) as [a |]; cbn [bind]; [| reflexivity].
      rewrite eqb_opp_zero.
      destruct (b * 3.5 =? 0)%float; cbn [bind]; [reflexivity |].
      rewrite div_opp_r. apply div_8_int_opp.
    + cbn [bind]. rewrite !truediv_int_int, int_true_div_opp.
      destruct (Py.int_true_div n B) as [q |]; cbn [bind]; [| reflexivity].
      apply div_8_int_opp.
Qed.

(** *** Truncation towards zero *)

Lemma Qtrunc_comp (x y : Q) : Qeq x y -> Qtrunc x = Qtrunc y.
Proof.
  intros H. unfold Qtrunc.
  assert (Hb : Qle_bool (inject_Z 0) x = Qle_bool (inject_Z 0) y).
  { apply eq_true_iff_eq. rewrite !Qle_bool_iff. now rewrite H. }
  rewrite Hb. destruct (Qle_bool (inject_Z 0) y).
  - now apply Qfloor_comp.
  - now apply Qceiling_comp.
Qed.

(** The truncated quotient of a non-negative integer by a non-zero one. *)
Lemma Qtrunc_quotient (a D : Z) :
  0 <= a -> D <> 0 ->
  Qtrunc (inject_Z a / inject_Z D) = Z.sgn D * (a / Z.abs D).
Proof.
  intros Ha HD. unfold Qtrunc.
  destruct (Qle_bool (inject_Z 0) (inject_Z a / inject_Z D)) eqn:Hs.
  - apply Qle_bool_iff in Hs.
    destruct D as [| p | p]; [congruence | |];
      unfold Qdiv, Qmult, Qinv, Qle, inject_Z, Qfloor in *;
      cbn [Qnum Qden Z.sgn Z.abs] in *;
      replace (Z.pos (1 * p)) with (Z.pos p) in * by lia.
    + rewrite Z.mul_1_r, Z.mul_1_l. reflexivity.
    + assert (a = 0) by lia. subst a. reflexivity.
  - assert (Hneg : ~ Qle (inject_Z 0) (inject_Z a / inject_Z D)).
    { intros H. apply Qle_bool_iff in H. congruence. }
    destruct D as [| p | p]; [congruence | |];
      unfold Qceiling, Qopp, Qdiv, Qmult, Qinv, Qle, inject_Z, Qfloor in *;
      cbn [Qnum Qden Z.sgn Z.abs] in *;
      replace (Z.pos (1 * p)) with (Z.pos p) in * by lia.
    + exfalso. apply Hneg. lia.
    + replace (- (a * -1)) with a by ring. ring.
Qed.

Lemma Qtrunc_unbucketed (n B : Z) :
  0 <= n -> B <> 0 ->
  Qtrunc (inject_Z n / inject_Z B / inject_Z 8)
  = Z.sgn B * (n / (8 * Z.abs B)).
Proof.
  intros Hn HB.
  assert (HBq : ~ Qeq (inject_Z B) (inject_Z 0)).
  { unfold Qeq. simpl. lia. }
  rewrite (Qtrunc_comp _ (inject_Z n / inject_Z (8 * B))).
  - rewrite Qtrunc_quotient by lia.
    rewrite Z.sgn_mul, Z.abs_mul.
    change (Z.sgn 8) with 1. change (Z.abs 8) with 8.
    now rewrite Z.mul_1_l.
  - rewrite inject_Z_mult. field. exact HBq.
Qed.

Lemma Qtrunc_bucketed (n B : Z) :
  0 <= n -> B <> 0 ->
  Qtrunc (inject_Z n / ((7 # 2) * inject_Z B) / inject_Z 8)
  = Z.sgn B * (2 * n / (56 * Z.abs B)).
Proof.
  intros Hn HB.
  assert (HBq : ~ Qeq (inject_Z B) (inject_Z 0)).
  { unfold Qeq. simpl. lia. }
  rewrite (Qtrunc_comp _ (inject_Z (2 * n) / inject_Z (56 * B))).
  - rewrite Qtrunc_quotient by lia.
    rewrite Z.sgn_mul, Z.abs_mul.
    change (Z.sgn 56) with 1. change (Z.abs 56) with 56.
    now rewrite Z.mul_1_l.
  - rewrite !inject_Z_mult. field. exact HBq.
Qed.

(** The step count of a non-zero batch size that converts to a float: the
    quotient truncated towards zero. *)
Lemma derive_steps_signed (n B : Z) (b : float) (flag : bool) :
  0 < n -> Zdigits2 n <= 50 -> B <> 0 -> Py.float_of_int B = Ok b ->
  derive_steps n B flag
  = Ok (Z.sgn B * (if flag then 2 * n / (56 * Z.abs B)
                   else n / (8 * Z.abs B))).
Proof.
  intros Hn Hd HB Hb.
  assert (Hpos : forall P p, 0 < P -> Py.float_of_int P = Ok p ->
                   derive_steps n P flag
                   = Ok (if flag then 2 * n / (56 * P) else n / (8 * P))).
  { intros P p HP Hp. destruct flag.
    - now apply (derive_steps_bucketed_value n P p).
    - now apply derive_steps_unbucketed_value. }
  destruct (Z.lt_trichotomy B 0) as [Hneg | [H0 | Hgt]]; [| contradiction |].
  - assert (Hp : exists p, Py.float_of_int (- B) = Ok p).
    { rewrite <- (Z.opp_involutive B) in Hb.
      rewrite float_of_int_opp in Hb by lia.
      destruct (Py.float_of_int (- B)) as [p |]; [eauto | discriminate]. }
    destruct Hp as [p Hp].
    rewrite <- (Z.opp_involutive B) at 1.
    rewrite derive_steps_opp, (Hpos (- B) p) by (lia || assumption).
    cbn [bind]. f_equal.
    rewrite (Z.sgn_neg B), (Z.abs_neq B) by lia.
    destruct flag; ring.
  - rewrite (Hpos B b) by assumption. f_equal.
    rewrite (Z.sgn_pos B), (Z.abs_eq B) by lia.
    destruct flag; ring.
Qed.

(** The product with 3.5 of a converted integer of magnitude below [2^50]
    is exact. *)
Lemma mul_35_value (B : Z) :
  Z.abs B < 2 ^ 50 ->
  exists b,
    Py.float_of_int B = Ok b /\
    finite_SF (Prim2SF (b * 3.5)%float) = true /\
    Qeq (Q_of_SF (Prim2SF (b * 3.5)%float)) ((7 # 2) * inject_Z B).
Proof.
  assert (Hpos : forall P, 0 < P -> P < 2 ^ 50 ->
                   exists p mE e,
                     Py.float_of_int P = Ok p /\
                     Prim2SF (p * 3.5)%float = S754_finite false mE e /\
                     Qeq (Q_of_SF (S754_finite false mE e))
                       ((7 # 2) * inject_Z P)).
  { intros P HP Hsmall.
    assert (HdP : Zdigits2 P <= 50) by (apply Zdigits2_le; lia).
    destruct (float_of_int_exact P HP ltac:(lia))
      as [p [mb [Hp [Hsb [Hmb _]]]]].
    destruct (mul_35_exact P mb HP HdP Hmb) as [mE [HE [HmE [_ Hd7]]]].
    exists p, mE, (Zdigits2 (7 * P) - 54). split; [exact Hp |].
    split.
    - rewrite mul_spec, Hsb.
      change (Prim2SF 3.5%float)
        with (S754_finite false 7881299347898368 (-51)).
      unfold SF64mul. exact HE.
    - apply Q_of_SF_35; [lia | exact HmE]. }
  intros HB. destruct (Z.lt_trichotomy B 0) as [Hneg | [-> | Hgt]].
  - destruct (Hpos (- B) ltac:(lia) ltac:(lia)) as [p [mE [e [Hp [Hs Hq]]]]].
    exists (- p)%float.
    split.
    { rewrite <- (Z.opp_involutive B) at 1.
      rewrite float_of_int_opp by lia. now rewrite Hp. }
    rewrite mul_opp_l, opp_spec, Hs. cbn [SFopp negb].
    split; [reflexivity |].
    change (Q_of_SF (S754_finite true mE e))
      with (Qopp (Q_of_SF (S754_finite false mE e))).
    rewrite Hq, inject_Z_opp. ring.
  - exists 0%float. split; [reflexivity |]. split; reflexivity.
  - destruct (Hpos B Hgt ltac:(lia)) as [p [mE [e [Hp [Hs Hq]]]]].
    exists p. rewrite Hs. split; [exact Hp |]. split; [reflexivity | exact Hq].
Qed.

(** Integer form of the proportionality, for either sign. *)
Lemma steps_proportional_signed (n B : Z) :
  0 <= n -> B <> 0 ->
  let off := Z.sgn B * (n / (8 * Z.abs B)) in
  let on := Z.sgn B * (2 * n / (56 * Z.abs B)) in
  2 * Z.abs off - 7 < 7 * Z.abs on <= 2 * Z.abs off + 1 /\ 0 <= off * on.
Proof.
  intros Hn HB off on.
  pose proof (steps_proportional n (Z.abs B) ltac:(lia) Hn) as H.
  assert (Ha : 0 <= n / (8 * Z.abs B)) by (apply Z.div_pos; lia).
  assert (Hb : 0 <= 2 * n / (56 * Z.abs B)) by (apply Z.div_pos; lia).
  unfold off, on.
  destruct (Z.lt_trichotomy B 0) as [Hneg | [H0 | Hgt]]; [| contradiction |].
  - rewrite (Z.sgn_neg B) by lia. split; [lia | nia].
  - rewrite (Z.sgn_pos B) by lia. split; [lia | nia].
Qed.

(** ** The builder *)

Section BuilderFacts.

Context {Base : Type}.
Variable get_base_config : Base.
Variable base_restore_path : option string.
Variable apply_presets : Config Base -> list string -> Config Base.

Local Abbreviation default_config :=
  (get_default_config Base get_base_config base_restore_path).
Local Abbreviation after_presets :=
  (preset_config Base get_base_config base_restore_path apply_presets).
Local Abbreviation build :=
  (get_config Base get_base_config base_restore_path apply_presets).

(** [v *= batch_size] converts the batch size and multiplies. *)
Lemma imul_batch_size_eq (v : float) (B : Z) :
  imul_batch_size v B = (b <- Py.float_of_int B ;; Ok (v * b)%float).
Proof.
  unfold imul_batch_size. simpl. now destruct (Py.float_of_int B).
Qed.

Lemma steps_per_epoch_eq (e : Experiment.t) (d : Dataset) :
  steps_per_epoch e d =
  derive_steps (num_train_samples d) (batch_size_of e) (do_bucket_by_size_of e).
Proof. reflexivity. Qed.

(** What a run of lines 94 to 116 does, step by step. *)
Lemma resolve_eq (c : Config Base) :
  resolve Base c =
  match dict_get datasets (Experiment.dataset_name (experiment c)) with
  | None => Raise (KeyError (Experiment.dataset_name (experiment c)))
  | Some d =>
      spe <- steps_per_epoch (experiment c) d ;;
      b <- Py.float_of_int (batch_size_of (experiment c)) ;;
      Ok (resolved c d spe b)
  end.
Proof.
  unfold resolve, dict_getitem.
  destruct (dict_get datasets _) as [d |]; cbn [bind]; [| reflexivity].
  change (steps_per_epoch (experiment (set_experiment
            (set_dataset d (experiment c)) c)) d)
    with (steps_per_epoch (experiment c) d).
  destruct (steps_per_epoch (experiment c) d) as [spe |]; cbn [bind];
    [| reflexivity].
  rewrite !imul_batch_size_eq.
  change (batch_size_of (experiment (set_training_steps _ (set_experiment
            (set_dataset d (experiment c)) c))))
    with (batch_size_of (experiment c)).
  destruct (Py.float_of_int (batch_size_of (experiment c))) as [b |];
    reflexivity.
Qed.

Lemma resolve_Ok (c cfg : Config Base) :
  resolve Base c = Ok cfg ->
  exists d spe b,
    dict_get datasets (Experiment.dataset_name (experiment c)) = Some d /\
    steps_per_epoch (experiment c) d = Ok spe /\
    Py.float_of_int (batch_size_of (experiment c)) = Ok b /\
    cfg = resolved c d spe b.
Proof.
  rewrite resolve_eq.
  destruct (dict_get datasets _) as [d |]; [| discriminate].
  destruct (steps_per_epoch (experiment c) d) as [spe |] eqn:Hs;
    [| discriminate].
  destruct (Py.float_of_int _) as [b |] eqn:Hb; [| discriminate].
  cbn [bind]. intros H. injection H as <-.
  exists d, spe, b. repeat split; assumption.
Qed.

Lemma build_Ok (preset : string) (cfg : Config Base) :
  build preset = Ok cfg ->
  exists c, after_presets preset = Ok c /\ resolve Base c = Ok cfg.
Proof.
  unfold get_config. destruct (after_presets preset) as [c |]; simpl.
  - intros H. now exists c.
  - discriminate.
Qed.

(** C1: with no presets the build succeeds with the defaults (dataset
    ['ogbg-code2'], batch size 48, no bucketing, 32 epochs), its
    [steps_per_epoch] is [floor(407976 / 48 / 8)] and its [training_steps] is
    [epochs] times that. *)
Theorem default_training_steps :
  exists cfg,
    build "" = Ok cfg /\
    Experiment.dataset_name (experiment cfg) = "ogbg-code2" /\
    Experiment.dataset (experiment cfg) = Some OGBG_CODE2 /\
    batch_size_of (experiment cfg) = 48 /\
    do_bucket_by_size_of (experiment cfg) = false /\
    epochs cfg = 32 /\
    steps_per_epoch (experiment cfg) OGBG_CODE2 =
      Ok (Qfloor (inject_Z (num_train_samples OGBG_CODE2)
                  / inject_Z 48 / inject_Z 8)) /\
    training_steps cfg =
      epochs cfg * Qfloor (inject_Z 407976 / inject_Z 48 / inject_Z 8).
Proof.
  eexists. split; [vm_compute; reflexivity |].
  repeat split; vm_compute; reflexivity.
Qed.

(** C9: with an empty preset string no preset is applied, the dataset name is
    still the default ['ogbg-code2'], which is a key of the registry, and the
    build returns a config. *)
Theorem empty_preset_build_succeeds :
  exists d cfg,
    default_config = Ok d /\
    after_presets "" = Ok (set_restore_path None d) /\
    Experiment.dataset_name (experiment (set_restore_path None d))
      = "ogbg-code2" /\
    In "ogbg-code2" (keys datasets) /\
    dict_getitem datasets "ogbg-code2" = Ok OGBG_CODE2 /\
    build "" = Ok cfg.
Proof.
  do 2 eexists.
  split; [vm_compute; reflexivity |].
  split; [vm_compute; reflexivity |].
  split; [reflexivity |].
  split; [simpl; auto |].
  split; [reflexivity |].
  vm_compute; reflexivity.
Qed.

(** C10: with an empty preset string the build returns the default config in
    which only [restore_path], [dataset], [training_steps] and the five
    fields of the learning-rate schedule were assigned: every other field,
    at the top level and in the experiment record, has its default value. *)
Theorem empty_preset_frame :
  exists d cfg,
    default_config = Ok d /\ build "" = Ok cfg /\
    (base cfg = base d /\
     warmup_epochs cfg = warmup_epochs d /\
     epochs cfg = epochs d /\
     log_train_data_interval cfg = log_train_data_interval d /\
     log_tensors_interval cfg = log_tensors_interval d /\
     save_checkpoint_interval cfg = save_checkpoint_interval d /\
     save_initial_train_checkpoint cfg = save_initial_train_checkpoint d /\
     checkpoint_dir cfg = checkpoint_dir d /\
     eval_specific_checkpoint_dir cfg = eval_specific_checkpoint_dir d /\
     best_model_eval_metric cfg = best_model_eval_metric d /\
     best_model_eval_metric_higher_is_better cfg
       = best_model_eval_metric_higher_is_better d) /\
    (Experiment.data_root (experiment cfg)
       = Experiment.data_root (experiment d) /\
     Experiment.debug (experiment cfg) = Experiment.debug (experiment d) /\
     Experiment.dataset_name (experiment cfg)
       = Experiment.dataset_name (experiment d) /\
     Experiment.pmap_axis (experiment cfg)
       = Experiment.pmap_axis (experiment d) /\
     Experiment.model (experiment cfg) = Experiment.model (experiment d) /\
     Experiment.dataset_config (experiment cfg)
       = Experiment.dataset_config (experiment d) /\
     Experiment.training (experiment cfg)
       = Experiment.training (experiment d) /\
     Experiment.evaluation (experiment cfg)
       = Experiment.evaluation (experiment d)) /\
    (Optimizer.name (Experiment.optimizer (experiment cfg))
       = Optimizer.name (Experiment.optimizer (experiment d)) /\
     Optimizer.optimizer_kwargs (Experiment.optimizer (experiment cfg))
       = Optimizer.optimizer_kwargs (Experiment.optimizer (experiment d)) /\
     Optimizer.use_agc (Experiment.optimizer (experiment cfg))
       = Optimizer.use_agc (Experiment.optimizer (experiment d)) /\
     Optimizer.agc_kwargs (Experiment.optimizer (experiment cfg))
       = Optimizer.agc_kwargs (Experiment.optimizer (experiment d))) /\
    cfg =
      set_experiment
        (set_lr_schedule (lr_schedule_of (experiment cfg))
           (set_dataset OGBG_CODE2 (experiment d)))
        (set_training_steps (training_steps cfg)
           (set_restore_path (restore_path cfg) d)).
Proof.
  do 2 eexists.
  split; [vm_compute; reflexivity |].
  split; [vm_compute; reflexivity |].
  repeat split; reflexivity.
Qed.

(** C8: in every config the builder returns, [training_steps] is [epochs]
    times [steps_per_epoch], the schedule's [warmup_steps] is [warmup_epochs]
    times [steps_per_epoch] and its [decay_steps] is [training_steps], where
    [steps_per_epoch] is the value derived after the presets were applied and
    the dataset was resolved. *)
Theorem derived_step_counts (preset : string) (cfg : Config Base) :
  build preset = Ok cfg ->
  exists c d spe,
    after_presets preset = Ok c /\
    dict_get datasets (Experiment.dataset_name (experiment c)) = Some d /\
    Experiment.dataset (experiment cfg) = Some d /\
    steps_per_epoch (experiment cfg) d = Ok spe /\
    steps_per_epoch (experiment c) d = Ok spe /\
    epochs cfg = epochs c /\
    warmup_epochs cfg = warmup_epochs c /\
    training_steps cfg = epochs cfg * spe /\
    LrSchedule.warmup_steps (lr_schedule_of (experiment cfg))
      = warmup_epochs cfg * spe /\
    LrSchedule.decay_steps (lr_schedule_of (experiment cfg))
      = training_steps cfg.
Proof.
  intros H. apply build_Ok in H as [c [Hc H]].
  apply resolve_Ok in H as [d [spe [b [Hd [Hs [_ ->]]]]]].
  exists c, d, spe. repeat split; try assumption; reflexivity.
Qed.

(** C5: in every config the builder returns, each of the schedule's
    [init_value], [peak_value] and [end_value] is its value after the presets
    times the training batch size [B] (as a float), whatever the bucketing
    flag; so a peak value left at the default [1e-4 / 32] becomes
    [(1e-4 / 32) * B]. The batch size itself is unchanged. *)
Theorem lr_scaled_by_batch_size (preset : string) (cfg : Config Base) :
  build preset = Ok cfg ->
  exists c b,
    after_presets preset = Ok c /\
    batch_size_of (experiment cfg) = batch_size_of (experiment c) /\
    do_bucket_by_size_of (experiment cfg)
      = do_bucket_by_size_of (experiment c) /\
    Py.float_of_int (batch_size_of (experiment c)) = Ok b /\
    LrSchedule.init_value (lr_schedule_of (experiment cfg))
      = (LrSchedule.init_value (lr_schedule_of (experiment c)) * b)%float /\
    LrSchedule.peak_value (lr_schedule_of (experiment cfg))
      = (LrSchedule.peak_value (lr_schedule_of (experiment c)) * b)%float /\
    LrSchedule.end_value (lr_schedule_of (experiment cfg))
      = (LrSchedule.end_value (lr_schedule_of (experiment c)) * b)%float /\
    (LrSchedule.peak_value (lr_schedule_of (experiment c))
       = (1e-4 / 32)%float ->
     LrSchedule.peak_value (lr_schedule_of (experiment cfg))
       = ((1e-4 / 32) * b)%float).
Proof.
  intros H. apply build_Ok in H as [c [Hc H]].
  apply resolve_Ok in H as [d [spe [b [_ [_ [Hb ->]]]]]].
  exists c, b. repeat split; try assumption; try reflexivity.
  intros Hp. cbn. change (Optimizer.lr_schedule (Experiment.optimizer
                             (experiment c)))
    with (lr_schedule_of (experiment c)). now rewrite Hp.
Qed.

(** C7: for a non-empty preset string the builder hands the preset overlay
    the pieces of the string between commas, deduplicated by first occurrence
    with the order preserved: a list without duplicates that has the same
    entries as the pieces. For ["a,a,b"] that list is [a, b]. *)
Theorem presets_deduplicated (preset : string) :
  preset <> "" ->
  unique_presets preset = dedup_first (split "," preset) /\
  NoDup (unique_presets preset) /\
  (forall x, In x (unique_presets preset) <-> In x (split "," preset)) /\
  (exists d,
     default_config = Ok d /\
     after_presets preset
       = Ok (apply_presets (set_restore_path None d)
               (dedup_first (split "," preset))) /\
     build preset
       = resolve Base (apply_presets (set_restore_path None d)
                         (dedup_first (split "," preset)))) /\
  unique_presets "a,a,b" = ["a"; "b"].
Proof.
  intros Hne. apply truthy_nonempty in Hne.
  assert (Hu : unique_presets preset = dedup_first (split "," preset))
    by apply OrderedDict_fromkeys_dedup.
  split; [exact Hu |].
  split; [rewrite Hu; apply dedup_first_NoDup |].
  split; [intros x; rewrite Hu; apply dedup_first_In |].
  split; [| reflexivity].
  assert (Hd : exists d, default_config = Ok d)
    by (eexists; vm_compute; reflexivity).
  destruct Hd as [d Hd]. exists d. split; [exact Hd |].
  unfold get_config, preset_config. rewrite Hd. cbn [bind].
  rewrite Hne, Hu. split; reflexivity.
Qed.

(** *** Errors of the derivation *)

Lemma float_of_int_Raise (z : Z) (e : exn) :
  Py.float_of_int z = Raise e -> e = OverflowError.
Proof.
  unfold Py.float_of_int.
  destruct (binary_normalize prec emax z 0 false); intros H;
    inversion H; reflexivity.
Qed.

Lemma int_true_div_Raise (a b : Z) (e : exn) :
  Py.int_true_div a b = Raise e -> is_KeyError e = false.
Proof.
  unfold Py.int_true_div. destruct (b =? 0).
  - intros H; inversion H; reflexivity.
  - destruct (SFdiv prec emax _ _); intros H; inversion H; reflexivity.
Qed.

Lemma to_float_Raise (x : Py.num) (e : exn) :
  Py.to_float x = Raise e -> is_KeyError e = false.
Proof.
  destruct x as [z | f]; simpl; intros H.
  - apply float_of_int_Raise in H. now subst.
  - discriminate.
Qed.

Lemma mul_Raise (x y : Py.num) (e : exn) :
  Py.mul x y = Raise e -> is_KeyError e = false.
Proof.
  unfold Py.mul.
  destruct x as [a | a], y as [b | b]; try discriminate;
    cbn [Py.to_float bind];
    repeat match goal with
      | |- context [Py.float_of_int ?z] =>
          let H := fresh in
          destruct (Py.float_of_int z) eqn:H; cbn [bind];
          [| apply float_of_int_Raise in H; subst]
      end;
    intros Hr; inversion Hr; reflexivity.
Qed.

Lemma truediv_Raise (x y : Py.num) (e : exn) :
  Py.truediv x y = Raise e -> is_KeyError e = false.
Proof.
  unfold Py.truediv.
  destruct x as [a | a], y as [b | b]; cbn [Py.to_float bind].
  - destruct (Py.int_true_div a b) eqn:H; cbn [bind]; [discriminate |].
    intros H'; inversion H'; subst. eapply int_true_div_Raise; eauto.
  - destruct (Py.float_of_int a) eqn:H; cbn [bind].
    + destruct (b =? 0)%float; intros H'; inversion H'; reflexivity.
    + apply float_of_int_Raise in H. intros H'; inversion H'; now subst.
  - destruct (Py.float_of_int b) eqn:H; cbn [bind].
    + destruct (_ =? 0)%float; intros H'; inversion H'; reflexivity.
    + apply float_of_int_Raise in H. intros H'; inversion H'; now subst.
  - destruct (b =? 0)%float; intros H'; inversion H'; reflexivity.
Qed.

Lemma int_Raise (x : Py.num) (e : exn) :
  Py.int x = Raise e -> is_KeyError e = false.
Proof.
  destruct x as [z | f]; simpl; [discriminate |].
  destruct (Prim2SF f); intros H; inversion H; reflexivity.
Qed.

(** The step derivation never raises a key error. *)
Lemma derive_steps_Raise (n B : Z) (flag : bool) (e : exn) :
  derive_steps n B flag = Raise e -> is_KeyError e = false.
Proof.
  unfold derive_steps.
  destruct (if flag then _ else _) as [ebs |] eqn:Hebs; cbn [bind].
  - destruct (Py.truediv (Py.NInt n) ebs) as [q |] eqn:Hq; cbn [bind].
    + destruct (Py.truediv q (Py.NInt 8)) as [q' |] eqn:Hq'; cbn [bind].
      * apply int_Raise.
      * intros H; inversion H; subst. eapply truediv_Raise; eauto.
    + intros H; inversion H; subst. eapply truediv_Raise; eauto.
  - intros H; inversion H; subst.
    destruct flag; [eapply mul_Raise; eauto | discriminate].
Qed.

Lemma registry_samples (k : string) (d : Dataset) :
  dict_get datasets k = Some d ->
  num_train_samples d = 407976 \/ num_train_samples d = 800000.
Proof.
  intros H. apply dict_get_datasets in H.
  destruct H as [[_ ->] | [[_ ->] | [[_ ->] | [_ ->]]]]; simpl; auto.
Qed.

(** A zero batch size makes the division by the effective batch size raise. *)
Lemma derive_steps_zero (k : string) (d : Dataset) (flag : bool) :
  dict_get datasets k = Some d ->
  derive_steps (num_train_samples d) 0 flag = Raise ZeroDivisionError.
Proof.
  intros H. apply registry_samples in H as [-> | ->];
    destruct flag; vm_compute; reflexivity.
Qed.

(** The two runs of lines 94 to 116 that differ in the bucketing flag only:
    they raise the same error, or both return. *)
Lemma resolve_flag_cases (c : Config Base) :
  let name := Experiment.dataset_name (experiment c) in
  let B := batch_size_of (experiment c) in
  (exists e,
     resolve Base (with_bucketing false c) = Raise e /\
     resolve Base (with_bucketing true c) = Raise e) \/
  (exists d b,
     dict_get datasets name = Some d /\ B <> 0 /\
     Py.float_of_int B = Ok b /\
     let off := Z.sgn B * (num_train_samples d / (8 * Z.abs B)) in
     let on := Z.sgn B * (2 * num_train_samples d / (56 * Z.abs B)) in
     derive_steps (num_train_samples d) B false = Ok off /\
     derive_steps (num_train_samples d) B true = Ok on /\
     resolve Base (with_bucketing false c)
       = Ok (resolved (with_bucketing false c) d off b) /\
     resolve Base (with_bucketing true c)
       = Ok (resolved (with_bucketing true c) d on b)).
Proof.
  intros name B. rewrite !resolve_eq.
  change (Experiment.dataset_name (experiment (with_bucketing _ c)))
    with name.
  destruct (dict_get datasets name) as [d |] eqn:Hd; [| left; eauto].
  rewrite !steps_per_epoch_eq.
  change (batch_size_of (experiment (with_bucketing _ c))) with B.
  change (do_bucket_by_size_of (experiment (with_bucketing false c)))
    with false.
  change (do_bucket_by_size_of (experiment (with_bucketing true c)))
    with true.
  pose proof (registry_samples _ d Hd) as Hn.
  destruct (Z.eq_dec B 0) as [H0 | HB].
  { left. exists ZeroDivisionError. rewrite H0.
    now rewrite !(derive_steps_zero _ d _ Hd). }
  destruct (Py.float_of_int B) as [b | e] eqn:Hb.
  - right. exists d, b.
    assert (Hn' : 0 < num_train_samples d /\ Zdigits2 (num_train_samples d) <= 50).
    { destruct Hn as [-> | ->]; split; simpl; lia. }
    destruct Hn' as [Hpos Hdig].
    pose proof (derive_steps_signed _ B b false Hpos Hdig HB Hb) as Hoff.
    pose proof (derive_steps_signed _ B b true Hpos Hdig HB Hb) as Hon.
    cbv beta iota in Hoff, Hon.
    split; [reflexivity |]. split; [exact HB |]. split; [reflexivity |].
    cbv zeta. rewrite Hoff, Hon. cbn [bind].
    repeat split; reflexivity.
  - left. apply float_of_int_Raise in Hb as He. subst e.
    exists OverflowError.
    rewrite (derive_steps_bucketed_overflow _ _ Hb).
    destruct (derive_steps_unbucketed_total _ _ Hn HB) as [spe ->].
    split; reflexivity.
Qed.

(** C6 (amended): take any config after the presets and run lines 94 to 116
    on it with the bucketing flag unset and set. Unset, the effective batch
    size is the batch size [B]; set, it is the float [float(B) * 3.5],
    which is exactly [3.5 * B] for [|B| < 2^50]. The two runs raise the same
    error or both return. When they return, [steps_per_epoch] is
    [n / B / 8] truncated towards zero unset and [n / (3.5 * B) / 8]
    truncated towards zero set: the set count is the unset quotient divided
    by 3.5 before truncation, so the counts have the same sign and are
    proportional up to the truncation,
    [2 * |off| - 7 < 7 * |on| <= 2 * |off| + 1]. *)
Theorem bucketing_scales_batch_and_steps (c : Config Base) :
  let B := batch_size_of (experiment c) in
  let run_off := resolve Base (with_bucketing false c) in
  let run_on := resolve Base (with_bucketing true c) in
  effective_batch_size (experiment (with_bucketing false c))
    = Ok (Py.NInt B) /\
  effective_batch_size (experiment (with_bucketing true c))
    = (b <- Py.float_of_int B ;; Ok (Py.NFloat (b * 3.5)%float)) /\
  (Z.abs B < 2 ^ 50 ->
   exists b,
     Py.float_of_int B = Ok b /\
     finite_SF (Prim2SF (b * 3.5)%float) = true /\
     Qeq (Q_of_SF (Prim2SF (b * 3.5)%float)) ((7 # 2) * inject_Z B)) /\
  (forall e, run_off = Raise e <-> run_on = Raise e) /\
  (forall cfg_off,
     run_off = Ok cfg_off ->
     exists cfg_on d,
       run_on = Ok cfg_on /\
       dict_get datasets (Experiment.dataset_name (experiment c)) = Some d /\
       Experiment.dataset (experiment cfg_off) = Some d /\
       Experiment.dataset (experiment cfg_on) = Some d /\
       let n := num_train_samples d in
       let off := Qtrunc (inject_Z n / inject_Z B / inject_Z 8) in
       let on := Qtrunc (inject_Z n / ((7 # 2) * inject_Z B) / inject_Z 8) in
       steps_per_epoch (experiment cfg_off) d = Ok off /\
       steps_per_epoch (experiment cfg_on) d = Ok on /\
       training_steps cfg_off = epochs c * off /\
       training_steps cfg_on = epochs c * on /\
       on = Qtrunc ((inject_Z n / inject_Z B / inject_Z 8) / (7 # 2)) /\
       2 * Z.abs off - 7 < 7 * Z.abs on <= 2 * Z.abs off + 1 /\
       0 <= off * on).
Proof.
  intros B run_off run_on.
  split; [reflexivity |].
  split.
  { unfold effective_batch_size.
    change (do_bucket_by_size_of (experiment (with_bucketing true c)))
      with true.
    change (batch_size_of (experiment (with_bucketing true c))) with B.
    cbn [Py.mul Py.to_float bind].
    destruct (Py.float_of_int B); reflexivity. }
  split; [apply mul_35_value |].
  pose proof (resolve_flag_cases c) as Hcases. cbv zeta in Hcases.
  fold B run_off run_on in Hcases.
  destruct Hcases as [[e0 [Hoff Hon]] | [d [b [Hd [HB [Hb [Hsoff [Hson
                       [Hoff Hon]]]]]]]]].
  - split.
    + intros e. rewrite Hoff, Hon. reflexivity.
    + intros cfg_off H. rewrite Hoff in H. discriminate.
  - split.
    + intros e. rewrite Hoff, Hon. split; discriminate.
    + intros cfg_off H. rewrite Hoff in H.
      assert (Hcfg : cfg_off
                     = resolved (with_bucketing false c) d
                         (Z.sgn B * (num_train_samples d / (8 * Z.abs B))) b)
        by congruence.
      subst cfg_off. eexists. exists d.
      split; [exact Hon |]. split; [exact Hd |].
      split; [reflexivity |]. split; [reflexivity |].
      pose proof (registry_samples _ d Hd) as Hn.
      assert (Hpos : 0 <= num_train_samples d)
        by (destruct Hn as [-> | ->]; lia).
      cbv zeta.
      rewrite (Qtrunc_unbucketed _ B Hpos HB).
      rewrite (Qtrunc_bucketed _ B Hpos HB).
      split; [exact Hsoff |]. split; [exact Hson |].
      split; [reflexivity |]. split; [reflexivity |].
      split.
      * rewrite <- (Qtrunc_bucketed _ B Hpos HB). apply Qtrunc_comp.
        assert (HBq : ~ Qeq (inject_Z B) (inject_Z 0)).
        { unfold Qeq. simpl. fold B. lia. }
        field. exact HBq.
      * apply steps_proportional_signed; assumption.
Qed.

(** C2 (amended): the builder raises a key error exactly when the dataset
    name after the presets is not a key of the registry. When it is a key,
    the other errors are those of the batch-size arithmetic: a batch size of
    zero raises a division-by-zero error and a non-zero batch size too large
    for a float raises an overflow error; every run with a non-zero batch
    size that converts to a float, as every one of magnitude below [2^1023]
    does, returns a config. *)
Theorem build_errors (preset : string) :
  exists c,
    after_presets preset = Ok c /\
    (dict_get datasets (Experiment.dataset_name (experiment c)) = None ->
     build preset = Raise (KeyError (Experiment.dataset_name (experiment c))))
    /\
    (forall e, build preset = Raise e -> is_KeyError e = true ->
       dict_get datasets (Experiment.dataset_name (experiment c)) = None) /\
    (In (Experiment.dataset_name (experiment c)) (keys datasets) ->
     batch_size_of (experiment c) = 0 ->
     build preset = Raise ZeroDivisionError) /\
    (In (Experiment.dataset_name (experiment c)) (keys datasets) ->
     batch_size_of (experiment c) <> 0 ->
     Py.float_of_int (batch_size_of (experiment c)) = Raise OverflowError ->
     build preset = Raise OverflowError) /\
    (In (Experiment.dataset_name (experiment c)) (keys datasets) ->
     batch_size_of (experiment c) <> 0 ->
     (exists b, Py.float_of_int (batch_size_of (experiment c)) = Ok b) ->
     exists cfg, build preset = Ok cfg) /\
    (In (Experiment.dataset_name (experiment c)) (keys datasets) ->
     batch_size_of (experiment c) <> 0 ->
     Z.abs (batch_size_of (experiment c)) < 2 ^ 1023 ->
     exists cfg, build preset = Ok cfg).
Proof.
  assert (Hc : exists c, after_presets preset = Ok c).
  { unfold preset_config.
    assert (Hd : exists d, default_config = Ok d)
      by (eexists; vm_compute; reflexivity).
    destruct Hd as [d ->]. cbn [bind]. eauto. }
  destruct Hc as [c Hc]. exists c. split; [exact Hc |].
  unfold get_config. rewrite Hc. cbn [bind]. rewrite resolve_eq.
  assert (Hok : In (Experiment.dataset_name (experiment c)) (keys datasets) ->
                batch_size_of (experiment c) <> 0 ->
                (exists b,
                   Py.float_of_int (batch_size_of (experiment c)) = Ok b) ->
                exists cfg,
                  match
                    dict_get datasets
                      (Experiment.dataset_name (experiment c))
                  with
                  | Some d =>
                      spe <- steps_per_epoch (experiment c) d ;;
                      b <- Py.float_of_int (batch_size_of (experiment c)) ;;
                      Ok (resolved c d spe b)
                  | None =>
                      Raise (KeyError
                               (Experiment.dataset_name (experiment c)))
                  end = Ok cfg).
  { intros Hk HB [b Hb]. apply dict_get_In in Hk as [d Hd]. rewrite Hd.
    rewrite steps_per_epoch_eq, Hb.
    pose proof (registry_samples _ d Hd) as Hn.
    destruct (do_bucket_by_size_of (experiment c)).
    - destruct (derive_steps_bucketed_total _ _ b Hn HB Hb) as [spe ->].
      cbn [bind]. eauto.
    - destruct (derive_steps_unbucketed_total _ _ Hn HB) as [spe ->].
      cbn [bind]. eauto. }
  split; [| split; [| split; [| split; [| split]]]].
  - intros ->. reflexivity.
  - intros e.
    destruct (dict_get datasets _) as [d |]; [| reflexivity].
    destruct (steps_per_epoch (experiment c) d) as [spe |] eqn:Hs;
      cbn [bind].
    + destruct (Py.float_of_int _) as [b |] eqn:Hb; cbn [bind];
        [discriminate |].
      apply float_of_int_Raise in Hb. subst.
      intros H; inversion H; subst. discriminate.
    + rewrite steps_per_epoch_eq in Hs. apply derive_steps_Raise in Hs.
      intros H; inversion H; subst. congruence.
  - intros Hk H0. apply dict_get_In in Hk as [d Hd]. rewrite Hd.
    rewrite steps_per_epoch_eq, H0.
    now rewrite (derive_steps_zero _ d _ Hd).
  - intros Hk HB Hb. apply dict_get_In in Hk as [d Hd]. rewrite Hd.
    rewrite steps_per_epoch_eq, Hb.
    pose proof (registry_samples _ d Hd) as Hn.
    destruct (do_bucket_by_size_of (experiment c)).
    + now rewrite (derive_steps_bucketed_overflow _ _ Hb).
    + destruct (derive_steps_unbucketed_total _ _ Hn HB) as [spe ->].
      reflexivity.
  - exact Hok.
  - intros Hk HB Hsmall. apply (Hok Hk HB).
    apply float_of_int_small. exact Hsmall.
Qed.

End BuilderFacts.

(** ** The theorems at concrete presets *)

(** C2, as stated, fails: the preset [batch0] leaves the registered dataset
    name ['ogbg-code2'] and sets the batch size to 0, and the build raises a
    division-by-zero error, which is not a key error. *)
Lemma zero_batch_size_raises :
  exists c,
    preset_config unit tt None (apply_overrides example_presets) "batch0"
      = Ok c /\
    In (Experiment.dataset_name (experiment c)) (keys datasets) /\
    batch_size_of (experiment c) = 0 /\
    get_config unit tt None (apply_overrides example_presets) "batch0"
      = Raise ZeroDivisionError /\
    is_KeyError ZeroDivisionError = false.
Proof.
  eexists. split; [vm_compute; reflexivity |].
  split; [simpl; auto |].
  repeat split; vm_compute; reflexivity.
Qed.

Lemma build_errors_witness :
  exists c,
    preset_config unit tt None (apply_overrides example_presets) "sn,batch64"
      = Ok c /\
    In (Experiment.dataset_name (experiment c)) (keys datasets) /\
    batch_size_of (experiment c) <> 0 /\
    Z.abs (batch_size_of (experiment c)) < 2 ^ 1023 /\
    exists cfg,
      get_config unit tt None (apply_overrides example_presets) "sn,batch64"
        = Ok cfg.
Proof.
  destruct (build_errors tt None (apply_overrides example_presets)
              "sn,batch64") as [c [Hc [_ [_ [_ [_ [_ H]]]]]]].
  exists c. split; [exact Hc |].
  assert (Hk : In (Experiment.dataset_name (experiment c)) (keys datasets)).
  { vm_compute in Hc. injection Hc as <-. simpl. auto. }
  assert (HB : batch_size_of (experiment c) = 64).
  { vm_compute in Hc. injection Hc as <-. reflexivity. }
  assert (H0 : batch_size_of (experiment c) <> 0)
    by (rewrite HB; discriminate).
  assert (Hs : Z.abs (batch_size_of (experiment c)) < 2 ^ 1023)
    by (rewrite HB; reflexivity).
  split; [exact Hk |]. split; [exact H0 |]. split; [exact Hs |].
  exact (H Hk H0 Hs).
Defined.

Lemma lr_scaled_by_batch_size_witness :
  exists cfg,
    get_config unit tt None (apply_overrides example_presets) "bucket,batch64"
      = Ok cfg /\
    do_bucket_by_size_of (experiment cfg) = true /\
    batch_size_of (experiment cfg) = 64 /\
    LrSchedule.peak_value (lr_schedule_of (experiment cfg))
      = ((1e-4 / 32) * 64)%float.
Proof.
  assert (H : exists cfg,
             get_config unit tt None (apply_overrides example_presets)
               "bucket,batch64" = Ok cfg)
    by (eexists; vm_compute; reflexivity).
  destruct H as [cfg H]. exists cfg. split; [exact H |].
  destruct (lr_scaled_by_batch_size tt None _ _ cfg H)
    as [c [b [Hc [HB [Hflag [Hb [_ [_ [_ Hpeak]]]]]]]]].
  vm_compute in Hc. injection Hc as <-.
  vm_compute in Hb. injection Hb as <-.
  split; [exact Hflag |]. split; [exact HB |].
  apply Hpeak. reflexivity.
Defined.

Lemma derived_step_counts_witness :
  exists cfg,
    get_config unit tt None (apply_overrides example_presets) "sn,bucket"
      = Ok cfg /\
    training_steps cfg = epochs cfg * 595 /\
    LrSchedule.warmup_steps (lr_schedule_of (experiment cfg))
      = warmup_epochs cfg * 595 /\
    LrSchedule.decay_steps (lr_schedule_of (experiment cfg))
      = training_steps cfg.
Proof.
  assert (H : exists cfg,
             get_config unit tt None (apply_overrides example_presets)
               "sn,bucket" = Ok cfg)
    by (eexists; vm_compute; reflexivity).
  destruct H as [cfg H]. exists cfg. split; [exact H |].
  destruct (derived_step_counts tt None _ _ cfg H)
    as [c [d [spe [Hc [Hd [_ [_ [Hs [_ [_ [Ht [Hw Hdec]]]]]]]]]]]].
  vm_compute in Hc. injection Hc as <-.
  vm_compute in Hd. injection Hd as <-.
  vm_compute in Hs. injection Hs as <-.
  repeat split; assumption.
Defined.

Lemma presets_deduplicated_witness :
  "a,a,b" <> "" /\
  unique_presets "a,a,b" = dedup_first (split "," "a,a,b") /\
  NoDup (unique_presets "a,a,b") /\
  unique_presets "a,a,b" = ["a"; "b"].
Proof.
  assert (Hne : "a,a,b" <> "") by discriminate.
  destruct (presets_deduplicated tt None (apply_overrides example_presets)
              "a,a,b" Hne) as [H1 [H2 [_ [_ H3]]]].
  repeat split; assumption.
Defined.

(** C6, as stated, fails: with no presets the run with the bucketing flag
    unset derives 1062 steps per epoch and the run with the flag set derives
    303, which is not 1062 divided by 3.5 (that is 303.43): the count is
    truncated to an integer. *)
Lemma bucketing_steps_not_proportional :
  ~ (forall (c cfg_off cfg_on : Config unit) (d : Dataset) (off on : Z),
       resolve unit (with_bucketing false c) = Ok cfg_off ->
       resolve unit (with_bucketing true c) = Ok cfg_on ->
       Experiment.dataset (experiment cfg_off) = Some d ->
       steps_per_epoch (experiment cfg_off) d = Ok off ->
       steps_per_epoch (experiment cfg_on) d = Ok on ->
       Qeq (inject_Z on) (inject_Z off / (7 # 2))).
Proof.
  intros H.
  assert (Hc : exists c cfg_off cfg_on,
             preset_config unit tt None (apply_overrides example_presets) ""
               = Ok c /\
             resolve unit (with_bucketing false c) = Ok cfg_off /\
             resolve unit (with_bucketing true c) = Ok cfg_on /\
             Experiment.dataset (experiment cfg_off) = Some OGBG_CODE2 /\
             steps_per_epoch (experiment cfg_off) OGBG_CODE2 = Ok 1062 /\
             steps_per_epoch (experiment cfg_on) OGBG_CODE2 = Ok 303).
  { do 3 eexists. split; [vm_compute; reflexivity |].
    split; [vm_compute; reflexivity |].
    split; [vm_compute; reflexivity |].
    split; [reflexivity |].
    split; vm_compute; reflexivity. }
  destruct Hc as [c [cfg_off [cfg_on [_ [Hoff [Hon [Hd [Hsoff Hson]]]]]]]].
  specialize (H c cfg_off cfg_on OGBG_CODE2 1062 303 Hoff Hon Hd Hsoff Hson).
  discriminate H.
Qed.

Lemma bucketing_scales_batch_and_steps_witness :
  (exists c cfg_off cfg_on,
     preset_config unit tt None (apply_overrides example_presets) "sn,batch64"
       = Ok c /\
     resolve unit (with_bucketing false c) = Ok cfg_off /\
     resolve unit (with_bucketing true c) = Ok cfg_on /\
     steps_per_epoch (experiment cfg_off) SORTING_NETWORKS = Ok 1562 /\
     steps_per_epoch (experiment cfg_on) SORTING_NETWORKS = Ok 446 /\
     Qtrunc (inject_Z 1562 / (7 # 2)) = 446) /\
  (exists c cfg_off cfg_on,
     preset_config unit tt None
       (apply_overrides [("negative", set_batch_size (- 48))]) "negative"
       = Ok c /\
     resolve unit (with_bucketing false c) = Ok cfg_off /\
     resolve unit (with_bucketing true c) = Ok cfg_on /\
     steps_per_epoch (experiment cfg_off) OGBG_CODE2 = Ok (- 1062) /\
     steps_per_epoch (experiment cfg_on) OGBG_CODE2 = Ok (- 303)).
Proof.
  split.
  - assert (H : exists c cfg_off,
               preset_config unit tt None (apply_overrides example_presets)
                 "sn,batch64" = Ok c /\
               resolve unit (with_bucketing false c) = Ok cfg_off /\
               dict_get datasets (Experiment.dataset_name (experiment c))
                 = Some SORTING_NETWORKS /\
               batch_size_of (experiment c) = 64).
    { do 2 eexists. split; [vm_compute; reflexivity |].
      split; [vm_compute; reflexivity |]. split; reflexivity. }
    destruct H as [c [cfg_off [Hc [Hoff [Hd H64]]]]].
    destruct (bucketing_scales_batch_and_steps c) as [_ [_ [_ [_ H]]]].
    destruct (H cfg_off Hoff)
      as [cfg_on [d [Hon [Hd' [_ [_ [Hsoff [Hson _]]]]]]]].
    rewrite Hd in Hd'. injection Hd' as <-.
    rewrite H64 in Hsoff, Hson.
    exists c, cfg_off, cfg_on.
    split; [exact Hc |]. split; [exact Hoff |]. split; [exact Hon |].
    split; [exact Hsoff |]. split; [exact Hson |]. reflexivity.
  - assert (H : exists c cfg_off,
               preset_config unit tt None
                 (apply_overrides [("negative", set_batch_size (- 48))])
                 "negative" = Ok c /\
               resolve unit (with_bucketing false c) = Ok cfg_off /\
               dict_get datasets (Experiment.dataset_name (experiment c))
                 = Some OGBG_CODE2 /\
               batch_size_of (experiment c) = - 48).
    { do 2 eexists. split; [vm_compute; reflexivity |].
      split; [vm_compute; reflexivity |]. split; reflexivity. }
    destruct H as [c [cfg_off [Hc [Hoff [Hd HB]]]]].
    destruct (bucketing_scales_batch_and_steps c) as [_ [_ [_ [_ H]]]].
    destruct (H cfg_off Hoff)
      as [cfg_on [d [Hon [Hd' [_ [_ [Hsoff [Hson _]]]]]]]].
    rewrite Hd in Hd'. injection Hd' as <-.
    rewrite HB in Hsoff, Hson.
    exists c, cfg_off, cfg_on.
    split; [exact Hc |]. split; [exact Hoff |]. split; [exact Hon |].
    split; [exact Hsoff | exact Hson].
Defined.

(** ** Facts used by several properties *)

Lemma existsb_dedup_first (y : string) (l : list string) :
  existsb (String.eqb y) (dedup_first l) = existsb (String.eqb y) l.
Proof.
  apply eq_true_iff_eq. rewrite !existsb_eqb_In. apply dedup_first_In.
Qed.

Lemma join_commas_empty (l : list string) :
  join_commas l = "" -> l = [] \/ l = [""].
Proof.
  unfold join_commas. destruct l as [| x [| y l]]; simpl; auto.
  - intros ->. auto.
  - destruct x; discriminate.
Qed.

Lemma derive_steps_bucketed_inv (n B s : Z) :
  derive_steps n B true = Ok s -> exists b, Py.float_of_int B = Ok b.
Proof.
  unfold derive_steps, Py.mul. cbn [Py.to_float bind].
  destruct (Py.float_of_int B) as [b |]; [eauto | discriminate].
Qed.

(** The step count of a positive batch size, for both settings of the
    bucketing flag. *)
Lemma derive_steps_value (n B s : Z) (flag : bool) :
  0 < n < 2 ^ 50 -> 0 < B ->
  derive_steps n B flag = Ok s ->
  s = n / ((if flag then 28 else 8) * B).
Proof.
  intros Hn HB H.
  assert (Hd : Zdigits2 n <= 50) by (apply Zdigits2_le; lia).
  destruct flag.
  - destruct (derive_steps_bucketed_inv _ _ _ H) as [b Hb].
    rewrite (derive_steps_bucketed_value n B b) in H by (assumption || lia).
    assert (Hs : s = 2 * n / (56 * B)) by congruence.
    rewrite Hs. replace (56 * B) with (2 * (28 * B)) by ring.
    apply Z.div_mul_cancel_l; lia.
  - rewrite derive_steps_unbucketed_value in H by (assumption || lia).
    congruence.
Qed.

(** The derivation returns for a positive batch size that converts. *)
Lemma derive_steps_positive (n B : Z) (flag : bool) :
  0 < n < 2 ^ 50 -> 0 < B -> B < 2 ^ 1023 ->
  derive_steps n B flag = Ok (n / ((if flag then 28 else 8) * B)).
Proof.
  intros Hn HB Hsmall.
  assert (Hd : Zdigits2 n <= 50) by (apply Zdigits2_le; lia).
  destruct flag.
  - destruct (float_of_int_small B ltac:(lia)) as [b Hb].
    rewrite (derive_steps_bucketed_value n B b) by (assumption || lia).
    f_equal. replace (56 * B) with (2 * (28 * B)) by ring.
    apply Z.div_mul_cancel_l; lia.
  - apply derive_steps_unbucketed_value; assumption || lia.
Qed.

Lemma registry_samples_range (k : string) (d : Dataset) :
  dict_get datasets k = Some d -> 0 < num_train_samples d < 2 ^ 50.
Proof.
  intros H. apply dict_get_datasets in H.
  destruct H as [[_ ->] | [[_ ->] | [[_ ->] | [_ ->]]]]; simpl; lia.
Qed.

Lemma float_of_int_finite (B : Z) (b : float) :
  Py.float_of_int B = Ok b -> finite_SF (Prim2SF b) = true.
Proof.
  destruct (Z.eq_dec B 0) as [-> | HB].
  - intros H. vm_compute in H. injection H as <-. reflexivity.
  - intros H. destruct (float_of_int_Ok B b HB H) as [s [m [e [-> _]]]].
    reflexivity.
Qed.

Lemma eqb_zero_SF (v : float) :
  (v =? 0)%float = true <-> exists s, Prim2SF v = S754_zero s.
Proof.
  rewrite FloatAxioms.eqb_spec.
  change (Prim2SF 0%float) with (S754_zero false).
  destruct (Prim2SF v) as [s | [|] | | [|] m e]; simpl; split;
    try discriminate; try (intros [s' H]; discriminate); eauto.
Qed.

(** A zero times a finite number is a zero. *)
Lemma mul_zero_finite (v b : float) :
  (v =? 0)%float = true -> finite_SF (Prim2SF b) = true ->
  (v * b =? 0)%float = true.
Proof.
  intros Hv Hb. apply eqb_zero_SF in Hv as [s Hv]. apply eqb_zero_SF.
  rewrite mul_spec, Hv. unfold SF64mul.
  destruct (Prim2SF b) as [sb | sb | | sb mb eb]; try discriminate;
    simpl; eauto.
Qed.

Lemma Q_of_SF_exact (B : Z) (m : positive) :
  0 < B -> Zdigits2 B <= 53 -> Zpos m = B * 2 ^ (53 - Zdigits2 B) ->
  Qeq (Q_of_SF (S754_finite false m (Zdigits2 B - 53))) (inject_Z B).
Proof.
  intros HB Hd Hm. unfold Q_of_SF.
  destruct (Zdigits2 B - 53) as [| p | p] eqn:He; try lia.
  - replace (53 - Zdigits2 B) with 0 in Hm by lia.
    rewrite Hm. unfold Qeq, inject_Z. cbn [Qnum Qden]. ring.
  - unfold Qeq, inject_Z. cbn [Qnum Qden].
    rewrite Pos2Z.inj_pow, Hm.
    replace (53 - Zdigits2 B) with (Z.pos p) by lia. ring.
Qed.

(** An integer of magnitude [2^1024] or more does not convert. *)
Lemma float_of_int_huge (B : Z) :
  2 ^ 1024 <= Z.abs B -> Py.float_of_int B = Raise OverflowError.
Proof.
  assert (Hpos : forall P, 2 ^ 1024 <= P ->
                   Py.float_of_int P = Raise OverflowError).
  { intros P HP.
    assert (0 < P) by (pose proof (Z.pow_pos_nonneg 2 1024); lia).
    destruct (Py.float_of_int P) as [b | e] eqn:Hb.
    - destruct (float_of_int_pos P b ltac:(lia) Hb) as [m [e [Hsb Hmag]]].
      pose proof (Prim2SF_valid b) as Hv. rewrite Hsb in Hv.
      apply valid_magnitude in Hv.
      pose proof (Zdigits2_ge P 1024 ltac:(lia) HP). lia.
    - now apply float_of_int_Raise in Hb as ->. }
  intros HB. destruct (Z.le_gt_cases 0 B) as [H0 | H0].
  - apply Hpos. lia.
  - rewrite <- (Z.opp_involutive B), float_of_int_opp by lia.
    rewrite Hpos by lia. reflexivity.
Qed.

(** ** Further properties of the builder *)

Section BuilderProperties.

Context {Base : Type}.
Variable get_base_config : Base.
Variable base_restore_path : option string.
Variable apply_presets : Config Base -> list string -> Config Base.

Local Abbreviation default_config :=
  (get_default_config Base get_base_config base_restore_path).
Local Abbreviation after_presets :=
  (preset_config Base get_base_config base_restore_path apply_presets).
Local Abbreviation build :=
  (get_config Base get_base_config base_restore_path apply_presets).

Lemma default_config_Ok : exists d, default_config = Ok d.
Proof. eexists. vm_compute. reflexivity. Qed.

(** The builder depends on a non-empty preset string only through the list of
    unique names. *)
Lemma build_unique_presets (p q : string) :
  p <> "" -> q <> "" -> unique_presets p = unique_presets q ->
  build p = build q.
Proof.
  intros Hp Hq H. apply truthy_nonempty in Hp, Hq.
  unfold get_config, preset_config. now rewrite Hp, Hq, H.
Qed.

(** X1: the names handed to the overlay are the comma-free segments of the
    preset string: joining the pieces of [preset.split(',')] with commas gives
    back the preset string, no name contains a comma, there is one piece more
    than there are commas, and when no piece repeats the unique names joined
    with commas are the preset string itself. *)
Theorem preset_pieces_round_trip (preset : string) :
  join_commas (split "," preset) = preset /\
  Forall (fun name => mem_char "," name = false) (unique_presets preset) /\
  List.length (split "," preset) = S (count_char "," preset) /\
  (List.length (unique_presets preset) <= S (count_char "," preset))%nat /\
  (NoDup (split "," preset) -> join_commas (unique_presets preset) = preset).
Proof.
  split; [apply (concat_split ",") |].
  split; [apply unique_presets_no_comma |].
  split; [apply split_length |].
  split.
  - rewrite <- (split_length "," preset), unique_presets_eq.
    induction (split "," preset) as [| x l IH]; simpl; [lia |].
    apply le_n_S. etransitivity; [apply filter_length_le | exact IH].
  - intros H. rewrite unique_presets_eq, dedup_first_NoDup_id by exact H.
    apply (concat_split ",").
Qed.

(** X2: the unique names of two preset strings joined by a comma are the
    unique names of the first followed by those of the second that the first
    does not have. *)
Theorem unique_presets_of_joined (p q : string) :
  unique_presets (p ++ "," ++ q)%string =
  unique_presets p
    ++ filter (fun name => negb (existsb (String.eqb name) (unique_presets p)))
         (unique_presets q).
Proof.
  rewrite unique_presets_app. f_equal. apply filter_ext. intros y.
  now rewrite unique_presets_eq, existsb_dedup_first.
Qed.

(** X3: appending to a non-empty preset string names it already lists does
    not change what the builder returns. *)
Theorem repeated_presets_ignored (p q : string) :
  p <> "" ->
  (forall name, In name (split "," q) -> In name (split "," p)) ->
  build (p ++ "," ++ q)%string = build p.
Proof.
  intros Hp Hq. apply build_unique_presets; [| exact Hp |].
  - destruct p; [congruence | discriminate].
  - rewrite unique_presets_app, filter_none; [apply app_nil_r |].
    intros y Hy. rewrite unique_presets_eq in Hy.
    apply (proj1 (dedup_first_In _ _)) in Hy. apply Hq in Hy.
    apply existsb_eqb_In in Hy. now rewrite Hy.
Qed.

(** X4: the unique names joined with commas are a normal form of the preset
    string: they split and deduplicate to themselves, and unless that string
    is empty the builder returns for it what it returns for the preset
    string. *)
Theorem unique_presets_normal_form (preset : string) :
  unique_presets preset <> [""] ->
  unique_presets (join_commas (unique_presets preset))
    = unique_presets preset /\
  join_commas (unique_presets preset) <> "" /\
  build (join_commas (unique_presets preset)) = build preset.
Proof.
  intros Hne.
  assert (Hu : unique_presets (join_commas (unique_presets preset))
               = unique_presets preset).
  { rewrite (unique_presets_eq (join_commas _)). unfold join_commas.
    rewrite (split_concat ",")
      by (apply unique_presets_nonempty || apply unique_presets_no_comma).
    apply dedup_first_NoDup_id. rewrite unique_presets_eq.
    apply dedup_first_NoDup. }
  assert (Hj : join_commas (unique_presets preset) <> "").
  { intros H. apply join_commas_empty in H as [H | H];
      [now apply unique_presets_nonempty in H | contradiction]. }
  split; [exact Hu |]. split; [exact Hj |].
  apply build_unique_presets; [exact Hj | | exact Hu].
  intros ->. apply Hne. reflexivity.
Qed.

(** X5: the overlay is never handed an empty list, and empty names are not
    dropped: a comma at the start or the end of the preset string, or two
    commas in a row, hand it the empty name; the preset string [","] hands
    it the empty name alone. *)
Theorem stray_commas_pass_empty_name (p q : string) :
  unique_presets p <> [] /\
  In "" (unique_presets (p ++ ",")%string) /\
  In "" (unique_presets ("," ++ p)%string) /\
  In "" (unique_presets (p ++ ",," ++ q)%string) /\
  exists d,
    default_config = Ok d /\
    build "," = resolve Base (apply_presets (set_restore_path None d) [""]).
Proof.
  split; [apply unique_presets_nonempty |].
  split.
  { rewrite unique_presets_eq. apply dedup_first_In.
    change (p ++ ",")%string with (p ++ String "," "")%string.
    rewrite split_app. apply in_or_app. right. now left. }
  split.
  { rewrite unique_presets_eq. apply dedup_first_In. now left. }
  split.
  { rewrite unique_presets_eq. apply dedup_first_In.
    change (p ++ ",," ++ q)%string
      with (p ++ String "," ("" ++ String "," q))%string.
    rewrite !split_app. apply in_or_app. right. apply in_or_app. left.
    now left. }
  destruct default_config_Ok as [d Hd]. exists d. split; [exact Hd |].
  unfold get_config, preset_config. now rewrite Hd.
Qed.

(** X6: for every preset string, the config the builder returns is the
    config after the presets with [dataset], [training_steps] and the
    schedule assigned and nothing else: [restore_path] and every other field,
    at the top level, in the experiment record and in the optimizer, is as
    the presets left it. *)
Theorem build_frame (preset : string) (cfg : Config Base) :
  build preset = Ok cfg ->
  exists c d,
    after_presets preset = Ok c /\
    dict_get datasets (Experiment.dataset_name (experiment c)) = Some d /\
    cfg =
      set_experiment
        (set_lr_schedule (lr_schedule_of (experiment cfg))
           (set_dataset d (experiment c)))
        (set_training_steps (training_steps cfg) c) /\
    (base cfg = base c /\
     restore_path cfg = restore_path c /\
     warmup_epochs cfg = warmup_epochs c /\
     epochs cfg = epochs c /\
     log_train_data_interval cfg = log_train_data_interval c /\
     log_tensors_interval cfg = log_tensors_interval c /\
     save_checkpoint_interval cfg = save_checkpoint_interval c /\
     save_initial_train_checkpoint cfg = save_initial_train_checkpoint c /\
     checkpoint_dir cfg = checkpoint_dir c /\
     eval_specific_checkpoint_dir cfg = eval_specific_checkpoint_dir c /\
     best_model_eval_metric cfg = best_model_eval_metric c /\
     best_model_eval_metric_higher_is_better cfg
       = best_model_eval_metric_higher_is_better c) /\
    (Experiment.data_root (experiment cfg)
       = Experiment.data_root (experiment c) /\
     Experiment.debug (experiment cfg) = Experiment.debug (experiment c) /\
     Experiment.dataset_name (experiment cfg)
       = Experiment.dataset_name (experiment c) /\
     Experiment.pmap_axis (experiment cfg)
       = Experiment.pmap_axis (experiment c) /\
     Experiment.model (experiment cfg) = Experiment.model (experiment c) /\
     Experiment.dataset_config (experiment cfg)
       = Experiment.dataset_config (experiment c) /\
     Experiment.training (experiment cfg)
       = Experiment.training (experiment c) /\
     Experiment.evaluation (experiment cfg)
       = Experiment.evaluation (experiment c)) /\
    (Optimizer.name (Experiment.optimizer (experiment cfg))
       = Optimizer.name (Experiment.optimizer (experiment c)) /\
     Optimizer.optimizer_kwargs (Experiment.optimizer (experiment cfg))
       = Optimizer.optimizer_kwargs (Experiment.optimizer (experiment c)) /\
     Optimizer.use_agc (Experiment.optimizer (experiment cfg))
       = Optimizer.use_agc (Experiment.optimizer (experiment c)) /\
     Optimizer.agc_kwargs (Experiment.optimizer (experiment cfg))
       = Optimizer.agc_kwargs (Experiment.optimizer (experiment c))).
Proof.
  intros H. apply build_Ok in H as [c [Hc H]].
  apply resolve_Ok in H as [d [spe [b [Hd [_ [_ ->]]]]]].
  exists c, d. repeat split; try assumption; reflexivity.
Qed.

(** X7: lines 94 to 116 read neither [training_steps], nor the schedule's
    [warmup_steps] and [decay_steps], nor [dataset]: whatever a preset
    assigned to them is overwritten, and the run returns or raises the same
    as without the assignment. *)
Theorem derived_fields_overwritten (c : Config Base) (t w k : Z)
  (d : Dataset) :
  resolve Base (set_training_steps t c) = resolve Base c /\
  resolve Base (set_experiment (set_step_counts w k (experiment c)) c)
    = resolve Base c /\
  resolve Base (set_experiment (set_dataset d (experiment c)) c)
    = resolve Base c.
Proof.
  rewrite !resolve_eq. repeat split; reflexivity.
Qed.

(** X8: in every config the builder returns for a positive batch size [B],
    an epoch of [steps_per_epoch] steps on eight replicas never consumes
    more samples than the dataset has and falls short of it by less than one
    step: with [s = 8 * B] samples per step ([28 * B] under bucketing),
    [s * steps_per_epoch <= num_train_samples < s * (steps_per_epoch + 1)].
    So [steps_per_epoch], and with it [training_steps], is zero exactly when
    one step needs more samples than the dataset has. *)
Theorem steps_cover_dataset (preset : string) (cfg : Config Base) :
  build preset = Ok cfg ->
  0 < batch_size_of (experiment cfg) ->
  exists d spe,
    Experiment.dataset (experiment cfg) = Some d /\
    steps_per_epoch (experiment cfg) d = Ok spe /\
    training_steps cfg = epochs cfg * spe /\
    samples_per_step (experiment cfg) * spe <= num_train_samples d /\
    num_train_samples d < samples_per_step (experiment cfg) * (spe + 1) /\
    (spe = 0 <-> num_train_samples d < samples_per_step (experiment cfg)).
Proof.
  intros H HB. apply build_Ok in H as [c [Hc H]].
  apply resolve_Ok in H as [d [spe [b [Hd [Hs [_ ->]]]]]].
  exists d, spe.
  split; [reflexivity |]. split; [exact Hs |]. split; [reflexivity |].
  change (batch_size_of (experiment (resolved c d spe b)))
    with (batch_size_of (experiment c)) in HB.
  change (samples_per_step (experiment (resolved c d spe b)))
    with (samples_per_step (experiment c)).
  pose proof (registry_samples_range _ d Hd) as Hn.
  rewrite steps_per_epoch_eq in Hs.
  apply (derive_steps_value _ _ _ _ Hn HB) in Hs.
  fold (samples_per_step (experiment c)) in Hs.
  assert (Hp : 0 < samples_per_step (experiment c)).
  { unfold samples_per_step. destruct (do_bucket_by_size_of _); lia. }
  remember (samples_per_step (experiment c)) as D.
  remember (num_train_samples d) as n.
  subst spe.
  split; [apply Z.mul_div_le; lia |].
  split; [rewrite Z.add_1_r; apply Z.mul_succ_div_gt; lia |].
  rewrite Z.div_small_iff by lia. lia.
Qed.

(** X9: for a dataset of fewer than [2^50] samples, a larger positive batch
    size never gives more steps per epoch, and neither does switching
    bucketing on; the step count is never negative. *)
Theorem steps_antitone_in_batch_size (e1 e2 : Experiment.t) (d : Dataset)
  (s1 s2 : Z) :
  0 < num_train_samples d < 2 ^ 50 ->
  0 < batch_size_of e1 <= batch_size_of e2 ->
  (do_bucket_by_size_of e1 = true -> do_bucket_by_size_of e2 = true) ->
  steps_per_epoch e1 d = Ok s1 ->
  steps_per_epoch e2 d = Ok s2 ->
  0 <= s2 <= s1.
Proof.
  intros Hn HB Hflag H1 H2.
  rewrite steps_per_epoch_eq in H1, H2.
  apply (derive_steps_value _ _ _ _ Hn) in H1; [| lia].
  apply (derive_steps_value _ _ _ _ Hn) in H2; [| lia].
  subst s1 s2. split.
  - apply Z.div_pos; [lia |]. destruct (do_bucket_by_size_of e2); lia.
  - apply Z.div_le_compat_l; [lia |].
    destruct (do_bucket_by_size_of e1), (do_bucket_by_size_of e2);
      try lia.
Qed.

(** X10: the batch size is not checked for its sign: negating a non-zero
    batch size negates [steps_per_epoch] (or raises the same error) and
    negates every scaled learning rate. *)
Theorem negated_batch_size_negates_steps (e : Experiment.t) (d : Dataset)
  (v : float) :
  batch_size_of e <> 0 ->
  steps_per_epoch (set_batch_size (- batch_size_of e) e) d
    = (spe <- steps_per_epoch e d ;; Ok (- spe)) /\
  imul_batch_size v (- batch_size_of e)
    = (r <- imul_batch_size v (batch_size_of e) ;; Ok (- r)%float).
Proof.
  intros HB. split.
  - rewrite !steps_per_epoch_eq. apply derive_steps_opp.
  - rewrite !imul_batch_size_eq, (float_of_int_opp _ HB).
    destruct (Py.float_of_int (batch_size_of e)) as [b |]; cbn [bind];
      [| reflexivity].
    now rewrite mul_opp_r.
Qed.

(** X11: in every config the builder returns for a negative batch size [B],
    [steps_per_epoch] is minus the step count of [-B], so it is never
    positive: [training_steps] is [-(epochs * floor(n / (s * -B)))] with
    [s = 8], or [28] under bucketing. *)
Theorem negative_batch_size_steps (preset : string) (cfg : Config Base) :
  build preset = Ok cfg ->
  batch_size_of (experiment cfg) < 0 ->
  exists d spe,
    Experiment.dataset (experiment cfg) = Some d /\
    steps_per_epoch (experiment cfg) d = Ok spe /\
    training_steps cfg = epochs cfg * spe /\
    spe = - (num_train_samples d / - samples_per_step (experiment cfg)) /\
    spe <= 0.
Proof.
  intros H HB. apply build_Ok in H as [c [Hc H]].
  apply resolve_Ok in H as [d [spe [b [Hd [Hs [_ ->]]]]]].
  exists d, spe.
  split; [reflexivity |]. split; [exact Hs |]. split; [reflexivity |].
  change (batch_size_of (experiment (resolved c d spe b)))
    with (batch_size_of (experiment c)) in HB.
  change (samples_per_step (experiment (resolved c d spe b)))
    with (samples_per_step (experiment c)).
  pose proof (registry_samples_range _ d Hd) as Hn.
  rewrite steps_per_epoch_eq in Hs.
  rewrite <- (Z.opp_involutive (batch_size_of (experiment c))) in Hs.
  rewrite derive_steps_opp in Hs.
  destruct (derive_steps _ (- batch_size_of (experiment c)) _) as [k |] eqn:Hk;
    [| discriminate].
  cbn [bind] in Hs. injection Hs as <-.
  apply (derive_steps_value _ _ _ _ Hn) in Hk; [| lia].
  assert (Hk' : k = num_train_samples d / - samples_per_step (experiment c)).
  { rewrite Hk. f_equal. unfold samples_per_step. ring. }
  split; [now rewrite Hk' |].
  assert (0 <= k); [| lia].
  rewrite Hk. apply Z.div_pos; [lia |].
  destruct (do_bucket_by_size_of _); lia.
Qed.

(** X12: in every config the builder returns for a positive batch size, a
    warmup of at most [epochs] epochs gives a schedule whose warmup fits in
    its decay: [0 <= warmup_steps <= decay_steps = training_steps]. *)
Theorem schedule_warmup_within_decay (preset : string) (cfg : Config Base) :
  build preset = Ok cfg ->
  0 < batch_size_of (experiment cfg) ->
  0 <= warmup_epochs cfg <= epochs cfg ->
  0 <= LrSchedule.warmup_steps (lr_schedule_of (experiment cfg))
    <= LrSchedule.decay_steps (lr_schedule_of (experiment cfg)) /\
  LrSchedule.decay_steps (lr_schedule_of (experiment cfg))
    = training_steps cfg.
Proof.
  intros H HB Hw. apply build_Ok in H as [c [Hc H]].
  apply resolve_Ok in H as [d [spe [b [Hd [Hs [_ ->]]]]]].
  change (batch_size_of (experiment (resolved c d spe b)))
    with (batch_size_of (experiment c)) in HB.
  change (warmup_epochs (resolved c d spe b)) with (warmup_epochs c) in Hw.
  change (epochs (resolved c d spe b)) with (epochs c) in Hw.
  split; [| reflexivity].
  change (0 <= warmup_epochs c * spe <= epochs c * spe).
  pose proof (registry_samples_range _ d Hd) as Hn.
  rewrite steps_per_epoch_eq in Hs.
  apply (derive_steps_value _ _ _ _ Hn HB) in Hs.
  assert (0 <= spe).
  { rewrite Hs. apply Z.div_pos; [lia |].
    destruct (do_bucket_by_size_of _); lia. }
  nia.
Qed.

(** X13: scaling by the batch size keeps a zero learning rate zero: in every
    config the builder returns, each of [init_value], [peak_value] and
    [end_value] that was zero after the presets (as [init_value] and
    [end_value] are by default) is zero. *)
Theorem zero_rate_stays_zero (preset : string) (cfg : Config Base) :
  build preset = Ok cfg ->
  exists c,
    after_presets preset = Ok c /\
    ((LrSchedule.init_value (lr_schedule_of (experiment c)) =? 0)%float = true
     -> (LrSchedule.init_value (lr_schedule_of (experiment cfg)) =? 0)%float
        = true) /\
    ((LrSchedule.peak_value (lr_schedule_of (experiment c)) =? 0)%float = true
     -> (LrSchedule.peak_value (lr_schedule_of (experiment cfg)) =? 0)%float
        = true) /\
    ((LrSchedule.end_value (lr_schedule_of (experiment c)) =? 0)%float = true
     -> (LrSchedule.end_value (lr_schedule_of (experiment cfg)) =? 0)%float
        = true).
Proof.
  intros H. apply build_Ok in H as [c [Hc H]].
  apply resolve_Ok in H as [d [spe [b [_ [_ [Hb ->]]]]]].
  apply float_of_int_finite in Hb.
  exists c. split; [exact Hc |].
  repeat split; intros Hv; apply (mul_zero_finite _ b Hv Hb).
Qed.

(** X14: for a batch size [B] with [0 < B < 2^53] the factor of the
    learning-rate scaling is [B] exactly: [v *= batch_size] returns [v * b]
    for the float [b] whose value is [B]. *)
Theorem batch_size_factor_exact (v : float) (B : Z) :
  0 < B < 2 ^ 53 ->
  exists b,
    imul_batch_size v B = Ok (v * b)%float /\
    finite_SF (Prim2SF b) = true /\
    Qeq (Q_of_SF (Prim2SF b)) (inject_Z B).
Proof.
  intros HB.
  assert (Hd : Zdigits2 B <= 53) by (apply Zdigits2_le; lia).
  destruct (float_of_int_exact B ltac:(lia) Hd) as [b [m [Hb [Hsb [Hm _]]]]].
  exists b. rewrite imul_batch_size_eq, Hb, Hsb.
  split; [reflexivity |]. split; [reflexivity |].
  apply Q_of_SF_exact; [lia | exact Hd | exact Hm].
Qed.

(** X18: for a dataset of fewer than [2^50] samples, multiplying a
    positive batch size by [m] divides [steps_per_epoch] by [m], rounding
    down. *)
Theorem steps_divide_by_batch_multiple (e : Experiment.t) (d : Dataset)
  (m spe : Z) :
  0 < num_train_samples d < 2 ^ 50 ->
  0 < batch_size_of e ->
  0 < m ->
  m * batch_size_of e < 2 ^ 1023 ->
  steps_per_epoch e d = Ok spe ->
  steps_per_epoch (set_batch_size (m * batch_size_of e) e) d = Ok (spe / m).
Proof.
  intros Hn HB Hm Hsmall Hs.
  rewrite steps_per_epoch_eq in *.
  apply (derive_steps_value _ _ _ _ Hn HB) in Hs.
  change (derive_steps (num_train_samples d) (m * batch_size_of e)
            (do_bucket_by_size_of e) = Ok (spe / m)).
  rewrite derive_steps_positive by (assumption || nia).
  f_equal. rewrite Hs, Z.div_div.
  - f_equal. ring.
  - destruct (do_bucket_by_size_of e); lia.
  - exact Hm.
Qed.

(** X19: for a dataset of fewer than [2^50] samples, bucketing with the
    batch size [2 * k] gives the [steps_per_epoch] of the batch size [7 * k]
    without bucketing: the factor 3.5 acts on the step count as an exact
    rational factor, whatever the rounding of the float arithmetic. *)
Theorem bucketing_equals_larger_batch (e : Experiment.t) (d : Dataset)
  (k : Z) :
  0 < num_train_samples d < 2 ^ 50 ->
  0 < k < 2 ^ 1020 ->
  steps_per_epoch
    (set_do_bucket_by_size true (set_batch_size (2 * k) e)) d
  = steps_per_epoch
      (set_do_bucket_by_size false (set_batch_size (7 * k) e)) d /\
  steps_per_epoch
    (set_do_bucket_by_size true (set_batch_size (2 * k) e)) d
  = Ok (num_train_samples d / (56 * k)).
Proof.
  intros Hn Hk.
  assert (H2 : 2 ^ 1023 = 8 * 2 ^ 1020) by reflexivity.
  rewrite !steps_per_epoch_eq.
  change (derive_steps (num_train_samples d) (2 * k) true
          = derive_steps (num_train_samples d) (7 * k) false /\
          derive_steps (num_train_samples d) (2 * k) true
          = Ok (num_train_samples d / (56 * k))).
  rewrite !derive_steps_positive by (assumption || lia).
  split; f_equal; f_equal; ring.
Qed.

(** X16: [get_default_config] returns for every base config, which it
    carries along unchanged. Its step counts are placeholders:
    [training_steps] and the schedule's [decay_steps] are [epochs] times
    [floor(405000 / 48 / 8)], the schedule's [warmup_steps] is the number of
    warmup epochs, and [dataset] is unset. The builder never returns the
    placeholder: with no presets its [training_steps] differs. *)
Theorem default_config_placeholders :
  exists d cfg,
    default_config = Ok d /\
    base d = get_base_config /\
    restore_path d = base_restore_path /\
    training_steps d
      = epochs d * (405000 / (training_batch_size * train_devices)) /\
    LrSchedule.decay_steps (lr_schedule_of (experiment d))
      = training_steps d /\
    LrSchedule.warmup_steps (lr_schedule_of (experiment d))
      = warmup_epochs d /\
    Evaluation.batch_size (Experiment.evaluation (experiment d))
      = batch_size_of (experiment d) /\
    Experiment.dataset (experiment d) = None /\
    build "" = Ok cfg /\
    training_steps cfg <> training_steps d.
Proof.
  do 2 eexists.
  split; [vm_compute; reflexivity |].
  do 7 (split; [reflexivity |]).
  split; [vm_compute; reflexivity |].
  discriminate.
Qed.

(** X17: when the dataset name after the presets is registered, a batch
    size of magnitude [2^1024] or more makes the builder raise an overflow
    error, from the conversion of the batch size to a float. *)
Theorem huge_batch_size_overflows (preset : string) (c : Config Base) :
  after_presets preset = Ok c ->
  In (Experiment.dataset_name (experiment c)) (keys datasets) ->
  2 ^ 1024 <= Z.abs (batch_size_of (experiment c)) ->
  build preset = Raise OverflowError.
Proof.
  intros Hc Hk HB. unfold get_config. rewrite Hc. cbn [bind].
  rewrite resolve_eq. apply dict_get_In in Hk as [d Hd]. rewrite Hd.
  pose proof (float_of_int_huge _ HB) as Hb.
  rewrite steps_per_epoch_eq, Hb.
  assert (H0 : batch_size_of (experiment c) <> 0).
  { pose proof (Z.pow_pos_nonneg 2 1024). lia. }
  destruct (do_bucket_by_size_of (experiment c)).
  - now rewrite (derive_steps_bucketed_overflow _ _ Hb).
  - destruct (derive_steps_unbucketed_total _ _ (registry_samples _ d Hd) H0)
      as [spe ->].
    reflexivity.
Qed.

End BuilderProperties.

(** X15: the registry has no two entries for one key, so that every entry of
    the literal is the one its key looks up, and the [name] and the [path] of
    a record each identify its key. *)
Theorem registry_entries_unique :
  NoDup (keys datasets) /\
  (forall k d, In (k, d) datasets <-> dict_get datasets k = Some d) /\
  (forall k1 k2 d1 d2,
     dict_get datasets k1 = Some d1 -> dict_get datasets k2 = Some d2 ->
     name d1 = name d2 \/ path d1 = path d2 -> k1 = k2).
Proof.
  split.
  { repeat constructor; simpl; intuition discriminate. }
  split.
  - intros k d. split.
    + simpl. intros [H | [H | [H | [H | []]]]]; injection H as <- <-;
        reflexivity.
    + intros H. apply dict_get_datasets in H.
      destruct H as [[-> ->] | [[-> ->] | [[-> ->] | [-> ->]]]];
        simpl; auto.
  - intros k1 k2 d1 d2 H1 H2 H.
    apply dict_get_datasets in H1, H2.
    destruct H1 as [[-> ->] | [[-> ->] | [[-> ->] | [-> ->]]]];
      destruct H2 as [[-> ->] | [[-> ->] | [[-> ->] | [-> ->]]]];
      try reflexivity; destruct H as [H | H]; discriminate.
Qed.

(** ** The further properties at concrete presets *)

Lemma repeated_presets_ignored_witness :
  "sn,bucket" <> "" /\
  (forall name,
     In name (split "," "bucket,sn") -> In name (split "," "sn,bucket")) /\
  get_config unit tt None (apply_overrides example_presets)
    "sn,bucket,bucket,sn"
  = get_config unit tt None (apply_overrides example_presets) "sn,bucket".
Proof.
  assert (H1 : "sn,bucket" <> "") by discriminate.
  assert (H2 : forall name,
             In name (split "," "bucket,sn") ->
             In name (split "," "sn,bucket")).
  { simpl. intros name [H | [H | []]]; auto. }
  split; [exact H1 |]. split; [exact H2 |].
  exact (repeated_presets_ignored tt None (apply_overrides example_presets)
           "sn,bucket" "bucket,sn" H1 H2).
Defined.

Lemma unique_presets_normal_form_witness :
  unique_presets "a,b,a" <> [""] /\
  join_commas (unique_presets "a,b,a") = "a,b" /\
  unique_presets "a,b" = unique_presets "a,b,a" /\
  get_config unit tt None (apply_overrides example_presets) "a,b"
  = get_config unit tt None (apply_overrides example_presets) "a,b,a".
Proof.
  assert (H : unique_presets "a,b,a" <> [""]) by discriminate.
  destruct (unique_presets_normal_form tt None
              (apply_overrides example_presets) "a,b,a" H) as [H1 [_ H2]].
  split; [exact H |]. split; [reflexivity |].
  split; [exact H1 | exact H2].
Defined.

Lemma build_frame_witness :
  exists cfg c,
    get_config unit tt None (apply_overrides example_presets) "sn,batch64"
      = Ok cfg /\
    preset_config unit tt None (apply_overrides example_presets) "sn,batch64"
      = Ok c /\
    restore_path cfg = restore_path c /\
    Experiment.training (experiment cfg) = Training.mk 64 /\
    Experiment.dataset_name (experiment cfg) = "sn-7to11-12-13to16".
Proof.
  assert (H : exists cfg,
             get_config unit tt None (apply_overrides example_presets)
               "sn,batch64" = Ok cfg)
    by (eexists; vm_compute; reflexivity).
  destruct H as [cfg H].
  destruct (build_frame tt None _ _ cfg H)
    as [c [d [Hc [_ [_ [[_ [Hr _]] [[_ [_ [Hn [_ [_ [_ [Ht _]]]]]]] _]]]]]]].
  exists cfg, c. split; [exact H |]. split; [exact Hc |].
  split; [exact Hr |].
  vm_compute in Hc. injection Hc as <-.
  split; [exact Ht | exact Hn].
Defined.

Lemma steps_cover_dataset_witness :
  exists cfg,
    get_config unit tt None (apply_overrides example_presets) "sn,bucket"
      = Ok cfg /\
    0 < batch_size_of (experiment cfg) /\
    samples_per_step (experiment cfg) = 1344 /\
    exists spe,
      training_steps cfg = epochs cfg * spe /\
      1344 * spe <= 800000 < 1344 * (spe + 1).
Proof.
  assert (H : exists cfg,
             get_config unit tt None (apply_overrides example_presets)
               "sn,bucket" = Ok cfg /\
             batch_size_of (experiment cfg) = 48 /\
             samples_per_step (experiment cfg) = 1344 /\
             Experiment.dataset (experiment cfg) = Some SORTING_NETWORKS).
  { eexists. split; [vm_compute; reflexivity |]. repeat split. }
  destruct H as [cfg [H [HB [Hs Hd]]]].
  assert (Hpos : 0 < batch_size_of (experiment cfg))
    by (rewrite HB; reflexivity).
  destruct (steps_cover_dataset tt None _ _ cfg H Hpos)
    as [d [spe [Hd' [_ [Ht [Hlo [Hhi _]]]]]]].
  exists cfg. split; [exact H |]. split; [exact Hpos |].
  split; [exact Hs |]. exists spe. split; [exact Ht |].
  rewrite Hd in Hd'. injection Hd' as <-. rewrite Hs in Hlo, Hhi.
  split; [exact Hlo | exact Hhi].
Defined.

Lemma steps_antitone_in_batch_size_witness :
  exists c1 c2,
    preset_config unit tt None (apply_overrides example_presets) "" = Ok c1 /\
    preset_config unit tt None (apply_overrides example_presets)
      "bucket,batch64" = Ok c2 /\
    steps_per_epoch (experiment c1) OGBG_CODE2 = Ok 1062 /\
    steps_per_epoch (experiment c2) OGBG_CODE2 = Ok 227 /\
    0 <= 227 <= 1062.
Proof.
  assert (H : exists c1 c2,
             preset_config unit tt None (apply_overrides example_presets) ""
               = Ok c1 /\
             preset_config unit tt None (apply_overrides example_presets)
               "bucket,batch64" = Ok c2 /\
             batch_size_of (experiment c1) = 48 /\
             batch_size_of (experiment c2) = 64 /\
             do_bucket_by_size_of (experiment c2) = true /\
             steps_per_epoch (experiment c1) OGBG_CODE2 = Ok 1062 /\
             steps_per_epoch (experiment c2) OGBG_CODE2 = Ok 227).
  { do 2 eexists. split; [vm_compute; reflexivity |].
    split; [vm_compute; reflexivity |].
    repeat split; vm_compute; reflexivity. }
  destruct H as [c1 [c2 [H1 [H2 [HB1 [HB2 [Hf [Hs1 Hs2]]]]]]]].
  exists c1, c2. repeat (split; [assumption |]).
  apply (steps_antitone_in_batch_size (experiment c1) (experiment c2)
           OGBG_CODE2 1062 227).
  - simpl. lia.
  - rewrite HB1, HB2. lia.
  - intros _. exact Hf.
  - exact Hs1.
  - exact Hs2.
Defined.

Lemma negated_batch_size_negates_steps_witness :
  exists c,
    preset_config unit tt None (apply_overrides example_presets) "" = Ok c /\
    batch_size_of (experiment c) <> 0 /\
    steps_per_epoch (set_batch_size (- batch_size_of (experiment c))
                       (experiment c)) OGBG_CODE2
      = Ok (- 1062).
Proof.
  assert (H : exists c,
             preset_config unit tt None (apply_overrides example_presets) ""
               = Ok c /\
             batch_size_of (experiment c) = 48 /\
             steps_per_epoch (experiment c) OGBG_CODE2 = Ok 1062).
  { eexists. split; [vm_compute; reflexivity |].
    split; [reflexivity | vm_compute; reflexivity]. }
  destruct H as [c [Hc [HB Hs]]].
  assert (H0 : batch_size_of (experiment c) <> 0)
    by (rewrite HB; discriminate).
  destruct (negated_batch_size_negates_steps (experiment c) OGBG_CODE2
              0%float H0) as [H _].
  exists c. split; [exact Hc |]. split; [exact H0 |].
  rewrite H, Hs. reflexivity.
Defined.

Lemma negative_batch_size_steps_witness :
  exists cfg,
    get_config unit tt None
      (apply_overrides [("negative", set_batch_size (- 48))]) "negative"
      = Ok cfg /\
    batch_size_of (experiment cfg) < 0 /\
    training_steps cfg = epochs cfg * - 1062.
Proof.
  assert (H : exists cfg,
             get_config unit tt None
               (apply_overrides [("negative", set_batch_size (- 48))])
               "negative" = Ok cfg /\
             batch_size_of (experiment cfg) = - 48 /\
             samples_per_step (experiment cfg) = - 384 /\
             Experiment.dataset (experiment cfg) = Some OGBG_CODE2).
  { eexists. split; [vm_compute; reflexivity |]. repeat split. }
  destruct H as [cfg [H [HB [Hs Hd]]]].
  assert (Hneg : batch_size_of (experiment cfg) < 0)
    by (rewrite HB; reflexivity).
  destruct (negative_batch_size_steps tt None _ _ cfg H Hneg)
    as [d [spe [Hd' [_ [Ht [Hv _]]]]]].
  exists cfg. split; [exact H |]. split; [exact Hneg |].
  rewrite Hd in Hd'. injection Hd' as <-. rewrite Hs in Hv.
  rewrite Ht, Hv. reflexivity.
Defined.

Lemma schedule_warmup_within_decay_witness :
  exists cfg,
    get_config unit tt None (apply_overrides example_presets) "batch64"
      = Ok cfg /\
    0 < batch_size_of (experiment cfg) /\
    0 <= warmup_epochs cfg <= epochs cfg /\
    0 <= LrSchedule.warmup_steps (lr_schedule_of (experiment cfg))
      <= LrSchedule.decay_steps (lr_schedule_of (experiment cfg)).
Proof.
  assert (H : exists cfg,
             get_config unit tt None (apply_overrides example_presets)
               "batch64" = Ok cfg /\
             batch_size_of (experiment cfg) = 64 /\
             warmup_epochs cfg = 2 /\ epochs cfg = 32).
  { eexists. split; [vm_compute; reflexivity |]. repeat split. }
  destruct H as [cfg [H [HB [Hw He]]]].
  assert (Hpos : 0 < batch_size_of (experiment cfg))
    by (rewrite HB; reflexivity).
  assert (Hwe : 0 <= warmup_epochs cfg <= epochs cfg)
    by (rewrite Hw, He; lia).
  exists cfg. split; [exact H |]. split; [exact Hpos |].
  split; [exact Hwe |].
  exact (proj1 (schedule_warmup_within_decay tt None _ _ cfg H Hpos Hwe)).
Defined.

Lemma zero_rate_stays_zero_witness :
  exists cfg,
    get_config unit tt None (apply_overrides example_presets) "batch64"
      = Ok cfg /\
    (LrSchedule.init_value (lr_schedule_of (experiment cfg)) =? 0)%float
      = true /\
    (LrSchedule.end_value (lr_schedule_of (experiment cfg)) =? 0)%float
      = true.
Proof.
  assert (H : exists cfg,
             get_config unit tt None (apply_overrides example_presets)
               "batch64" = Ok cfg)
    by (eexists; vm_compute; reflexivity).
  destruct H as [cfg H]. exists cfg. split; [exact H |].
  destruct (zero_rate_stays_zero tt None _ _ cfg H)
    as [c [Hc [Hi [_ He]]]].
  vm_compute in Hc. injection Hc as <-.
  split; [apply Hi | apply He]; reflexivity.
Defined.

Lemma batch_size_factor_exact_witness :
  0 < 48 < 2 ^ 53 /\
  exists b,
    imul_batch_size (1e-4 / 32)%float 48 = Ok ((1e-4 / 32) * b)%float /\
    Qeq (Q_of_SF (Prim2SF b)) (inject_Z 48).
Proof.
  assert (H : 0 < 48 < 2 ^ 53) by (split; reflexivity).
  split; [exact H |].
  destruct (batch_size_factor_exact (1e-4 / 32)%float 48 H)
    as [b [Hb [_ Hq]]].
  exists b. split; [exact Hb | exact Hq].
Defined.

Lemma huge_batch_size_overflows_witness :
  exists c,
    preset_config unit tt None
      (apply_overrides [("huge", set_batch_size (2 ^ 1024))]) "huge" = Ok c /\
    In (Experiment.dataset_name (experiment c)) (keys datasets) /\
    2 ^ 1024 <= Z.abs (batch_size_of (experiment c)) /\
    get_config unit tt None
      (apply_overrides [("huge", set_batch_size (2 ^ 1024))]) "huge"
      = Raise OverflowError.
Proof.
  assert (H : exists c,
             preset_config unit tt None
               (apply_overrides [("huge", set_batch_size (2 ^ 1024))]) "huge"
               = Ok c /\
             Experiment.dataset_name (experiment c) = "ogbg-code2" /\
             batch_size_of (experiment c) = 2 ^ 1024).
  { eexists. split; [vm_compute; reflexivity |]. split; reflexivity. }
  destruct H as [c [Hc [Hn HB]]].
  assert (Hk : In (Experiment.dataset_name (experiment c)) (keys datasets))
    by (rewrite Hn; simpl; auto).
  assert (Hh : 2 ^ 1024 <= Z.abs (batch_size_of (experiment c)))
    by (rewrite HB; vm_compute; discriminate).
  exists c. split; [exact Hc |]. split; [exact Hk |]. split; [exact Hh |].
  exact (huge_batch_size_overflows tt None _ "huge" c Hc Hk Hh).
Defined.

Lemma steps_divide_by_batch_multiple_witness :
  exists c,
    preset_config unit tt None (apply_overrides example_presets) "" = Ok c /\
    batch_size_of (experiment c) = 48 /\
    steps_per_epoch (experiment c) OGBG_CODE2 = Ok 1062 /\
    steps_per_epoch (set_batch_size (4 * 48) (experiment c)) OGBG_CODE2
      = Ok 265.
Proof.
  assert (H : exists c,
             preset_config unit tt None (apply_overrides example_presets) ""
               = Ok c /\
             batch_size_of (experiment c) = 48 /\
             steps_per_epoch (experiment c) OGBG_CODE2 = Ok 1062).
  { eexists. split; [vm_compute; reflexivity |].
    split; [reflexivity | vm_compute; reflexivity]. }
  destruct H as [c [Hc [HB Hs]]].
  exists c. split; [exact Hc |]. split; [exact HB |]. split; [exact Hs |].
  rewrite <- HB.
  apply (steps_divide_by_batch_multiple (experiment c) OGBG_CODE2 4 1062).
  - simpl. lia.
  - rewrite HB. reflexivity.
  - reflexivity.
  - rewrite HB. reflexivity.
  - exact Hs.
Defined.

Lemma bucketing_equals_larger_batch_witness :
  exists c,
    preset_config unit tt None (apply_overrides example_presets) "" = Ok c /\
    0 < num_train_samples SORTING_NETWORKS < 2 ^ 50 /\
    0 < 32 < 2 ^ 1020 /\
    steps_per_epoch
      (set_do_bucket_by_size true (set_batch_size (2 * 32) (experiment c)))
      SORTING_NETWORKS
    = Ok 446.
Proof.
  assert (H : exists c,
             preset_config unit tt None (apply_overrides example_presets) ""
               = Ok c)
    by (eexists; vm_compute; reflexivity).
  destruct H as [c Hc].
  assert (Hn : 0 < num_train_samples SORTING_NETWORKS < 2 ^ 50)
    by (simpl; lia).
  assert (Hk : 0 < 32 < 2 ^ 1020) by (split; reflexivity).
  exists c. split; [exact Hc |]. split; [exact Hn |]. split; [exact Hk |].
  exact (proj2 (bucketing_equals_larger_batch (experiment c)
                  SORTING_NETWORKS 32 Hn Hk)).
Defined.
